(** * FASTQFile: a shallow embedding of share/FASTQFile.py

    The development follows the Python module class by class:
    string primitives of the Python runtime that the module calls
    ([strip], [split], [startswith], [int]), then [SequenceIdentifier],
    [FastqRead], the file objects and [FastqIterator], and [nreads]. *)

From Stdlib Require Import ZArith String Ascii List Bool Lia DecimalString Sorted.
From stdpp Require Import base option gmap strings fin_maps.
From Equations.Prop Require Import Equations Logic.

Import ListNotations.
Local Open Scope string_scope.
Local Open Scope Z_scope.

(** ** Python values and exceptions *)

(** The values stored in attributes of a [SequenceIdentifier]: [None] or a
    [str].  A Python 2 [str] is a byte string, here a [string] of 8-bit
    [ascii]. *)
Inductive value : Type :=
| PyNone
| PyStr (s : string).

#[global] Instance value_eq_dec : EqDecision value.
Proof. solve_decision. Defined.

(** The exceptions that the module raises or that the runtime raises in it. *)
Inductive exn : Type :=
| StopIteration
| IndexError
| AttributeError
| ValueError
| TypeError
| IOError
| Exception_ (msg : string).

#[global] Instance exn_eq_dec : EqDecision exn.
Proof. solve_decision. Defined.

(** The outcome of a call: it returns or it raises. *)
Inductive outcome (A : Type) : Type :=
| Return (a : A)
| Raise (e : exn).
Arguments Return {A} a.
Arguments Raise {A} e.

Module Outcome.

Definition bind {A B} (o : outcome A) (k : A → outcome B) : outcome B :=
  match o with
  | Return a => k a
  | Raise e => Raise e
  end.

(** [try: body except Exception: handler]; every constructor of [exn] is a
    subclass of [Exception]. *)
Definition try_except {A} (body : outcome A) (handler : outcome A) : outcome A :=
  match body with
  | Return a => Return a
  | Raise _ => handler
  end.

(** The value a call returned, if it returned. *)
Definition returned {A} (o : outcome A) : option A :=
  match o with
  | Return a => Some a
  | Raise _ => None
  end.

Definition raises {A} (o : outcome A) : Prop := ∃ e, o = Raise e.

End Outcome.

#[global] Instance outcome_ret : MRet outcome := @Return.
#[global] Instance outcome_bind : MBind outcome := λ A B k o, Outcome.bind o k.

(** ** String primitives of the Python runtime *)

Module Str.

(** [str.isspace] on one byte in the C locale: tab, LF, VT, FF, CR, space. *)
Definition is_space (c : ascii) : bool :=
  let n := N_of_ascii c in
  ((9 <=? n)%N && (n <=? 13)%N) || (n =? 32)%N.

Definition is_digit (c : ascii) : bool :=
  let n := N_of_ascii c in
  (48 <=? n)%N && (n <=? 57)%N.

Fixpoint len (s : string) : Z :=
  match s with
  | EmptyString => 0
  | String _ s' => 1 + len s'
  end.

Fixpoint lstrip (s : string) : string :=
  match s with
  | EmptyString => EmptyString
  | String c s' => if is_space c then lstrip s' else s
  end.

Fixpoint rstrip (s : string) : string :=
  match s with
  | EmptyString => EmptyString
  | String c s' =>
      match rstrip s' with
      | EmptyString => if is_space c then EmptyString else String c EmptyString
      | t => String c t
      end
  end.

(** [s.strip()] *)
Definition strip (s : string) : string := rstrip (lstrip s).

(** [s.startswith(p)] *)
Fixpoint startswith (s p : string) : bool :=
  match p, s with
  | EmptyString, _ => true
  | String _ _, EmptyString => false
  | String a p', String b s' => if decide (a = b) then startswith s' p' else false
  end.

(** [s[1:]] *)
Definition tail (s : string) : string :=
  match s with
  | EmptyString => EmptyString
  | String _ s' => s'
  end.

(** [s.split(sep)] for a separator of one character; the result is never
    empty. *)
Fixpoint split (sep : ascii) (s : string) : list string :=
  match s with
  | EmptyString => [EmptyString]
  | String c s' =>
      if decide (c = sep) then EmptyString :: split sep s'
      else match split sep s' with
           | [] => [String c EmptyString]
           | x :: xs => String c x :: xs
           end
  end.

(** [s.count(c)] for a pattern of one character. *)
Fixpoint count (c : ascii) (s : string) : Z :=
  match s with
  | EmptyString => 0
  | String a s' => (if decide (a = c) then 1 else 0) + count c s'
  end.

(** [c in chars] for a single character [c]. *)
Fixpoint mem (c : ascii) (chars : string) : bool :=
  match chars with
  | EmptyString => false
  | String a chars' => if decide (a = c) then true else mem c chars'
  end.

Fixpoint digits (acc : Z) (s : string) : option Z :=
  match s with
  | EmptyString => Some acc
  | String c s' =>
      if is_digit c then digits (10 * acc + (Z.of_N (N_of_ascii c) - 48)) s'
      else None
  end.

(** [int(s)] of Python 2 on a [str]: surrounding whitespace is skipped, a
    sign may precede the digits (whitespace between the sign and the digits
    is skipped by the C conversion routine), at least one decimal digit is
    required and nothing else may follow.  [None] stands for [ValueError]. *)
Definition to_int (s : string) : option Z :=
  let s1 := lstrip s in
  let '(neg, s2) :=
    match s1 with
    | String "-" t => (true, t)
    | String "+" t => (false, t)
    | _ => (false, s1)
    end in
  match rstrip (lstrip s2) with
  | EmptyString => None
  | ds => (fun v => if neg : bool then - v else v) <$> digits 0 ds
  end.

End Str.

(** [fields[i]]: [None] stands for [IndexError]. *)
Definition item {A} (l : list A) (i : nat) : option A := l !! i.

(** [int(v)] *)
Definition int (v : value) : outcome Z :=
  match v with
  | PyNone => Raise TypeError
  | PyStr s =>
      match Str.to_int s with
      | Some n => Return n
      | None => Raise ValueError
      end
  end.

(** [l.sort()] on a list of integers. *)
Fixpoint insert_sorted (x : Z) (l : list Z) : list Z :=
  match l with
  | [] => [x]
  | y :: l' => if x <=? y then x :: l else y :: insert_sorted x l'
  end.

Definition sort (l : list Z) : list Z := foldr insert_sorted [] l.
Arguments sort : simpl never.

(** ["%s" % v] *)
Definition fmt (v : value) : string :=
  match v with
  | PyNone => "None"
  | PyStr s => s
  end.

(** ** class SequenceIdentifier *)

Module SequenceIdentifier.

(** An instance: the private [__seqid], the [format] attribute, and the
    instance dictionary holding the attributes that [__init__] assigns
    while it parses.  An attribute missing from [attrs] has not been
    assigned: reading it raises [AttributeError]. *)
Record t : Type := mk {
  __seqid : string;
  format : value;
  attrs : gmap string value
}.

(** [self.name = v] *)
Definition setattr (name : string) (v : value) (self : t) : t :=
  mk (__seqid self) (format self) (<[name := v]> (attrs self)).

Definition set_format (v : value) (self : t) : t :=
  mk (__seqid self) v (attrs self).

(** [self.name] *)
Definition getattr (self : t) (name : string) : outcome value :=
  match attrs self !! name with
  | Some v => Return v
  | None => Raise AttributeError
  end.

(** The body of a [try:] block of [__init__]: statements run on [self] in
    order; the only operation in them that can raise is list indexing, so
    [None] stands for [IndexError], and the state returned with it holds
    the assignments made before the raise. *)
Definition Body (A : Type) : Type := t → option A * t.

#[global] Instance Body_ret : MRet Body := λ A a self, (Some a, self).
#[global] Instance Body_bind : MBind Body := λ A B k m self,
  match m self with
  | (Some a, self') => k a self'
  | (None, self') => (None, self')
  end.

(** [self.name = rhs], where evaluating [rhs] may raise [IndexError]. *)
Definition assign (name : string) (rhs : option value) : Body unit :=
  λ self,
    match rhs with
    | Some v => (Some (), setattr name v self)
    | None => (None, self)
    end.

Definition assign_format (v : value) : Body unit :=
  λ self, (Some (), set_format v self).

(** [fields[i]] as a value *)
Definition field (fields : list string) (i : nat) : option value :=
  PyStr <$> item fields i.

(** [fields[i].split(sep)[j]] *)
Definition subfield (fields : list string) (i : nat) (sep : ascii) (j : nat)
  : option value :=
  f ← item fields i; PyStr <$> item (Str.split sep f) j.

(** [fields[i].split(sep1)[j].split(sep2)[k]] *)
Definition subsubfield (fields : list string) (i : nat) (sep1 : ascii) (j : nat)
    (sep2 : ascii) (k : nat) : option value :=
  f ← item fields i; g ← item (Str.split sep1 f) j;
  PyStr <$> item (Str.split sep2 g) k.

(** Illumina 1.8+ format, lines 209-224. *)
Definition illumina18_body (seqid : string) : Body unit :=
  let fields := Str.split ":" (Str.tail seqid) in
  assign "instrument_name" (field fields 0);;
  assign "run_id" (field fields 1);;
  assign "flowcell_id" (field fields 2);;
  assign "flowcell_lane" (field fields 3);;
  assign "tile_no" (field fields 4);;
  assign "x_coord" (field fields 5);;
  assign "y_coord" (subfield fields 6 " " 0);;
  assign "multiplex_index_no" (Some PyNone);;
  assign "pair_id" (subfield fields 6 " " 1);;
  assign "bad_read" (field fields 7);;
  assign "control_bit_flag" (field fields 8);;
  assign "index_sequence" (field fields 9);;
  assign_format (PyStr "illumina18").

(** Earlier Illumina format (1.3/1.5), lines 229-244. *)
Definition illumina_body (seqid : string) : Body unit :=
  let fields := Str.split ":" (Str.tail seqid) in
  assign "instrument_name" (field fields 0);;
  assign "run_id" (Some PyNone);;
  assign "flowcell_id" (Some PyNone);;
  assign "flowcell_lane" (field fields 1);;
  assign "tile_no" (field fields 2);;
  assign "x_coord" (field fields 3);;
  assign "y_coord" (subfield fields 4 "#" 0);;
  assign "multiplex_index_no" (subsubfield fields 4 "#" 1 "/" 0);;
  assign "pair_id" (subsubfield fields 4 "#" 1 "/" 1);;
  assign "bad_read" (Some PyNone);;
  assign "control_bit_flag" (Some PyNone);;
  assign "index_sequence" (Some PyNone);;
  assign_format (PyStr "illumina").

(** [SequenceIdentifier(seqid)] *)
Definition __init__ (seqid : string) : t :=
  let self := mk (Str.strip seqid) PyNone ∅ in
  if Str.startswith seqid "@" then
    match illumina18_body (__seqid self) self with
    | (Some _, self) => self                     (* return *)
    | (None, self) =>                            (* except IndexError: pass *)
        match illumina_body (__seqid self) self with
        | (Some _, self) => self                 (* return *)
        | (None, self) => self                   (* except IndexError: pass *)
        end
    end
  else self.

(** [self.name == seqid.name] *)
Definition attr_eq (self seqid : t) (name : string) : outcome bool :=
  a ← getattr self name; b ← getattr seqid name; mret (bool_decide (a = b)).

(** [x and y] on comparisons: [y] is evaluated only if [x] is true. *)
Definition and_ (x y : outcome bool) : outcome bool :=
  b ← x; if b : bool then y else mret false.

(** The expression returned by [is_pair_of], lines 259-269. *)
Definition compare_attrs (self seqid : t) : outcome bool :=
  and_ (attr_eq self seqid "instrument_name")
  (and_ (attr_eq self seqid "run_id")
  (and_ (attr_eq self seqid "flowcell_id")
  (and_ (attr_eq self seqid "flowcell_lane")
  (and_ (attr_eq self seqid "tile_no")
  (and_ (attr_eq self seqid "x_coord")
  (and_ (attr_eq self seqid "y_coord")
  (and_ (attr_eq self seqid "multiplex_index_no")
  (and_ (attr_eq self seqid "bad_read")
  (and_ (attr_eq self seqid "control_bit_flag")
        (attr_eq self seqid "index_sequence")))))))))).

(** [self.is_pair_of(seqid)] *)
Definition is_pair_of (self seqid : t) : outcome bool :=
  p1 ← getattr self "pair_id"; i1 ← int p1;
  p2 ← getattr seqid "pair_id"; i2 ← int p2;
  let read_indices := sort [i1; i2] in
  if bool_decide (read_indices ≠ [1; 2]) then mret false
  else Outcome.try_except (compare_attrs self seqid) (mret false).

(** [repr(self)] *)
Definition __repr__ (self : t) : outcome string :=
  if bool_decide (format self = PyStr "illumina18") then
    instrument_name ← getattr self "instrument_name";
    run_id ← getattr self "run_id";
    flowcell_id ← getattr self "flowcell_id";
    flowcell_lane ← getattr self "flowcell_lane";
    tile_no ← getattr self "tile_no";
    x_coord ← getattr self "x_coord";
    y_coord ← getattr self "y_coord";
    pair_id ← getattr self "pair_id";
    bad_read ← getattr self "bad_read";
    control_bit_flag ← getattr self "control_bit_flag";
    index_sequence ← getattr self "index_sequence";
    mret ("@" ++ fmt instrument_name ++ ":" ++ fmt run_id ++ ":"
          ++ fmt flowcell_id ++ ":" ++ fmt flowcell_lane ++ ":"
          ++ fmt tile_no ++ ":" ++ fmt x_coord ++ ":" ++ fmt y_coord ++ " "
          ++ fmt pair_id ++ ":" ++ fmt bad_read ++ ":"
          ++ fmt control_bit_flag ++ ":" ++ fmt index_sequence)%string
  else if bool_decide (format self = PyStr "illumina") then
    instrument_name ← getattr self "instrument_name";
    flowcell_lane ← getattr self "flowcell_lane";
    tile_no ← getattr self "tile_no";
    x_coord ← getattr self "x_coord";
    y_coord ← getattr self "y_coord";
    multiplex_index_no ← getattr self "multiplex_index_no";
    pair_id ← getattr self "pair_id";
    mret ("@" ++ fmt instrument_name ++ ":" ++ fmt flowcell_lane ++ ":"
          ++ fmt tile_no ++ ":" ++ fmt x_coord ++ ":" ++ fmt y_coord ++ "#"
          ++ fmt multiplex_index_no ++ "/" ++ fmt pair_id)%string
  else
    (* Return what was put in *)
    mret (__seqid self).

End SequenceIdentifier.

(** [ord(c)] *)
Definition ord (c : ascii) : Z := Z.of_N (N_of_ascii c).

(** [chr(n)]; [ValueError] outside [range(256)]. *)
Definition chr (n : Z) : outcome string :=
  if bool_decide (0 ≤ n < 256) then
    Return (String (ascii_of_N (Z.to_N n)) EmptyString)
  else Raise ValueError.

(** [sep.join(l)] *)
Fixpoint join (sep : string) (l : list string) : string :=
  match l with
  | [] => EmptyString
  | [x] => x
  | x :: l' => x ++ sep ++ join sep l'
  end.

(** ** class FastqRead *)

Module FastqRead.

(** The four stored lines and [_seqid], the attribute in which the [seqid]
    property keeps the [SequenceIdentifier] once it has been built
    ([None] here: the attribute does not exist yet). *)
Record t : Type := mk {
  raw_seqid : string;
  sequence : string;
  optid : string;
  quality : string;
  _seqid : option SequenceIdentifier.t
}.

(** [FastqRead(seqid_line,seq_line,optid_line,quality_line)] *)
Definition __init__ (seqid_line seq_line optid_line quality_line : string) : t :=
  mk seqid_line (Str.strip seq_line) (Str.strip optid_line)
     (Str.strip quality_line) None.

(** The [seqid] property: the cached object, or a new one that is cached.
    The second component is [self] after the call. *)
Definition seqid (self : t) : SequenceIdentifier.t * t :=
  match _seqid self with
  | Some sid => (sid, self)
  | None =>
      let sid := SequenceIdentifier.__init__ (raw_seqid self) in
      (sid, mk (raw_seqid self) (sequence self) (optid self) (quality self)
               (Some sid))
  end.

(** [for c in s: if c not in '.0123': return False] and then
    [return True] *)
Fixpoint colorspace_loop (s : string) : bool :=
  match s with
  | EmptyString => true
  | String c s' => if negb (Str.mem c ".0123") then false else colorspace_loop s'
  end.

(** The [is_colorspace] property. *)
Definition is_colorspace (self : t) : bool * t :=
  let '(sid, self) := seqid self in
  if bool_decide (SequenceIdentifier.format sid = PyNone) then
    let sequence := sequence self in
    if Str.startswith sequence "T" then
      (colorspace_loop (Str.tail sequence), self)
    else (false, self)
  else (false, self).

(** The [seqlen] property. *)
Definition seqlen (self : t) : Z * t :=
  let '(colorspace, self) := is_colorspace self in
  if colorspace then (Str.len (sequence self) - 1, self)
  else (Str.len (sequence self), self).

(** The loop of [maxquality]: [maxqual] is [None] until the first
    character. *)
Fixpoint maxquality_loop (maxqual : option Z) (quality : string) : option Z :=
  match quality with
  | EmptyString => maxqual
  | String q quality' =>
      maxquality_loop
        (match maxqual with
         | None => Some (ord q)
         | Some m => Some (Z.max m (ord q))
         end) quality'
  end.

(** The [maxquality] property; [chr(None)] raises [TypeError]. *)
Definition maxquality (self : t) : outcome string :=
  match maxquality_loop None (quality self) with
  | Some maxqual => chr maxqual
  | None => Raise TypeError
  end.

Fixpoint minquality_loop (minqual : option Z) (quality : string) : option Z :=
  match quality with
  | EmptyString => minqual
  | String q quality' =>
      minquality_loop
        (match minqual with
         | None => Some (ord q)
         | Some m => Some (Z.min m (ord q))
         end) quality'
  end.

(** The [minquality] property. *)
Definition minquality (self : t) : outcome string :=
  match minquality_loop None (quality self) with
  | Some minqual => chr minqual
  | None => Raise TypeError
  end.

(** [repr(self)]: the four lines joined by line feeds, the first one the
    rendering of [self.seqid]. *)
Definition __repr__ (self : t) : outcome string * t :=
  let '(sid, self) := seqid self in
  (text ← SequenceIdentifier.__repr__ sid;
   mret (join (String "010"%char EmptyString)
           [text; sequence self; optid self; quality self]),
   self).

End FastqRead.

(** ** File objects *)

Module File.

(** A file object open for reading: the text not read yet, and whether
    [close] has been called. *)
Record t : Type := mk {
  content : string;
  closed : bool
}.

End File.

(** The world the module runs in: the file system (a path and the text that
    a handle opened on it yields; for a [.gz] path this is the decompressed
    text, so [open] and [gzip.open] are one operation here) and the file
    objects, each under the reference by which the program holds it. *)
Record world : Type := World {
  files : gmap string string;
  objs : gmap nat File.t
}.

(** Code with effects on the world that may raise. *)
Definition IO (A : Type) : Type := world → outcome A * world.

#[global] Instance IO_ret : MRet IO := λ A a w, (Return a, w).
#[global] Instance IO_bind : MBind IO := λ A B k m w,
  match m w with
  | (Return a, w') => k a w'
  | (Raise e, w') => (Raise e, w')
  end.

Definition raise {A} (e : exn) : IO A := λ w, (Raise e, w).

Definition newline : ascii := "010"%char.

(** The first line of a text, with its newline, and the rest. *)
Fixpoint cut_line (s : string) : string * string :=
  match s with
  | EmptyString => (EmptyString, EmptyString)
  | String c s' =>
      if decide (c = newline) then (String c EmptyString, s')
      else let '(line, rest) := cut_line s' in (String c line, rest)
  end.

(** The first [n] characters of a text, fewer at its end, and the rest. *)
Fixpoint cut (n : N) (s : string) : string * string :=
  match s with
  | EmptyString => (EmptyString, EmptyString)
  | String c s' =>
      if (n =? 0)%N then (EmptyString, s)
      else let '(buf, rest) := cut (N.pred n) s' in (String c buf, rest)
  end.

Definition set_obj (fp : nat) (f : File.t) (w : world) : world :=
  World (files w) (<[fp := f]> (objs w)).

(** An operation on an open file object; on a closed one the runtime raises
    [ValueError] (so it does, in this model, on a reference that holds no
    object). *)
Definition on_open {A} (fp : nat) (op : string → A * string) : IO A :=
  λ w,
    match objs w !! fp with
    | Some f =>
        if File.closed f then (Raise ValueError, w)
        else let '(a, rest) := op (File.content f) in
             (Return a, set_obj fp (File.mk rest false) w)
    | None => (Raise ValueError, w)
    end.

(** [fp.readline()] *)
Definition readline (fp : nat) : IO string := on_open fp cut_line.

(** [fp.read(size)] *)
Definition read (fp : nat) (size : N) : IO string := on_open fp (cut size).

(** [fp.close()]; closing a closed file does nothing. *)
Definition close (fp : nat) : IO unit :=
  λ w,
    match objs w !! fp with
    | Some f => (Return (), set_obj fp (File.mk (File.content f) true) w)
    | None => (Return (), w)
    end.

(** [open(path)] and [gzip.open(path)]: a new file object on the text of the
    file, [IOError] if there is no such file. *)
Definition open (path : string) : IO nat :=
  λ w,
    match files w !! path with
    | Some text =>
        let fp := fresh (dom (objs w)) in
        (Return fp, set_obj fp (File.mk text false) w)
    | None => (Raise IOError, w)
    end.

(** [get_fastq_file_handle(fastq)]; [os.path.splitext(None)] raises
    [AttributeError]. *)
Definition get_fastq_file_handle (fastq : option string) : IO nat :=
  match fastq with
  | Some path => open path
  | None => raise AttributeError
  end.

(** ** class FastqIterator *)

Module FastqIterator.

Record t : Type := mk {
  __fastq_file : option string;
  __fp : nat
}.

(** [FastqIterator(fastq_file,fp)] *)
Definition __init__ (fastq_file : option string) (fp : option nat) : IO t :=
  match fp with
  | None => h ← get_fastq_file_handle fastq_file; mret (mk fastq_file h)
  | Some fp => mret (mk fastq_file fp)
  end.

(** [self.next()] *)
Definition next (self : t) : IO FastqRead.t :=
  seqid_line ← readline (__fp self);
  seq_line ← readline (__fp self);
  optid_line ← readline (__fp self);
  quality_line ← readline (__fp self);
  if bool_decide (quality_line ≠ "") then
    mret (FastqRead.__init__ seqid_line seq_line optid_line quality_line)
  else
    (* Reached EOF *)
    (if bool_decide (__fastq_file self = None) then close (__fp self)
     else mret ());;
    raise StopIteration.

End FastqIterator.

(** ** nreads *)

Definition buf_size : N := 1024 * 1024.

(** The unread text of a file object. *)
Definition unread (fp : nat) (w : world) : string :=
  match objs w !! fp with
  | Some f => File.content f
  | None => EmptyString
  end.

(** [while buf: nlines += buf.count('\n'); buf = read_fp(buf_size)], which
    ends with the value of [nlines].  Every round with a non-empty [buf]
    leaves less text in [buf] and in the file together. *)
Equations count_lines (fp : nat) (buf : string) (nlines : Z) (w : world)
  : outcome Z * world
  by wf (String.length buf + String.length (unread fp w))%nat lt :=
  count_lines fp EmptyString nlines w := (Return nlines, w);
  count_lines fp (String c buf) nlines w with inspect (read fp buf_size w) := {
    | exist _ (Return buf', w') Hread =>
        count_lines fp buf' (nlines + Str.count newline (String c buf)) w'
    | exist _ (Raise e, w') Hread => (Raise e, w') }.
Next Obligation.
  unfold read, on_open, unread in *.
  destruct (objs w !! fp) as [f|] eqn:Hf; [|discriminate].
  destruct (File.closed f); [discriminate|].
  destruct (cut buf_size (File.content f)) as [b rest] eqn:Hcut.
  injection Hread as <- <-. simpl. rewrite lookup_insert_eq. simpl.
  assert (Hlen : ∀ s n b r, cut n s = (b, r) →
            (String.length b + String.length r = String.length s)%nat).
  { clear. induction s as [|a s IH]; intros n b r H; simpl in H.
    - injection H as <- <-. reflexivity.
    - destruct (n =? 0)%N.
      + injection H as <- <-. reflexivity.
      + destruct (cut (N.pred n) s) as [b' r'] eqn:E.
        injection H as <- <-. simpl. rewrite (IH _ _ _ E). reflexivity. }
  rewrite (Hlen _ _ _ _ Hcut). lia.
Qed.

(** [nreads(fastq,fp)] *)
Definition nreads (fastq : option string) (fp : option nat) : IO Z :=
  fp ← match fp with
       | None =>
           (* [gzip.open(fastq)] or [open(fastq)], by the extension *)
           match fastq with
           | Some path => open path
           | None => raise AttributeError
           end
       | Some fp => mret fp
       end;
  buf ← read fp buf_size;
  nlines ← count_lines fp buf 0;
  (if bool_decide (fastq ≠ None) then close fp else mret ());;
  if bool_decide (nlines `mod` 4 ≠ 0) then
    raise (Exception_ "Bad read count (not fastq file, or corrupted?)")
  else mret (nlines `div` 4).

(** ** fastqs_are_pair *)

(** [itertools.izip_longest] over two iterators.  A slot holds its iterator
    until the iterator is exhausted; the number of active iterators, which
    the implementation keeps in a counter, is the number of filled
    slots. *)
Module izip_longest.

Record t : Type := mk {
  it1 : option FastqIterator.t;
  it2 : option FastqIterator.t
}.

(** [izip_longest(a,b)] *)
Definition __init__ (a b : FastqIterator.t) : t := mk (Some a) (Some b).

Definition active (slot : option FastqIterator.t) : nat :=
  match slot with
  | Some _ => 1
  | None => 0
  end.

Definition numactive (self : t) : nat := active (it1 self) + active (it2 self).

(** One position of the next tuple: the fill value [None] for an exhausted
    iterator, otherwise the next item; an iterator that stops is dropped
    from its slot, and when it was the last active one the whole iteration
    stops.  Returns the value, the slot and the number of active
    iterators. *)
Definition item (slot : option FastqIterator.t) (numactive : nat)
  : IO (option FastqRead.t * option FastqIterator.t * nat) :=
  match slot with
  | None => mret (None, None, numactive)
  | Some it =>
      λ w,
        match FastqIterator.next it w with
        | (Return r, w') => (Return (Some r, Some it, numactive), w')
        | (Raise e, w') =>
            if bool_decide (e = StopIteration) then
              if bool_decide (numactive - 1 = 0)%nat
              then (Raise StopIteration, w')
              else (Return (None, None, (numactive - 1)%nat), w')
            else (Raise e, w')
        end
  end.

(** [self.next()] *)
Definition next (self : t)
  : IO ((option FastqRead.t * option FastqRead.t) * t) :=
  if bool_decide (numactive self = 0%nat) then raise StopIteration
  else
    '(r1, s1, n1) ← item (it1 self) (numactive self);
    '(r2, s2, _) ← item (it2 self) n1;
    mret ((r1, r2), mk s1 s2).

End izip_longest.

(** ["%d" % n] *)
Definition decimal (n : Z) : string := NilZero.string_of_int (Z.to_int n).

(** [r.seqid] for [r] a read or [None]. *)
Definition seqid_of (r : option FastqRead.t) : outcome SequenceIdentifier.t :=
  match r with
  | Some r => Return (FastqRead.seqid r).1
  | None => Raise AttributeError
  end.

(** What the body of the loop of [fastqs_are_pair] decides. *)
Inductive verdict : Type :=
| Continue
| Stop (result : outcome bool).

(** The body of the loop for the pair [(r1,r2)] at position [i]: the
    verdict, and the lines printed so far. *)
Definition check_pair (verbose : bool) (i : Z) (r1 r2 : option FastqRead.t)
    (out : list string) : verdict * list string :=
  let out :=
    if verbose && bool_decide (i `mod` 100000 = 0)
    then (out ++ [("Examining pair #" ++ decimal i)%string])%list else out in
  match seqid_of r1 with
  | Raise e => (Stop (Raise e), out)
  | Return sid1 =>
      match seqid_of r2 with
      | Raise e => (Stop (Raise e), out)
      | Return sid2 =>
          match SequenceIdentifier.is_pair_of sid1 sid2 with
          | Raise e => (Stop (Raise e), out)
          | Return true => (Continue, out)
          | Return false =>
              if verbose then
                let out :=
                  (out ++ [("Unpaired headers for read position #"
                            ++ decimal i ++ ":")%string])%list in
                match (t1 ← SequenceIdentifier.__repr__ sid1;
                       t2 ← SequenceIdentifier.__repr__ sid2;
                       mret (t1 ++ String "010"%char EmptyString ++ t2)%string)
                with
                | Return line => (Stop (Return false), (out ++ [line])%list)
                | Raise e => (Stop (Raise e), out)
                end
              else (Stop (Return false), out)
          end
      end
  end.

(** The measure that decreases along the loop: for each active iterator,
    one more than the length of the text its file object has left. *)
Definition slot_measure (slot : option FastqIterator.t) (w : world) : nat :=
  match slot with
  | Some it => S (String.length (unread (FastqIterator.__fp it) w))
  | None => 0
  end.

Definition izip_measure (z : izip_longest.t) (w : world) : nat :=
  slot_measure (izip_longest.it1 z) w + slot_measure (izip_longest.it2 z) w.

Lemma cut_line_length (s : string) :
  (String.length (cut_line s).1 + String.length (cut_line s).2
   = String.length s)%nat.
Proof.
  induction s as [|c s IH]; simpl; [done|].
  case_decide; [simpl; lia|]. destruct (cut_line s). simpl in *. lia.
Qed.

Lemma readline_unread (fp : nat) (w : world) o w' :
  readline fp w = (o, w') →
  (∀ h, String.length (unread h w') ≤ String.length (unread h w))%nat
  ∧ (∀ l, o = Return l → l ≠ EmptyString →
          String.length (unread fp w') < String.length (unread fp w))%nat.
Proof.
  unfold readline, on_open, unread.
  destruct (objs w !! fp) as [f|] eqn:Hf; [|by intros [= <- <-]].
  destruct (File.closed f); [by intros [= <- <-]|].
  pose proof (cut_line_length (File.content f)) as Hlen.
  destruct (cut_line (File.content f)) as [l rest]. simpl in Hlen.
  intros [= <- <-]. split.
  - intros h. simpl. destruct (decide (fp = h)) as [->|Hne].
    + rewrite lookup_insert_eq, Hf. simpl. lia.
    + by rewrite lookup_insert_ne.
  - intros l' [= <-] Hl. simpl. rewrite lookup_insert_eq. simpl.
    destruct l; [done|]. simpl in Hlen. lia.
Qed.

Lemma close_unread (fp : nat) (w : world) o w' :
  close fp w = (o, w') → ∀ h, unread h w' = unread h w.
Proof.
  unfold close, unread. destruct (objs w !! fp) as [f|] eqn:Hf.
  - intros [= <- <-] h. simpl. destruct (decide (fp = h)) as [->|Hne].
    + by rewrite lookup_insert_eq, Hf.
    + by rewrite lookup_insert_ne.
  - by intros [= <- <-].
Qed.

(** A pull never lengthens the unread text of a file object, and shortens
    that of its own when it returns a record. *)
Lemma next_unread (it : FastqIterator.t) (w : world) o w' :
  FastqIterator.next it w = (o, w') →
  (∀ h, String.length (unread h w') ≤ String.length (unread h w))%nat
  ∧ (∀ r, o = Return r →
          String.length (unread (FastqIterator.__fp it) w')
          < String.length (unread (FastqIterator.__fp it) w))%nat.
Proof.
  unfold FastqIterator.next, mbind, IO_bind.
  set (fp := FastqIterator.__fp it).
  destruct (readline fp w) as [[l1|e1] w1] eqn:E1.
  2: { intros [= <- <-]. split; [|done]. by apply (readline_unread fp w _ _ E1). }
  destruct (readline fp w1) as [[l2|e2] w2] eqn:E2.
  2: { intros [= <- <-]. split; [|done]. intros h.
       pose proof (proj1 (readline_unread _ _ _ _ E1) h).
       pose proof (proj1 (readline_unread _ _ _ _ E2) h). lia. }
  destruct (readline fp w2) as [[l3|e3] w3] eqn:E3.
  2: { intros [= <- <-]. split; [|done]. intros h.
       pose proof (proj1 (readline_unread _ _ _ _ E1) h).
       pose proof (proj1 (readline_unread _ _ _ _ E2) h).
       pose proof (proj1 (readline_unread _ _ _ _ E3) h). lia. }
  destruct (readline fp w3) as [[l4|e4] w4] eqn:E4.
  2: { intros [= <- <-]. split; [|done]. intros h.
       pose proof (proj1 (readline_unread _ _ _ _ E1) h).
       pose proof (proj1 (readline_unread _ _ _ _ E2) h).
       pose proof (proj1 (readline_unread _ _ _ _ E3) h).
       pose proof (proj1 (readline_unread _ _ _ _ E4) h). lia. }
  assert (∀ h, String.length (unread h w4) ≤ String.length (unread h w))%nat
    as Hle.
  { intros h.
    pose proof (proj1 (readline_unread _ _ _ _ E1) h).
    pose proof (proj1 (readline_unread _ _ _ _ E2) h).
    pose proof (proj1 (readline_unread _ _ _ _ E3) h).
    pose proof (proj1 (readline_unread _ _ _ _ E4) h). lia. }
  case_bool_decide as Hq.
  - intros [= <- <-]. split; [done|]. intros r _.
    pose proof (proj2 (readline_unread _ _ _ _ E4) l4 eq_refl Hq).
    pose proof (proj1 (readline_unread _ _ _ _ E1) fp).
    pose proof (proj1 (readline_unread _ _ _ _ E2) fp).
    pose proof (proj1 (readline_unread _ _ _ _ E3) fp). lia.
  - unfold raise. case_bool_decide.
    + destruct (close fp w4) as [[[]|e] w5] eqn:E5.
      * intros [= <- <-]. split; [|done]. intros h.
        rewrite (close_unread _ _ _ _ E5). apply Hle.
      * intros [= <- <-]. split; [|done]. intros h.
        rewrite (close_unread _ _ _ _ E5). apply Hle.
    + intros [= <- <-]. by split.
Qed.

Lemma slot_measure_mono (slot : option FastqIterator.t) (w w' : world) :
  (∀ h, String.length (unread h w') ≤ String.length (unread h w))%nat →
  (slot_measure slot w' ≤ slot_measure slot w)%nat.
Proof. intros H. destruct slot as [it|]; simpl; [|done]. specialize (H (FastqIterator.__fp it)). lia. Qed.

Lemma item_measure (slot : option FastqIterator.t) (n : nat) (w : world)
    r s n' w' :
  izip_longest.item slot n w = (Return (r, s, n'), w') →
  (∀ h, String.length (unread h w') ≤ String.length (unread h w))%nat
  ∧ (slot_measure s w' ≤ slot_measure slot w)%nat
  ∧ (slot ≠ None → slot_measure s w' < slot_measure slot w)%nat.
Proof.
  unfold izip_longest.item. destruct slot as [it|].
  - destruct (FastqIterator.next it w) as [[r0|e] w1] eqn:Hnext.
    + intros [= <- <- <- <-].
      destruct (next_unread it w _ _ Hnext) as [Hle Hlt].
      specialize (Hlt r0 eq_refl). simpl. repeat split; [done|lia|intros _; lia].
    + destruct (next_unread it w _ _ Hnext) as [Hle _].
      case_bool_decide; [|done]. case_bool_decide; [done|].
      intros [= <- <- <- <-]. simpl. repeat split; [done|lia|intros _; lia].
  - intros [= <- <- <- <-]. by repeat split.
Qed.

Lemma izip_next_measure (z : izip_longest.t) (w : world) rs z' w' :
  izip_longest.next z w = (Return (rs, z'), w') →
  (izip_measure z' w' < izip_measure z w)%nat.
Proof.
  unfold izip_longest.next. case_bool_decide as Hactive; [done|].
  unfold mbind, IO_bind.
  destruct (izip_longest.item (izip_longest.it1 z) (izip_longest.numactive z) w)
    as [[[[r1 s1] n1]|e1] w1] eqn:E1; [|done].
  destruct (izip_longest.item (izip_longest.it2 z) n1 w1)
    as [[[[r2 s2] n2]|e2] w2] eqn:E2; [|done].
  intros [= <- <- <-].
  destruct (item_measure _ _ _ _ _ _ _ E1) as (Hle1 & Hm1 & Hs1).
  destruct (item_measure _ _ _ _ _ _ _ E2) as (Hle2 & Hm2 & Hs2).
  pose proof (slot_measure_mono s1 w1 w2 Hle2).
  pose proof (slot_measure_mono (izip_longest.it2 z) w w1 Hle1).
  unfold izip_measure. simpl.
  unfold izip_longest.numactive, izip_longest.active in Hactive.
  destruct (izip_longest.it1 z) as [a|].
  - specialize (Hs1 ltac:(done)). lia.
  - destruct (izip_longest.it2 z) as [b|]; [|done].
    specialize (Hs2 ltac:(done)). lia.
Qed.

(** The loop of [fastqs_are_pair] from position [i], with the lines printed
    so far: the result and the lines printed. *)
Equations pair_loop (verbose : bool) (z : izip_longest.t) (i : Z)
    (out : list string) (w : world) : outcome bool * list string * world
  by wf (izip_measure z w) lt :=
  pair_loop verbose z i out w with inspect (izip_longest.next z w) := {
    | exist _ (Return ((r1, r2), z'), w') Hnext
        with check_pair verbose (i + 1) r1 r2 out := {
        | (Continue, out') => pair_loop verbose z' (i + 1) out' w'
        | (Stop result, out') => (result, out', w') }
    | exist _ (Raise e, w') _ =>
        (if bool_decide (e = StopIteration) then Return true else Raise e,
         out, w') }.
Next Obligation. by eapply izip_next_measure. Qed.

(** [fastqs_are_pair(fastq1,fastq2,verbose,fp1,fp2)]: the result, the
    lines printed, and the world afterwards. *)
Definition fastqs_are_pair (fastq1 fastq2 : option string) (verbose : bool)
    (fp1 fp2 : option nat) (w : world) : outcome bool * list string * world :=
  match FastqIterator.__init__ fastq1 fp1 w with
  | (Raise e, w1) => (Raise e, [], w1)
  | (Return a, w1) =>
      match FastqIterator.__init__ fastq2 fp2 w1 with
      | (Raise e, w2) => (Raise e, [], w2)
      | (Return b, w2) => pair_loop verbose (izip_longest.__init__ a b) 0 [] w2
      end
  end.

(** ** class FastqAttributes *)

Module FastqAttributes.

Record t : Type := mk {
  __fastq_file : option string;
  __fp : nat;
  __nreads : option Z
}.

(** [FastqAttributes(fastq_file,fp)] *)
Definition __init__ (fastq_file : option string) (fp : option nat) : IO t :=
  match fp with
  | None => h ← get_fastq_file_handle fastq_file; mret (mk fastq_file h None)
  | Some fp => mret (mk fastq_file fp None)
  end.

(** The [nreads] property: the count, and [self] after the call. *)
Definition nreads (self : t) : IO (Z * t) :=
  match __nreads self with
  | None =>
      n ← nreads (__fastq_file self) (Some (__fp self));
      mret (n, mk (__fastq_file self) (__fp self) (Some n))
  | Some n => mret (n, self)
  end.

End FastqAttributes.

(** * analyse_solid_run.py *)

(** ** More string primitives of the Python runtime *)

Module Substr.

(** [s[0:i]] for [i >= 0] *)
Fixpoint upto (i : nat) (s : string) : string :=
  match i, s with
  | O, _ => EmptyString
  | S _, EmptyString => EmptyString
  | S i', String c s' => String c (upto i' s')
  end.

(** [s[i:]] for [i >= 0] *)
Fixpoint from (i : nat) (s : string) : string :=
  match i, s with
  | O, _ => s
  | S _, EmptyString => EmptyString
  | S i', String _ s' => from i' s'
  end.

(** The highest index at which [sub] occurs in [s], counted from [i] at the
    start of [s]. *)
Fixpoint rfind_from (i : nat) (s sub : string) : option nat :=
  match s with
  | EmptyString => if bool_decide (sub = EmptyString) then Some i else None
  | String _ s' =>
      match rfind_from (S i) s' sub with
      | Some j => Some j
      | None => if Str.startswith s sub then Some i else None
      end
  end.

(** [s.rindex(sub)]; [None] stands for [ValueError]. *)
Definition rindex (s sub : string) : option nat := rfind_from 0 s sub.

(** [s.rfind(sub)] *)
Definition rfind (s sub : string) : Z :=
  match rfind_from 0 s sub with
  | Some i => Z.of_nat i
  | None => -1
  end.

(** The lowest index at which [sub] occurs in [s], counted from [i]. *)
Fixpoint find_from (i : nat) (s sub : string) : option nat :=
  if Str.startswith s sub then Some i
  else match s with
       | EmptyString => None
       | String _ s' => find_from (S i) s' sub
       end.

(** [s.find(sub)] *)
Definition find (s sub : string) : Z :=
  match find_from 0 s sub with
  | Some i => Z.of_nat i
  | None => -1
  end.

(** [s[i]] for [0 <= i < len(s)] *)
Definition at_ (s : string) (i : nat) : option ascii := String.get i s.

Fixpoint lstrip_chars (chars s : string) : string :=
  match s with
  | EmptyString => EmptyString
  | String c s' => if Str.mem c chars then lstrip_chars chars s' else s
  end.

Fixpoint rstrip_chars (chars s : string) : string :=
  match s with
  | EmptyString => EmptyString
  | String c s' =>
      match rstrip_chars chars s' with
      | EmptyString => if Str.mem c chars then EmptyString else String c EmptyString
      | t => String c t
      end
  end.

(** [s.strip(chars)] *)
Definition strip_chars (chars s : string) : string :=
  rstrip_chars chars (lstrip_chars chars s).

End Substr.

(** [os.path.splitext(p)] on a POSIX system: the extension starts at the
    last dot of the last path component, unless that component has only
    dots before it. *)
Fixpoint splitext_scan (p : string) (n filenameIndex : nat) (dotIndex : nat)
  : bool :=
  match n with
  | O => false
  | S n' =>
      if bool_decide (filenameIndex < dotIndex)%nat then
        if bool_decide (Substr.at_ p filenameIndex ≠ Some "."%char) then true
        else splitext_scan p n' (S filenameIndex) dotIndex
      else false
  end.

Definition splitext (p : string) : string * string :=
  let sepIndex := Substr.rfind p "/" in
  let dotIndex := Substr.rfind p "." in
  if bool_decide (dotIndex > sepIndex)
     && splitext_scan p (Z.to_nat dotIndex) (Z.to_nat (sepIndex + 1))
          (Z.to_nat dotIndex)
  then (Substr.upto (Z.to_nat dotIndex) p, Substr.from (Z.to_nat dotIndex) p)
  else (p, EmptyString).

(** ** replace_string *)

(** The loop of [replace_string], run for at most [fuel] rounds; [None]:
    the loop has not ended by then. *)
Fixpoint replace_loop (fuel : nat) (s1 replace_substr with_str : string)
  : option string :=
  match fuel with
  | O => None
  | S fuel' =>
      match Substr.rindex s1 replace_substr with
      | Some i =>
          replace_loop fuel'
            (Substr.upto i s1 ++ with_str
             ++ Substr.from (i + String.length replace_substr) s1)
            replace_substr with_str
      | None => Some s1                       (* except ValueError *)
      end
  end.

(** [replace_string(s,replace_substr,with_str)] *)
Definition replace_string (fuel : nat) (s replace_substr with_str : string)
  : option string :=
  replace_loop fuel s replace_substr with_str.

(** ** Objects of SolidDataExtractor *)

(** Of a [SolidLibrary] and a [SolidProject] this file reads the attributes
    below; they hold strings and a list of libraries. *)

Module SolidLibrary.
Record t : Type := mk { prefix : string }.
End SolidLibrary.

Module SolidProject.
Record t : Type := mk { name : string; libraries : list SolidLibrary.t }.
End SolidProject.

(** [l.sort()] on a list of strings: the order of [str] is the
    lexicographic order of the characters' codes. *)
Fixpoint insert_sorted_str (x : string) (l : list string) : list string :=
  match l with
  | [] => [x]
  | y :: l' =>
      if String.leb x y then x :: l else y :: insert_sorted_str x l'
  end.

Definition sort_str (l : list string) : list string :=
  foldr insert_sorted_str [] l.

(** ** class SolidExperiment *)

Module SolidExperiment.

Record t : Type := mk {
  projects : list SolidProject.t;
  analysis_dir : string
}.

(** [self.addProject(project)] *)
Definition addProject (self : t) (project : SolidProject.t) : t :=
  mk (projects self ++ [project]) (analysis_dir self).

(** The body of the inner loop of [prefixes]. *)
Definition add_prefix (prefixes : list string) (lib : SolidLibrary.t)
  : list string :=
  if bool_decide (SolidLibrary.prefix lib ∈ prefixes) then prefixes
  else prefixes ++ [SolidLibrary.prefix lib].

(** [self.prefixes()] *)
Definition prefixes (self : t) : list string :=
  sort_str
    (foldl (λ prefixes project,
              foldl add_prefix prefixes (SolidProject.libraries project))
       [] (projects self)).

(** [self.getExperimentName()] *)
Definition getExperimentName (self : t) : outcome string :=
  if bool_decide (1 < length (prefixes self))%nat then
    match projects self with
    | project :: _ => Return (SolidProject.name project ++ "_expt")%string
    | [] => Raise IndexError
    end
  else if bool_decide (length (prefixes self) = 1%nat) then
    match prefixes self with
    | prefix :: _ => Return (Substr.strip_chars "_" prefix ++ "_expt")%string
    | [] => Raise IndexError
    end
  else Return "UNKNOWN_expt"%string.

(** [self.getAnalysisFileName(filen,sample_name)] *)
Definition getAnalysisFileName (fuel : nat) (filen sample_name : string)
  : option string :=
  analysis_filen ← replace_string fuel filen (sample_name ++ "_") "";
  if bool_decide (Substr.find sample_name "_rpt" > -1) then
    Some ((splitext analysis_filen).1 ++ "_rpt" ++ (splitext analysis_filen).2)%string
  else Some analysis_filen.

End SolidExperiment.

(** ** Vocabulary of the statements *)

(** A line feed as a string, and the text made of the given lines, each
    ended by a line feed. *)
Definition LF : string := String newline EmptyString.

Definition text_of (ls : list string) : string :=
  foldr (λ l acc, l ++ LF ++ acc)%string EmptyString ls.

(** The attributes, other than [pair_id], that [is_pair_of] compares. *)
Definition compared : list string :=
  ["instrument_name"; "run_id"; "flowcell_id"; "flowcell_lane"; "tile_no";
   "x_coord"; "y_coord"; "multiplex_index_no"; "bad_read";
   "control_bit_flag"; "index_sequence"].

(** [int(self.pair_id)] *)
Definition pair_index (self : SequenceIdentifier.t) : outcome Z :=
  p ← SequenceIdentifier.getattr self "pair_id"; int p.

(** Both objects have the attribute, with the same value. *)
Definition same_attr (a b : SequenceIdentifier.t) (name : string) : Prop :=
  ∃ v, SequenceIdentifier.attrs a !! name = Some v
       ∧ SequenceIdentifier.attrs b !! name = Some v.

(** A [try:] body of [__init__] that leaves [__seqid] as it is. *)
Definition keeps_seqid {A} (m : SequenceIdentifier.Body A) : Prop :=
  ∀ self, SequenceIdentifier.__seqid (m self).2 = SequenceIdentifier.__seqid self.

(** A [try:] body of [__init__] that sets a format when it runs to its end
    and leaves [index_sequence] as it was when it raises. *)
Definition sets_format_or_no_index {A} (m : SequenceIdentifier.Body A) : Prop :=
  ∀ self,
    match m self with
    | (Some _, self') => SequenceIdentifier.format self' ≠ PyNone
    | (None, self') =>
        SequenceIdentifier.attrs self' !! "index_sequence"
        = SequenceIdentifier.attrs self !! "index_sequence"
    end.

(** The [_seqid] attribute of a read is absent or holds the object built
    from [raw_seqid]: the states that [__init__] and the properties
    produce. *)
Definition cache_ok (r : FastqRead.t) : Prop :=
  FastqRead._seqid r = None
  ∨ FastqRead._seqid r = Some (SequenceIdentifier.__init__ (FastqRead.raw_seqid r)).

(** The characters of a colorspace sequence after its leading [T]. *)
Definition colors : list ascii := ["."; "0"; "1"; "2"; "3"]%char.

(** The four stored lines of two reads are the same. *)
Definition same_lines (r r' : FastqRead.t) : Prop :=
  FastqRead.raw_seqid r' = FastqRead.raw_seqid r
  ∧ FastqRead.sequence r' = FastqRead.sequence r
  ∧ FastqRead.optid r' = FastqRead.optid r
  ∧ FastqRead.quality r' = FastqRead.quality r.

Definition starts_with_space (s : string) : bool :=
  match s with
  | EmptyString => false
  | String c _ => Str.is_space c
  end.

Fixpoint ends_with_space (s : string) : bool :=
  match s with
  | EmptyString => false
  | String c EmptyString => Str.is_space c
  | String _ s' => ends_with_space s'
  end.

(** The lines of a text as successive calls of [readline] return them: each
    with its line feed, the last one without if the text does not end with
    one. *)
Fixpoint lines (s : string) : list string :=
  match s with
  | EmptyString => []
  | String c s' =>
      if decide (c = newline) then String c EmptyString :: lines s'
      else match lines s' with
           | [] => [String c EmptyString]
           | l :: ls => String c l :: ls
           end
  end.

(** The text that [nreads] counts: the unread text of the open file object
    [fp] when one is supplied, the text of the file [fastq] otherwise. *)
Definition input_text (fastq : option string) (fp : option nat) (w : world)
  : option string :=
  match fp with
  | Some h => f ← objs w !! h; if File.closed f then None else Some (File.content f)
  | None => path ← fastq; files w !! path
  end.

(** Whether the file object under [fp] is closed. *)
Definition is_closed (fp : nat) (w : world) : option bool :=
  File.closed <$> objs w !! fp.

(** [n] successive calls of [next], as a [for] loop over the iterator makes
    them. *)
Fixpoint pulls (n : nat) (it : FastqIterator.t) : IO (list FastqRead.t) :=
  match n with
  | O => mret []
  | S n' => r ← FastqIterator.next it; rs ← pulls n' it; mret (r :: rs)
  end.

(** A world for examples: the file [reads.fastq] holding the given lines,
    and a file object, under reference 7, that a caller opened on the same
    text. *)
Definition example_world (ls : list string) : world :=
  World {["reads.fastq" := text_of ls]} {[7%nat := File.mk (text_of ls) false]}.

Definition example_record : list string :=
  ["@HWUSI-EAS100R:6:73:941:1973#0/1"; "ACGT"; "+"; "IIII"].

(** A line as [readline] returns it: no line feed, except that the last
    character may be one. *)
Definition line_shaped (l : string) : Prop :=
  Str.count newline l = 0
  ∨ ∃ body, l = (body ++ LF)%string ∧ Str.count newline body = 0.

(** The assignments [self.name = rhs] of a [try:] body, in order, followed
    by [k]. *)
Fixpoint assigns (l : list (string * option value))
    (k : SequenceIdentifier.Body unit) : SequenceIdentifier.Body unit :=
  match l with
  | [] => k
  | (name, rhs) :: l' => SequenceIdentifier.assign name rhs;; assigns l' k
  end.

(** The attribute dictionary after the assignments of [l] that evaluate. *)
Definition assigned (l : list (string * option value)) (m : gmap string value)
  : gmap string value :=
  foldl (λ m x, match x.2 with Some v => <[x.1 := v]> m | None => m end) m l.

(** [self.__seqid[1:].split(':')] for the line [s]. *)
Definition fields_of (s : string) : list string :=
  Str.split ":" (Str.tail (Str.strip s)).

Definition illumina18_assignments (fields : list string)
  : list (string * option value) :=
  [("instrument_name", SequenceIdentifier.field fields 0);
   ("run_id", SequenceIdentifier.field fields 1);
   ("flowcell_id", SequenceIdentifier.field fields 2);
   ("flowcell_lane", SequenceIdentifier.field fields 3);
   ("tile_no", SequenceIdentifier.field fields 4);
   ("x_coord", SequenceIdentifier.field fields 5);
   ("y_coord", SequenceIdentifier.subfield fields 6 " " 0);
   ("multiplex_index_no", Some PyNone);
   ("pair_id", SequenceIdentifier.subfield fields 6 " " 1);
   ("bad_read", SequenceIdentifier.field fields 7);
   ("control_bit_flag", SequenceIdentifier.field fields 8);
   ("index_sequence", SequenceIdentifier.field fields 9)].

Definition illumina_assignments (fields : list string)
  : list (string * option value) :=
  [("instrument_name", SequenceIdentifier.field fields 0);
   ("run_id", Some PyNone);
   ("flowcell_id", Some PyNone);
   ("flowcell_lane", SequenceIdentifier.field fields 1);
   ("tile_no", SequenceIdentifier.field fields 2);
   ("x_coord", SequenceIdentifier.field fields 3);
   ("y_coord", SequenceIdentifier.subfield fields 4 "#" 0);
   ("multiplex_index_no", SequenceIdentifier.subsubfield fields 4 "#" 1 "/" 0);
   ("pair_id", SequenceIdentifier.subsubfield fields 4 "#" 1 "/" 1);
   ("bad_read", Some PyNone);
   ("control_bit_flag", Some PyNone);
   ("index_sequence", Some PyNone)].

(** The shape of an Illumina 1.8 line: it starts with [@], has at least ten
    fields between colons, and the seventh field holds a space. *)
Definition looks_illumina18 (s : string) : bool :=
  Str.startswith s "@"
  && bool_decide (10 ≤ length (fields_of s))%nat
  && from_option (Str.mem " ") false (fields_of s !! 6%nat).

(** The shape of a line of the earlier format, tried second: it starts with
    [@], has at least five fields between colons, the fifth field holds a
    [#] and the text between that [#] and the next holds a [/]. *)
Definition looks_illumina (s : string) : bool :=
  Str.startswith s "@"
  && negb (looks_illumina18 s)
  && bool_decide (5 ≤ length (fields_of s))%nat
  && from_option
       (λ f4, from_option (Str.mem "/") false (Str.split "#" f4 !! 1%nat))
       false (fields_of s !! 4%nat).

(** The records of a list of lines: one for each complete group of four. *)
Fixpoint group4 (ls : list string) : list FastqRead.t :=
  match ls with
  | l1 :: l2 :: l3 :: l4 :: rest => FastqRead.__init__ l1 l2 l3 l4 :: group4 rest
  | _ => []
  end.

(** The records of a text. *)
Definition records (text : string) : list FastqRead.t := group4 (lines text).

(** The loop of [fastqs_are_pair] on the records of two sources, from
    position [i] with the lines printed so far: the result and the lines
    printed.  When one list ends before the other, the missing read is
    [None]. *)
Fixpoint pairing (verbose : bool) (i : Z) (out : list string)
    (rs1 rs2 : list FastqRead.t) : outcome bool * list string :=
  match rs1, rs2 with
  | [], [] => (Return true, out)
  | r1 :: rs1', r2 :: rs2' =>
      match check_pair verbose (i + 1) (Some r1) (Some r2) out with
      | (Continue, out') => pairing verbose (i + 1) out' rs1' rs2'
      | (Stop result, out') => (result, out')
      end
  | r1 :: _, [] =>
      (Raise AttributeError, (check_pair verbose (i + 1) (Some r1) None out).2)
  | [], r2 :: _ =>
      (Raise AttributeError, (check_pair verbose (i + 1) None (Some r2) out).2)
  end.

(** The headers of two reads form a pair. *)
Definition reads_pair (r1 r2 : FastqRead.t) : Prop :=
  SequenceIdentifier.is_pair_of (FastqRead.seqid r1).1 (FastqRead.seqid r2).1
  = Return true.

(** A read as the constructor builds it. *)
Definition built (r : FastqRead.t) : Prop :=
  ∃ l1 l2 l3 l4, r = FastqRead.__init__ l1 l2 l3 l4.

(** A world for examples with two sources: the files [r1.fastq] and
    [r2.fastq] holding the given lines, and file objects opened on the same
    texts under references 1 and 2. *)
Definition two_sources_world (ls1 ls2 : list string) : world :=
  World {["r1.fastq" := text_of ls1; "r2.fastq" := text_of ls2]}
        {[1%nat := File.mk (text_of ls1) false;
          2%nat := File.mk (text_of ls2) false]}.

Definition example_mate : list string :=
  ["@HWUSI-EAS100R:6:73:941:1973#0/2"; "TTGA"; "+"; "IIII"].

Definition example_other : list string :=
  ["@HWUSI-EAS100R:6:73:941:1974#0/2"; "TTGA"; "+"; "IIII"].

(** The text is not empty and its last character is not a line feed. *)
Fixpoint open_ended (s : string) : bool :=
  match s with
  | EmptyString => false
  | String c EmptyString => negb (bool_decide (c = newline))
  | String _ s' => open_ended s'
  end.

(** The result of [nreads] on a text with [n] line feeds. *)
Definition read_count (n : Z) : outcome Z :=
  if bool_decide (n `mod` 4 = 0) then Return (n `div` 4)
  else Raise (Exception_ "Bad read count (not fastq file, or corrupted?)").

(** [sub] occurs in [s]. *)
Definition occurs (sub s : string) : Prop := ∃ a b, s = (a ++ sub ++ b)%string.

(** [r] is [s] after the occurrences of [sub] have been deleted one at a
    time, the last one first, until none is left. *)
Inductive deleted (sub : string) : string → string → Prop :=
| deleted_none (s : string) : ¬ occurs sub s → deleted sub s s
| deleted_last (a b r : string) :
    (∀ a' b', (a ++ sub ++ b)%string = (a' ++ sub ++ b')%string →
              (String.length a' ≤ String.length a)%nat) →
    deleted sub (a ++ b) r →
    deleted sub (a ++ sub ++ b) r.

(** The last component of the path [root] has a character that is not a
    dot. *)
Definition has_name (root : string) : Prop :=
  ∃ a c b, root = (a ++ String c b)%string
           ∧ c ≠ "."%char ∧ Str.mem "/" (String c b) = false.

(** [root] and [ext] are the two parts of the path [p] at its extension:
    [ext] starts at the last dot of the last component of [p], when that
    component has a character other than a dot before it, and is empty
    when there is no such dot. *)
Definition extension_of (p root ext : string) : Prop :=
  p = (root ++ ext)%string
  ∧ ((∃ e, ext = String "." e
           ∧ Str.mem "." e = false ∧ Str.mem "/" e = false
           ∧ has_name root)
     ∨ (ext = EmptyString
        ∧ ∀ root' e, p = (root' ++ String "." e)%string →
                     Str.mem "." e = false → Str.mem "/" e = false →
                     ¬ has_name root')).

(** The experiment has a library with prefix [x]. *)
Definition has_prefix (e : SolidExperiment.t) (x : string) : Prop :=
  ∃ p lib, p ∈ SolidExperiment.projects e
           ∧ lib ∈ SolidProject.libraries p
           ∧ SolidLibrary.prefix lib = x.

(** The order of Python's [str]. *)
Definition str_le (a b : string) : Prop := String.leb a b = true.

(** Examples for the extended statements. *)
Definition example_illumina18_line : string :=
  "@EAS139:136:FC706VJ:2:2104:15343:197393 1:Y:18:ATCACG".

Definition example_illumina_line : string :=
  "@HWUSI-EAS100R:6:73:941:1973#0/1".

Definition example_read (header sequence quality : string) : FastqRead.t :=
  FastqRead.__init__ (header ++ LF) (sequence ++ LF) ("+" ++ LF) (quality ++ LF).

Definition example_project (name : string) (prefixes : list string)
  : SolidProject.t :=
  SolidProject.mk name (SolidLibrary.mk <$> prefixes).

(** Unfolds the monad operations on outcomes. *)
Ltac unfold_outcome :=
  unfold mret, outcome_ret, mbind, outcome_bind, Outcome.bind,
    Outcome.try_except in *;
  simpl in *.

(** * Properties of the string primitives *)

Section strings.

Implicit Types (s l : string) (c : ascii).

Example split_keeps_empty_fields :
  Str.split ":" "a:b::c" = ["a"; "b"; ""; "c"] ∧ Str.split ":" "" = [""].
Proof. by split. Qed.

Example strip_both_ends :
  Str.strip (" @a b" ++ LF) = "@a b" ∧ Str.strip (LF ++ " ") = "".
Proof. by split. Qed.

Example to_int_literals :
  Str.to_int "2" = Some 2 ∧ Str.to_int " 01 " = Some 1
  ∧ Str.to_int "-3" = Some (-3) ∧ Str.to_int "1a" = None
  ∧ Str.to_int "" = None ∧ Str.to_int "+" = None.
Proof. repeat split. Qed.

Example lines_of_text :
  lines ("a" ++ LF ++ LF ++ "b") = ["a" ++ LF; LF; "b"]%string
  ∧ lines (text_of ["a"; "b"]) = ["a" ++ LF; "b" ++ LF]%string.
Proof. by split. Qed.

Lemma count_nonneg c s : 0 ≤ Str.count c s.
Proof. induction s as [|a s IH]; simpl; [done|]. case_decide; lia. Qed.

Lemma lstrip_no_leading_space s : starts_with_space (Str.lstrip s) = false.
Proof.
  induction s as [|a s IH]; simpl; [done|].
  destruct (Str.is_space a) eqn:Ha; [done|]. simpl. by rewrite Ha.
Qed.

Lemma rstrip_keeps_start s :
  starts_with_space s = false → starts_with_space (Str.rstrip s) = false.
Proof.
  destruct s as [|a s]; simpl; [done|]. intros Ha.
  destruct (Str.rstrip s); [by rewrite Ha | done].
Qed.

Lemma rstrip_no_trailing_space s : ends_with_space (Str.rstrip s) = false.
Proof.
  induction s as [|a s IH]; simpl; [done|].
  destruct (Str.rstrip s) as [|b t].
  - destruct (Str.is_space a) eqn:Ha; simpl; by rewrite ?Ha.
  - exact IH.
Qed.

Lemma strip_no_outer_space s :
  starts_with_space (Str.strip s) = false
  ∧ ends_with_space (Str.strip s) = false.
Proof.
  unfold Str.strip. split.
  - apply rstrip_keeps_start, lstrip_no_leading_space.
  - apply rstrip_no_trailing_space.
Qed.

Lemma count_rstrip_le c s : Str.count c (Str.rstrip s) ≤ Str.count c s.
Proof.
  induction s as [|a s IH]; simpl; [done|].
  pose proof (count_nonneg c s).
  destruct (Str.rstrip s) as [|b t].
  - destruct (Str.is_space a); simpl in *; case_decide; lia.
  - remember (String b t) as u. simpl. lia.
Qed.

Lemma rstrip_snoc_space s c :
  Str.is_space c = true → Str.rstrip (s ++ String c EmptyString) = Str.rstrip s.
Proof.
  intros Hc. induction s as [|a s IH]; simpl.
  - by rewrite Hc.
  - by rewrite IH.
Qed.

Lemma cut_line_shaped s : line_shaped (cut_line s).1.
Proof.
  induction s as [|a s IH]; simpl.
  - by left.
  - case_decide as Ha.
    + right. exists EmptyString. by subst.
    + destruct (cut_line s) as [l rest]. simpl in *.
      destruct IH as [H0|(body & -> & H0)].
      * left. simpl. case_decide; [done | lia].
      * right. exists (String a body). split; [done|].
        simpl. case_decide; [done | lia].
Qed.

Lemma lstrip_line_shaped l : line_shaped l → line_shaped (Str.lstrip l).
Proof.
  induction l as [|a l IH]; simpl; [done|]. intros Hl.
  destruct (Str.is_space a); [|done]. apply IH.
  pose proof (count_nonneg newline l).
  destruct Hl as [H0|(body & Hb & H0)].
  - left. simpl in H0. case_decide; lia.
  - destruct body as [|b body]; simpl in Hb.
    + injection Hb as _ ->. by left.
    + injection Hb as _ ->. right. exists body. split; [done|].
      pose proof (count_nonneg newline body).
      simpl in H0. case_decide; lia.
Qed.

Lemma rstrip_line_shaped l :
  line_shaped l → Str.count newline (Str.rstrip l) = 0.
Proof.
  intros [H0|(body & -> & H0)].
  - pose proof (count_rstrip_le newline l).
    pose proof (count_nonneg newline (Str.rstrip l)). lia.
  - unfold LF. rewrite rstrip_snoc_space by done.
    pose proof (count_rstrip_le newline body).
    pose proof (count_nonneg newline (Str.rstrip body)). lia.
Qed.

(** A line read by [readline] and stripped holds no line feed. *)
Lemma strip_cut_line_no_newline s :
  Str.count newline (Str.strip (cut_line s).1) = 0.
Proof. apply rstrip_line_shaped, lstrip_line_shaped, cut_line_shaped. Qed.

End strings.

(** * Properties of [SequenceIdentifier] *)

Section sequence_identifier.
Import SequenceIdentifier.

Implicit Types (a b self : t) (name : string).

(** *** Parsing keeps the stripped line *)

Lemma assign_keeps name rhs : keeps_seqid (assign name rhs).
Proof. intros self. unfold assign. by destruct rhs. Qed.

Lemma assign_format_keeps v : keeps_seqid (assign_format v).
Proof. done. Qed.

Lemma bind_keeps {A B} (m : Body A) (k : A → Body B) :
  keeps_seqid m → (∀ x, keeps_seqid (k x)) → keeps_seqid (m ≫= k).
Proof.
  intros Hm Hk self. unfold mbind, Body_bind.
  specialize (Hm self). destruct (m self) as [[x|] self']; simpl in *.
  - by rewrite Hk.
  - done.
Qed.

Ltac keeps :=
  repeat first [ apply assign_keeps | apply assign_format_keeps
               | apply bind_keeps; [| intros ? ] ].

Lemma illumina18_body_keeps s : keeps_seqid (illumina18_body s).
Proof. unfold illumina18_body. keeps. Qed.

Lemma illumina_body_keeps s : keeps_seqid (illumina_body s).
Proof. unfold illumina_body. keeps. Qed.

Lemma init_seqid s : __seqid (__init__ s) = Str.strip s.
Proof.
  unfold __init__. destruct (Str.startswith s "@"); [|done]. cbn [__seqid].
  set (self := mk (Str.strip s) PyNone ∅).
  pose proof (illumina18_body_keeps (Str.strip s) self) as H1.
  destruct (illumina18_body (Str.strip s) self) as [[?|] self1]; simpl in H1; [done|].
  pose proof (illumina_body_keeps (__seqid self1) self1) as H2.
  destruct (illumina_body (__seqid self1) self1) as [[?|] self2];
    simpl in H2; congruence.
Qed.

(** *** Rendering *)

(** C4, as the code has it: for a line that no dialect matches, the
    rendering is the line without its leading and trailing whitespace (the
    constructor strips it); it is the line itself when the line has no such
    whitespace. *)
Theorem repr_unrecognized_is_stripped_line (s : string) :
  format (__init__ s) = PyNone →
  __repr__ (__init__ s) = Return (Str.strip s)
  ∧ (Str.strip s = s → __repr__ (__init__ s) = Return s).
Proof.
  intros Hfmt. assert (__repr__ (__init__ s) = Return (Str.strip s)) as H.
  { unfold __repr__. rewrite Hfmt, init_seqid. reflexivity. }
  split; [exact H | intros Hs; by rewrite H, Hs].
Qed.

Lemma repr_unrecognized_is_stripped_line_witness :
  __repr__ (__init__ "@SRR001666.1 length=36") = Return "@SRR001666.1 length=36".
Proof.
  refine (proj2 (repr_unrecognized_is_stripped_line "@SRR001666.1 length=36" _) _);
    vm_compute; reflexivity.
Defined.

(** C4 as stated fails on a header line as [readline] returns it, with its
    line feed: the line is unrecognized and its rendering lacks the line
    feed. *)
Lemma repr_unrecognized_drops_line_feed :
  let line := ("@SRR001666.1 length=36" ++ LF)%string in
  format (__init__ line) = PyNone
  ∧ __repr__ (__init__ line) = Return "@SRR001666.1 length=36"
  ∧ __repr__ (__init__ line) ≠ Return line.
Proof. vm_compute. repeat split; [done..|discriminate]. Qed.

(** *** The two example lines *)

(** C6: the Illumina 1.8 example line and the earlier-format example line
    are parsed into the stated dialect with the stated attribute values. *)
Theorem init_example_lines :
  let a := __init__ "@EAS139:136:FC706VJ:2:2104:15343:197393 1:Y:18:ATCACG" in
  let b := __init__ "@HWUSI-EAS100R:6:73:941:1973#0/1" in
  (format a = PyStr "illumina18"
   ∧ attrs a !! "instrument_name" = Some (PyStr "EAS139")
   ∧ attrs a !! "flowcell_lane" = Some (PyStr "2")
   ∧ attrs a !! "pair_id" = Some (PyStr "1"))
  ∧ (format b = PyStr "illumina"
     ∧ attrs b !! "multiplex_index_no" = Some (PyStr "0")
     ∧ attrs b !! "pair_id" = Some (PyStr "1")).
Proof. vm_compute. repeat split; reflexivity. Qed.

(** *** Pairing *)

Lemma is_pair_of_unfold a b :
  is_pair_of a b =
    (i ← pair_index a; j ← pair_index b;
     if bool_decide (sort [i; j] ≠ [1; 2]) then mret false
     else Outcome.try_except (compare_attrs a b) (mret false)).
Proof.
  unfold is_pair_of, pair_index.
  destruct (getattr a "pair_id") as [p|e]; [|done]; simpl.
  destruct (int p) as [i|e]; [|done]; simpl.
  destruct (getattr b "pair_id") as [q|e]; [|done]; simpl.
  by destruct (int q).
Qed.

Lemma sort_pair (i j : Z) :
  sort [i; j] = [1; 2] ↔ (i = 1 ∧ j = 2) ∨ (i = 2 ∧ j = 1).
Proof.
  unfold sort. simpl. destruct (Z.leb_spec i j); split.
  - intros [= -> ->]. by left.
  - intros [[-> ->]|[-> ->]]; [done|lia].
  - intros [= -> ->]. by right.
  - intros [[-> ->]|[-> ->]]; [lia|done].
Qed.

Lemma attr_eq_true a b name : attr_eq a b name = Return true ↔ same_attr a b name.
Proof.
  unfold attr_eq, getattr, same_attr.
  destruct (attrs a !! name) as [va|], (attrs b !! name) as [vb|]; simpl;
    try (split; [discriminate | by intros (? & ? & ?)]).
  split.
  - intros [= H%bool_decide_eq_true]. subst. eauto.
  - intros (v & [= ->] & [= ->]). by rewrite bool_decide_eq_true_2.
Qed.

Lemma and_true (x y : outcome bool) :
  and_ x y = Return true ↔ x = Return true ∧ y = Return true.
Proof.
  unfold and_. destruct x as [[]|]; unfold_outcome; intuition congruence.
Qed.

Lemma try_except_true (x : outcome bool) :
  Outcome.try_except x (mret false) = Return true ↔ x = Return true.
Proof. by destruct x. Qed.

Lemma try_except_returns (x : outcome bool) :
  ∃ v, Outcome.try_except x (mret false) = Return v.
Proof. destruct x; simpl; eauto. Qed.

Lemma compare_attrs_true a b :
  compare_attrs a b = Return true ↔ Forall (same_attr a b) compared.
Proof.
  unfold compare_attrs, compared.
  rewrite !and_true, !attr_eq_true, !Forall_cons, Forall_nil. tauto.
Qed.

Lemma same_attr_sym a b name : same_attr a b name → same_attr b a name.
Proof. intros (v & ? & ?). by exists v. Qed.

(** When both pair ids convert to integers the call returns a boolean. *)
Lemma is_pair_of_returns a b i j :
  pair_index a = Return i → pair_index b = Return j →
  ∃ v, is_pair_of a b = Return v.
Proof.
  intros Ha Hb. rewrite is_pair_of_unfold, Ha, Hb. simpl.
  case_bool_decide; [by eexists | apply try_except_returns].
Qed.

Lemma is_pair_of_true a b :
  is_pair_of a b = Return true ↔
    (∃ i j, pair_index a = Return i ∧ pair_index b = Return j
            ∧ ((i = 1 ∧ j = 2) ∨ (i = 2 ∧ j = 1)))
    ∧ Forall (same_attr a b) compared.
Proof.
  rewrite is_pair_of_unfold, <- compare_attrs_true.
  destruct (pair_index a) as [i|e]; simpl.
  2: { split; [done | by intros [(? & ? & ? & _) _]]. }
  destruct (pair_index b) as [j|e]; simpl.
  2: { split; [done | by intros [(? & ? & _ & ? & _) _]]. }
  case_bool_decide as Hs; rewrite sort_pair in Hs.
  - split; [done | intros [(? & ? & [= <-] & [= <-] & ?) _]; tauto].
  - rewrite try_except_true. split; [intros; split; eauto 6 | tauto].
Qed.

Lemma pair_index_setattr a name v :
  name ≠ "pair_id" → pair_index (setattr name v a) = pair_index a.
Proof.
  intros Hne. unfold pair_index, getattr, setattr. simpl.
  by rewrite lookup_insert_ne.
Qed.

Lemma compared_not_pair_id name : name ∈ compared → name ≠ "pair_id".
Proof.
  intros Hin ->. revert Hin. unfold compared.
  rewrite !elem_of_cons, elem_of_nil. intuition discriminate.
Qed.

Lemma setattr_breaks_same_attr a b name v :
  same_attr a b name → attrs b !! name ≠ Some v →
  ¬ same_attr a (setattr name v b) name.
Proof.
  intros (v0 & Ha & Hb) Hne (v1 & Ha' & Hb'). simpl in Hb'.
  rewrite lookup_insert_eq in Hb'. congruence.
Qed.

Lemma is_pair_of_setattr_false a b name v :
  is_pair_of a b = Return true → name ∈ compared →
  attrs b !! name ≠ Some v →
  is_pair_of a (setattr name v b) = Return false.
Proof.
  intros Htrue Hin Hne.
  pose proof Htrue as [(i & j & Hi & Hj & _) Hall]%is_pair_of_true.
  destruct (is_pair_of_returns a (setattr name v b) i j) as [[] Hret]; try done.
  { by rewrite pair_index_setattr; [|apply compared_not_pair_id]. }
  apply is_pair_of_true in Hret as [_ Hall'].
  rewrite Forall_forall in Hall, Hall'.
  destruct (setattr_breaks_same_attr a b name v); auto.
Qed.

Lemma is_pair_of_true_sym a b :
  is_pair_of a b = Return true → is_pair_of b a = Return true.
Proof.
  rewrite !is_pair_of_true. intros [(i & j & Hi & Hj & Hij) Hall]. split.
  - exists j, i. tauto.
  - eapply Forall_impl; [exact Hall | apply same_attr_sym].
Qed.

Lemma is_pair_of_sym a b :
  Outcome.returned (is_pair_of a b) = Outcome.returned (is_pair_of b a).
Proof.
  destruct (pair_index a) as [i|e] eqn:Ha.
  2: { rewrite !is_pair_of_unfold, Ha.
       by destruct (pair_index b). }
  destruct (pair_index b) as [j|e] eqn:Hb.
  2: { by rewrite !is_pair_of_unfold, Ha, Hb. }
  destruct (is_pair_of_returns a b i j Ha Hb) as [v Hv].
  destruct (is_pair_of_returns b a j i Hb Ha) as [v' Hv'].
  destruct v, v'; rewrite ?Hv, ?Hv'; try done.
  - apply is_pair_of_true_sym in Hv. congruence.
  - apply is_pair_of_true_sym in Hv'. congruence.
Qed.

(** The call returns exactly when both pair ids convert to integers. *)
Lemma is_pair_of_returns_iff a b :
  (∃ v, is_pair_of a b = Return v)
  ↔ ∃ i j, pair_index a = Return i ∧ pair_index b = Return j.
Proof.
  split.
  - intros [v Hv]. rewrite is_pair_of_unfold in Hv.
    destruct (pair_index a) as [i|]; [|done].
    destruct (pair_index b) as [j|]; [|done]. by exists i, j.
  - intros (i & j & Hi & Hj). by eapply is_pair_of_returns.
Qed.

Lemma is_pair_of_false a b :
  is_pair_of a b = Return false ↔
    ∃ i j, pair_index a = Return i ∧ pair_index b = Return j
           ∧ (¬ ((i = 1 ∧ j = 2) ∨ (i = 2 ∧ j = 1))
              ∨ ¬ Forall (same_attr a b) compared).
Proof.
  split.
  - intros Hfalse.
    destruct (proj1 (is_pair_of_returns_iff a b)) as (i & j & Hi & Hj);
      [by eexists|].
    exists i, j. split; [done|]. split; [done|].
    destruct (decide ((i = 1 ∧ j = 2) ∨ (i = 2 ∧ j = 1))) as [Hij|Hij];
      [|by left].
    right. intros Hall.
    assert (is_pair_of a b = Return true) as Htrue; [|congruence].
    apply is_pair_of_true. split; [by exists i, j | done].
  - intros (i & j & Hi & Hj & Hno).
    destruct (is_pair_of_returns a b i j Hi Hj) as [[|] Hv]; [|done].
    apply is_pair_of_true in Hv as [(i' & j' & Hi' & Hj' & Hij) Hall].
    assert (i' = i) as -> by congruence.
    assert (j' = j) as -> by congruence. tauto.
Qed.

(** C3: [is_pair_of] returns [True] exactly when the two pair ids are 1 and
    2 in either order and each of the eleven other attributes is present
    with the same value in both; changing one of those attributes in either
    object then gives [False]; the value returned does not depend on the
    order of the two objects.  The call returns a boolean exactly when both
    pair ids convert to integers, in either order of the objects, and that
    boolean is [False] exactly when the pair ids are not 1 and 2 or one of
    the eleven attributes is missing or differs. *)
Theorem is_pair_of_characterisation a b :
  (is_pair_of a b = Return true ↔
     (∃ i j, pair_index a = Return i ∧ pair_index b = Return j
             ∧ ((i = 1 ∧ j = 2) ∨ (i = 2 ∧ j = 1)))
     ∧ Forall (same_attr a b) compared)
  ∧ (∀ name v, is_pair_of a b = Return true → name ∈ compared →
       (attrs b !! name ≠ Some v →
          is_pair_of a (setattr name v b) = Return false)
       ∧ (attrs a !! name ≠ Some v →
          is_pair_of (setattr name v a) b = Return false))
  ∧ Outcome.returned (is_pair_of a b) = Outcome.returned (is_pair_of b a)
  ∧ ((∃ v, is_pair_of a b = Return v)
     ↔ ∃ i j, pair_index a = Return i ∧ pair_index b = Return j)
  ∧ ((∃ v, is_pair_of a b = Return v) ↔ (∃ v, is_pair_of b a = Return v))
  ∧ (is_pair_of a b = Return false ↔
       ∃ i j, pair_index a = Return i ∧ pair_index b = Return j
              ∧ (¬ ((i = 1 ∧ j = 2) ∨ (i = 2 ∧ j = 1))
                 ∨ ¬ Forall (same_attr a b) compared)).
Proof.
  split; [apply is_pair_of_true|].
  split.
  { intros name v Htrue Hin. split; intros Hne.
    - by apply is_pair_of_setattr_false.
    - apply is_pair_of_true_sym in Htrue.
      pose proof (is_pair_of_setattr_false b a name v Htrue Hin Hne) as H.
      pose proof (is_pair_of_sym (setattr name v a) b) as Hsym.
      rewrite H in Hsym.
      by destruct (is_pair_of (setattr name v a) b) as [[]|]. }
  split; [apply is_pair_of_sym|].
  split; [apply is_pair_of_returns_iff|].
  split; [|apply is_pair_of_false].
  rewrite !is_pair_of_returns_iff.
  split; intros (i & j & Hi & Hj); by exists j, i.
Qed.

Lemma is_pair_of_characterisation_witness :
  let a := __init__ "@HWUSI-EAS100R:6:73:941:1973#0/1" in
  let b := __init__ "@HWUSI-EAS100R:6:73:941:1973#0/2" in
  is_pair_of a b = Return true
  ∧ is_pair_of a (setattr "tile_no" (PyStr "74") b) = Return false.
Proof.
  intros a b. assert (is_pair_of a b = Return true) as Htrue.
  { vm_compute. reflexivity. }
  split; [exact Htrue|].
  refine (proj1 (proj1 (proj2 (is_pair_of_characterisation a b))
                   "tile_no" (PyStr "74") Htrue _) _).
  - unfold compared. do 4 apply list_elem_of_further. apply list_elem_of_here.
  - vm_compute. discriminate.
Defined.

(** C1 fails on the code: the pair ids are read and converted before the
    [try] block, so an object without [pair_id] (an unrecognized line) and a
    [pair_id] that is no integer make the call raise. *)
Theorem is_pair_of_raises_outside_try :
  let u := __init__ "@SRR001666.1 length=36" in
  let x := __init__ "@HWUSI-EAS100R:6:73:941:1973#0/x" in
  let b := __init__ "@HWUSI-EAS100R:6:73:941:1973#0/2" in
  format u = PyNone ∧ format x = PyStr "illumina"
  ∧ is_pair_of u b = Raise AttributeError
  ∧ is_pair_of b u = Raise AttributeError
  ∧ is_pair_of x b = Raise ValueError.
Proof. vm_compute. repeat split; reflexivity. Qed.

(** The call raises exactly when one of the two conversions does. *)
Lemma is_pair_of_raises_iff a b :
  Outcome.raises (is_pair_of a b) ↔
  Outcome.raises (pair_index a) ∨ Outcome.raises (pair_index b).
Proof.
  unfold Outcome.raises. split.
  - intros [e He]. destruct (pair_index a) as [i|] eqn:Ha; [|eauto].
    destruct (pair_index b) as [j|] eqn:Hb; [|eauto].
    destruct (is_pair_of_returns a b i j Ha Hb). congruence.
  - rewrite is_pair_of_unfold. intros [[e He]|[e He]].
    + rewrite He. eauto.
    + rewrite He. destruct (pair_index a); eauto.
Qed.

(** *** Unrecognized lines never pair *)

Lemma assign_then name rhs (k : Body unit) :
  name ≠ "index_sequence" →
  sets_format_or_no_index k → sets_format_or_no_index (assign name rhs;; k).
Proof.
  intros Hne Hk self. unfold mbind, Body_bind, assign.
  destruct rhs as [v|]; [|done].
  specialize (Hk (setattr name v self)).
  destruct (k (setattr name v self)) as [[?|] self']; [done|].
  rewrite Hk. simpl. by rewrite lookup_insert_ne.
Qed.

Lemma assign_index_sequence_last rhs fmt_name :
  sets_format_or_no_index
    (assign "index_sequence" rhs;; assign_format (PyStr fmt_name)).
Proof.
  intros self. unfold mbind, Body_bind, assign, assign_format.
  by destruct rhs.
Qed.

Lemma illumina18_body_format s : sets_format_or_no_index (illumina18_body s).
Proof.
  unfold illumina18_body.
  repeat (apply assign_then; [done|]). apply assign_index_sequence_last.
Qed.

Lemma illumina_body_format s : sets_format_or_no_index (illumina_body s).
Proof.
  unfold illumina_body.
  repeat (apply assign_then; [done|]). apply assign_index_sequence_last.
Qed.

Lemma unrecognized_no_index_sequence s :
  format (__init__ s) = PyNone → attrs (__init__ s) !! "index_sequence" = None.
Proof.
  unfold __init__. destruct (Str.startswith s "@"); [|done]. cbn [__seqid].
  set (self := mk (Str.strip s) PyNone ∅).
  pose proof (illumina18_body_format (Str.strip s) self) as H1.
  destruct (illumina18_body (Str.strip s) self) as [[?|] self1]; [done|].
  pose proof (illumina_body_format (__seqid self1) self1) as H2.
  destruct (illumina_body (__seqid self1) self1) as [[?|] self2]; [done|].
  intros _. by rewrite H2, H1.
Qed.

(** A call of [is_pair_of] with an unrecognized line on either side does not
    return [True]: it returns [False] or it raises. *)
Lemma unrecognized_never_pairs s b :
  format (__init__ s) = PyNone →
  is_pair_of (__init__ s) b ≠ Return true
  ∧ is_pair_of b (__init__ s) ≠ Return true.
Proof.
  intros Hidx%unrecognized_no_index_sequence.
  assert (¬ same_attr (__init__ s) b "index_sequence") as Hno.
  { intros (v & Hv & _). congruence. }
  assert ("index_sequence" ∈ compared) as Hin.
  { unfold compared. do 10 apply list_elem_of_further. apply list_elem_of_here. }
  split; intros [_ Hall]%is_pair_of_true; rewrite Forall_forall in Hall.
  - by apply Hno, Hall.
  - by apply Hno, same_attr_sym, Hall.
Qed.

End sequence_identifier.

(** * Properties of [FastqRead] *)

Section fastq_read.
Import FastqRead.

Implicit Types (r : t) (s : string).

Lemma seqid_fst r :
  cache_ok r → (seqid r).1 = SequenceIdentifier.__init__ (raw_seqid r).
Proof. unfold seqid. by intros [->| ->]. Qed.

Lemma seqid_same_lines r : same_lines r (seqid r).2.
Proof. unfold seqid, same_lines. by destruct (_seqid r). Qed.

Lemma seqid_cache_ok r : cache_ok r → cache_ok (seqid r).2.
Proof.
  unfold seqid, cache_ok. intros [H|H]; rewrite H; simpl; auto.
Qed.

Lemma init_cache_ok l1 l2 l3 l4 : cache_ok (__init__ l1 l2 l3 l4).
Proof. by left. Qed.

Lemma is_colorspace_cache_ok r : cache_ok r → cache_ok (is_colorspace r).2.
Proof.
  intros Hok%seqid_cache_ok. unfold is_colorspace.
  destruct (seqid r) as [sid r']. simpl in Hok.
  case_bool_decide; [|done]. by destruct (Str.startswith _ _).
Qed.

Lemma seqlen_cache_ok r : cache_ok r → cache_ok (seqlen r).2.
Proof.
  intros Hok%is_colorspace_cache_ok. unfold seqlen.
  by destruct (is_colorspace r) as [[] r'].
Qed.

Lemma is_colorspace_same_lines r : same_lines r (is_colorspace r).2.
Proof.
  unfold is_colorspace. pose proof (seqid_same_lines r) as H.
  destruct (seqid r) as [sid r']. simpl in H.
  case_bool_decide; [|done]. by destruct (Str.startswith _ _).
Qed.

Lemma seqlen_same_lines r : same_lines r (seqlen r).2.
Proof.
  unfold seqlen. pose proof (is_colorspace_same_lines r) as H.
  destruct (is_colorspace r) as [[] r']; exact H.
Qed.

Lemma mem_colors (c : ascii) : Str.mem c ".0123" = true ↔ c ∈ colors.
Proof.
  unfold colors. simpl. rewrite !elem_of_cons, elem_of_nil.
  repeat case_decide;
    (split; [intros ?; subst; auto 10; done | intros ?; intuition congruence]).
Qed.

Lemma colorspace_loop_true s :
  colorspace_loop s = true ↔ Forall (λ c, c ∈ colors) (list_ascii_of_string s).
Proof.
  induction s as [|c s IH]; cbn [colorspace_loop list_ascii_of_string].
  - split; [constructor | done].
  - rewrite Forall_cons, <- IH, <- mem_colors.
    destruct (Str.mem c ".0123"); simpl; intuition congruence.
Qed.

Lemma startswith_T s :
  Str.startswith s "T" = true ↔ ∃ rest, s = String "T" rest.
Proof.
  destruct s as [|c s]; simpl.
  - split; [done | by intros [? ?]].
  - case_decide as Hc.
    + subst. split; [eauto|]. intros _. by destruct s.
    + split; [done | intros [? [= ? _]]; congruence].
Qed.

(** The value of [is_colorspace] in terms of the stored lines. *)
Lemma is_colorspace_fst r :
  cache_ok r →
  (is_colorspace r).1 =
    if bool_decide (SequenceIdentifier.format
                      (SequenceIdentifier.__init__ (raw_seqid r)) = PyNone)
    then if Str.startswith (sequence r) "T"
         then colorspace_loop (Str.tail (sequence r)) else false
    else false.
Proof.
  intros Hok. unfold is_colorspace.
  pose proof (seqid_fst r Hok) as Hsid.
  pose proof (seqid_same_lines r) as (_ & Hseq & _).
  destruct (seqid r) as [sid r']. simpl in *. subst sid. rewrite Hseq.
  case_bool_decide; [|done]. by destruct (Str.startswith _ _).
Qed.

(** C10: a read is reported as colorspace exactly when its identifier line
    matches no dialect and its sequence is a [T] followed only by characters
    among [.], [0], [1], [2], [3]; a read with a recognized header is never
    colorspace. *)
Theorem is_colorspace_characterisation r :
  cache_ok r →
  let format := SequenceIdentifier.format
                  (SequenceIdentifier.__init__ (raw_seqid r)) in
  ((is_colorspace r).1 = true ↔
     format = PyNone
     ∧ ∃ rest, sequence r = String "T" rest
               ∧ Forall (λ c, c ∈ colors) (list_ascii_of_string rest))
  ∧ (format ≠ PyNone → (is_colorspace r).1 = false).
Proof.
  intros Hok format. rewrite is_colorspace_fst by done. fold format.
  case_bool_decide as Hfmt; [|split; [split; [done|tauto] | done]].
  split; [|done].
  destruct (Str.startswith (sequence r) "T") eqn:HT.
  - apply startswith_T in HT as [rest Hrest]. rewrite Hrest. simpl.
    rewrite colorspace_loop_true. split.
    + intros ?. split; [done|]. by exists rest.
    + by intros [_ (rest' & [= <-] & ?)].
  - split; [done|]. intros [_ (rest & Hrest & _)].
    assert (Str.startswith (sequence r) "T" = true) by (apply startswith_T; eauto).
    congruence.
Qed.

Lemma is_colorspace_characterisation_witness :
  (is_colorspace (__init__ "@1_51_88" "T0123.." "+" "!!!!!!")).1 = true.
Proof.
  refine (proj2 (proj1 (is_colorspace_characterisation
                          (__init__ "@1_51_88" "T0123.." "+" "!!!!!!") _)) _).
  - left. reflexivity.
  - split; [vm_compute; reflexivity|]. exists "0123..". split; [reflexivity|].
    repeat constructor.
Defined.

(** C9: the sequence length is one less than the length of the stored
    sequence when the read is reported as colorspace, and the length of the
    stored sequence otherwise. *)
Theorem seqlen_colorspace r :
  (seqlen r).1 = if (is_colorspace r).1 then Str.len (sequence r) - 1
                 else Str.len (sequence r).
Proof.
  unfold seqlen. pose proof (is_colorspace_same_lines r) as (_ & Hseq & _).
  destruct (is_colorspace r) as [[] r']; simpl in *; by rewrite Hseq.
Qed.

End fastq_read.

(** * Properties of the file operations *)

Section files.

Implicit Types (w : world) (fp : nat) (f : File.t) (s : string).

Lemma IO_bind_return {A B} (m : IO A) (k : A → IO B) w a w' :
  m w = (Return a, w') → (m ≫= k) w = k a w'.
Proof. intros H. unfold mbind, IO_bind. by rewrite H. Qed.

Lemma IO_bind_raise {A B} (m : IO A) (k : A → IO B) w e w' :
  m w = (Raise e, w') → (m ≫= k) w = (Raise e, w').
Proof. intros H. unfold mbind, IO_bind. by rewrite H. Qed.

Lemma lookup_set_obj fp f w : objs (set_obj fp f w) !! fp = Some f.
Proof. apply lookup_insert_eq. Qed.

Lemma lookup_set_obj_ne fp h f w :
  fp ≠ h → objs (set_obj fp f w) !! h = objs w !! h.
Proof. intros. by apply lookup_insert_ne. Qed.

Lemma set_obj_twice fp f g w : set_obj fp f (set_obj fp g w) = set_obj fp f w.
Proof. unfold set_obj. simpl. by rewrite insert_insert_eq. Qed.

Lemma on_open_open {A} fp (op : string → A * string) w f :
  objs w !! fp = Some f → File.closed f = false →
  on_open fp op w =
    (Return (op (File.content f)).1,
     set_obj fp (File.mk (op (File.content f)).2 false) w).
Proof.
  intros Hf Hc. unfold on_open. rewrite Hf, Hc.
  by destruct (op (File.content f)).
Qed.

(** An operation that returns was applied to an open file object. *)
Lemma on_open_inv {A} fp (op : string → A * string) w a w' :
  on_open fp op w = (Return a, w') →
  ∃ f, objs w !! fp = Some f ∧ File.closed f = false
       ∧ a = (op (File.content f)).1.
Proof.
  unfold on_open. destruct (objs w !! fp) as [f|]; [|done].
  destruct (File.closed f) eqn:Hc; [done|].
  destruct (op (File.content f)) as [a' rest] eqn:Hop.
  intros [= <- <-]. exists f. by rewrite Hop.
Qed.

Lemma close_spec fp w f :
  objs w !! fp = Some f →
  close fp w = (Return (), set_obj fp (File.mk (File.content f) true) w).
Proof. intros Hf. unfold close. by rewrite Hf. Qed.

Lemma close_returns fp w : ∃ w', close fp w = (Return (), w').
Proof. unfold close. destruct (objs w !! fp); eauto. Qed.

(** *** Lines *)

Lemma cut_line_empty s : (cut_line s).1 = EmptyString ↔ s = EmptyString.
Proof.
  destruct s as [|c s]; simpl; [done|].
  case_decide; [done|]. by destruct (cut_line s).
Qed.

Lemma lines_cut_line s :
  s ≠ EmptyString → lines s = (cut_line s).1 :: lines (cut_line s).2.
Proof.
  induction s as [|c s IH]; [done|]. intros _. simpl.
  case_decide; [done|]. destruct s as [|d s]; [done|].
  rewrite IH by done. by destruct (cut_line (String d s)).
Qed.

Lemma lines_nil s : lines s = [] ↔ s = EmptyString.
Proof.
  destruct s as [|c s]; [done|]. by rewrite lines_cut_line.
Qed.

(** *** [FastqIterator.next] *)

Lemma readline_step {B} fp w c (k : string → IO B) :
  objs w !! fp = Some (File.mk c false) →
  (readline fp ≫= k) w =
    k (cut_line c).1 (set_obj fp (File.mk (cut_line c).2 false) w).
Proof.
  intros Hf. apply IO_bind_return. unfold readline.
  by rewrite (on_open_open fp cut_line w _ Hf).
Qed.

(** One call of [next] on an open file object, in terms of the four lines
    cut from its unread text. *)
Lemma next_open (it : FastqIterator.t) w f :
  objs w !! FastqIterator.__fp it = Some f → File.closed f = false →
  let c1 := (cut_line (File.content f)).2 in
  let c2 := (cut_line c1).2 in
  let c3 := (cut_line c2).2 in
  let c4 := (cut_line c3).2 in
  FastqIterator.next it w =
    if bool_decide ((cut_line c3).1 ≠ EmptyString) then
      (Return (FastqRead.__init__ (cut_line (File.content f)).1 (cut_line c1).1
                 (cut_line c2).1 (cut_line c3).1),
       set_obj (FastqIterator.__fp it) (File.mk c4 false) w)
    else
      (Raise StopIteration,
       set_obj (FastqIterator.__fp it)
         (File.mk c4 (bool_decide (FastqIterator.__fastq_file it = None))) w).
Proof.
  destruct f as [c cl]. simpl. intros Hf ->. unfold FastqIterator.next.
  set (fp := FastqIterator.__fp it) in *.
  rewrite (readline_step fp w c) by done.
  rewrite (readline_step fp _ _) by apply lookup_set_obj.
  rewrite (readline_step fp _ _) by apply lookup_set_obj.
  rewrite (readline_step fp _ _) by apply lookup_set_obj.
  rewrite !set_obj_twice.
  case_bool_decide as Hq; [done|].
  case_bool_decide as Hfile.
  - erewrite IO_bind_return; [|apply close_spec, lookup_set_obj].
    by rewrite set_obj_twice.
  - done.
Qed.

(** The four lines cut by [next] are the first four of [lines], when there
    are four; otherwise the fourth line cut is empty. *)
Lemma cut_four_lines c :
  let c1 := (cut_line c).2 in
  let c2 := (cut_line c1).2 in
  let c3 := (cut_line c2).2 in
  match lines c with
  | l1 :: l2 :: l3 :: l4 :: _ =>
      l1 = (cut_line c).1 ∧ l2 = (cut_line c1).1 ∧ l3 = (cut_line c2).1
      ∧ l4 = (cut_line c3).1 ∧ l4 ≠ EmptyString
  | _ => (cut_line c3).1 = EmptyString
  end.
Proof.
  intros c1 c2 c3.
  destruct (decide (c = EmptyString)) as [->|H0]; [done|].
  rewrite (lines_cut_line c H0). fold c1.
  destruct (decide (c1 = EmptyString)) as [E1|H1].
  { subst c2 c3. by rewrite E1. }
  rewrite (lines_cut_line c1 H1). fold c2.
  destruct (decide (c2 = EmptyString)) as [E2|H2].
  { subst c3. by rewrite E2. }
  rewrite (lines_cut_line c2 H2). fold c3.
  destruct (decide (c3 = EmptyString)) as [E3|H3].
  { by rewrite E3. }
  rewrite (lines_cut_line c3 H3). repeat split; try done.
  by rewrite cut_line_empty.
Qed.

Lemma lines_cut_rest c : lines (cut_line c).2 = tail (lines c).
Proof.
  destruct (decide (c = EmptyString)) as [->|Hne]; [done|].
  by rewrite (lines_cut_line c Hne).
Qed.

Lemma unread_set_obj fp f w : unread fp (set_obj fp f w) = File.content f.
Proof. unfold unread. by rewrite lookup_set_obj. Qed.

(** C2, as the code has it: on an open source a pull returns the record of
    the next four lines when four lines remain, and leaves the lines after
    them unread; otherwise (no line left, or the one to three lines of a
    truncated record) it ends the iteration with [StopIteration], no other
    exception is raised, and the lines that were left have been read:
    nothing remains unread. *)
Theorem next_short_source_stops (it : FastqIterator.t) w f :
  objs w !! FastqIterator.__fp it = Some f → File.closed f = false →
  match lines (File.content f) with
  | l1 :: l2 :: l3 :: l4 :: rest =>
      (FastqIterator.next it w).1 = Return (FastqRead.__init__ l1 l2 l3 l4)
      ∧ lines (unread (FastqIterator.__fp it) (FastqIterator.next it w).2)
        = rest
  | _ =>
      (FastqIterator.next it w).1 = Raise StopIteration
      ∧ unread (FastqIterator.__fp it) (FastqIterator.next it w).2
        = EmptyString
  end.
Proof.
  intros Hf Hc. rewrite (next_open it w f Hf Hc).
  pose proof (cut_four_lines (File.content f)) as H. simpl in H.
  assert (lines (cut_line (cut_line (cut_line (cut_line
                   (File.content f)).2).2).2).2
          = tail (tail (tail (tail (lines (File.content f)))))) as Hrest
    by (by rewrite !lines_cut_rest).
  destruct (lines (File.content f)) as [|l1 [|l2 [|l3 [|l4 rest]]]];
    try (rewrite H, bool_decide_eq_false_2 by auto; simpl;
         split; [done|]; rewrite unread_set_obj; by apply lines_nil).
  destruct H as (-> & -> & -> & -> & H4).
  rewrite bool_decide_eq_true_2 by done. simpl.
  split; [done|]. by rewrite unread_set_obj.
Qed.

(** At the end of the source the file object is closed exactly when the
    iterator was built without a file name. *)
Lemma next_eof_closed (it : FastqIterator.t) w f :
  objs w !! FastqIterator.__fp it = Some f → File.closed f = false →
  (length (lines (File.content f)) < 4)%nat →
  is_closed (FastqIterator.__fp it) (FastqIterator.next it w).2
  = Some (bool_decide (FastqIterator.__fastq_file it = None)).
Proof.
  intros Hf Hc Hlen. rewrite (next_open it w f Hf Hc).
  pose proof (cut_four_lines (File.content f)) as H. simpl in H.
  destruct (lines (File.content f)) as [|l1 [|l2 [|l3 [|l4 ?]]]];
    [| | | | simpl in Hlen; lia];
    rewrite H, bool_decide_eq_false_2 by auto;
    unfold is_closed; simpl; by rewrite lookup_insert_eq.
Qed.

Lemma next_short_source_stops_witness :
  (FastqIterator.next (FastqIterator.mk None 7)
     (example_world ["@HWUSI-EAS100R:6:73:941:1973#0/1"; "ACGT"; "+"])).1
  = Raise StopIteration
  ∧ unread 7
      (FastqIterator.next (FastqIterator.mk None 7)
         (example_world ["@HWUSI-EAS100R:6:73:941:1973#0/1"; "ACGT"; "+"])).2
    = EmptyString.
Proof.
  exact (next_short_source_stops (FastqIterator.mk None 7)
           (example_world ["@HWUSI-EAS100R:6:73:941:1973#0/1"; "ACGT"; "+"])
           (File.mk (text_of ["@HWUSI-EAS100R:6:73:941:1973#0/1"; "ACGT"; "+"]) false)
           eq_refl eq_refl).
Defined.

(** C2 as stated fails on the code: on a source of three lines the pull
    ends the iteration as it does on an empty source; no error is raised. *)
Lemma next_truncated_record_is_not_an_error :
  let w := example_world ["@HWUSI-EAS100R:6:73:941:1973#0/1"; "ACGT"; "+"] in
  let pull := (it ← FastqIterator.__init__ None (Some 7%nat);
               FastqIterator.next it) w in
  length (lines (unread 7 w)) = 3%nat
  ∧ pull.1 = Raise StopIteration
  ∧ ¬ ∃ e, e ≠ StopIteration ∧ pull.1 = Raise e.
Proof.
  vm_compute. split; [done|]. split; [done|].
  intros (e & Hne & [= He]). by apply Hne.
Qed.

(** C5 fails on the code, both ways: at the end of the iteration the handle
    that the caller supplied is closed, and the handle that the iterator
    opened itself from a file name is left open. *)
Theorem next_closes_the_wrong_handle :
  let w := example_world example_record in
  (∃ w', (it ← FastqIterator.__init__ None (Some 7%nat); pulls 2 it) w
         = (Raise StopIteration, w')
         ∧ is_closed 7 w = Some false ∧ is_closed 7 w' = Some true)
  ∧ (∃ it w1 w2,
       FastqIterator.__init__ (Some "reads.fastq") None w = (Return it, w1)
       ∧ objs w !! FastqIterator.__fp it = None
       ∧ pulls 2 it w1 = (Raise StopIteration, w2)
       ∧ is_closed (FastqIterator.__fp it) w2 = Some false).
Proof.
  split.
  - eexists. split; [vm_compute; reflexivity|]. split; vm_compute; reflexivity.
  - do 3 eexists. split; [vm_compute; reflexivity|].
    split; [vm_compute; reflexivity|].
    split; vm_compute; reflexivity.
Qed.

(** *** Records built by the stream *)

(** A record returned by [next] is built from four lines cut by
    [readline]. *)
Lemma next_returns_cut_lines (it : FastqIterator.t) w r :
  (FastqIterator.next it w).1 = Return r →
  ∃ t1 t2 t3 t4,
    r = FastqRead.__init__ (cut_line t1).1 (cut_line t2).1
          (cut_line t3).1 (cut_line t4).1.
Proof.
  intros Hr.
  assert (∃ f, objs w !! FastqIterator.__fp it = Some f
               ∧ File.closed f = false) as (f & Hf & Hc).
  { unfold FastqIterator.next, mbind, IO_bind in Hr.
    destruct (readline (FastqIterator.__fp it) w) as [[l|e] w1] eqn:H1;
      [|done].
    apply on_open_inv in H1 as (f & ? & ? & _). eauto. }
  rewrite (next_open it w f Hf Hc) in Hr.
  case_bool_decide; [|done]. injection Hr as <-. eauto 10.
Qed.

(** C8, as the code has it: the stored sequence and quality are the lines
    given to the constructor without their leading and trailing whitespace,
    so they neither begin nor end with a line terminator; in a record
    returned by the stream they hold no line feed at all; and reading the
    properties of a record leaves its four lines as they are.  The two
    lengths are not compared. *)
Theorem FastqRead_lines_are_stripped :
  (∀ l1 l2 l3 l4,
     let r := FastqRead.__init__ l1 l2 l3 l4 in
     FastqRead.raw_seqid r = l1
     ∧ FastqRead.sequence r = Str.strip l2
     ∧ FastqRead.quality r = Str.strip l4
     ∧ starts_with_space (FastqRead.sequence r) = false
     ∧ ends_with_space (FastqRead.sequence r) = false
     ∧ starts_with_space (FastqRead.quality r) = false
     ∧ ends_with_space (FastqRead.quality r) = false)
  ∧ (∀ (it : FastqIterator.t) w r,
       (FastqIterator.next it w).1 = Return r →
       Str.count newline (FastqRead.sequence r) = 0
       ∧ Str.count newline (FastqRead.quality r) = 0)
  ∧ (∀ r, same_lines r (FastqRead.seqid r).2
          ∧ same_lines r (FastqRead.is_colorspace r).2
          ∧ same_lines r (FastqRead.seqlen r).2).
Proof.
  split; [|split].
  - intros l1 l2 l3 l4. simpl.
    pose proof (strip_no_outer_space l2) as [? ?].
    pose proof (strip_no_outer_space l4) as [? ?]. done.
  - intros it w r (t1 & t2 & t3 & t4 & ->)%next_returns_cut_lines. simpl.
    split; apply strip_cut_line_no_newline.
  - intros r. split; [|split].
    + apply seqid_same_lines.
    + apply is_colorspace_same_lines.
    + apply seqlen_same_lines.
Qed.

Lemma FastqRead_lines_are_stripped_witness :
  Str.count newline
    (FastqRead.sequence
       (FastqRead.__init__ ("@HWUSI-EAS100R:6:73:941:1973#0/1" ++ LF)
          ("ACGT" ++ LF) ("+" ++ LF) ("IIII" ++ LF))) = 0.
Proof.
  assert ((FastqIterator.next (FastqIterator.mk None 7)
             (example_world example_record)).1
          = Return (FastqRead.__init__
                      ("@HWUSI-EAS100R:6:73:941:1973#0/1" ++ LF) ("ACGT" ++ LF)
                      ("+" ++ LF) ("IIII" ++ LF))) as Hnext.
  { vm_compute. reflexivity. }
  exact (proj1 (proj1 (proj2 FastqRead_lines_are_stripped) _ _ _ Hnext)).
Defined.

(** C8 as stated fails on the code: a record read from four lines whose
    quality line is shorter than the sequence line is built as it is, and a
    line terminator inside a line given to the constructor stays. *)
Lemma FastqRead_lengths_can_differ :
  let w := example_world ["@HWUSI-EAS100R:6:73:941:1973#0/1"; "ACGT"; "+"; "II"] in
  let r := FastqRead.__init__ ("@HWUSI-EAS100R:6:73:941:1973#0/1" ++ LF)
             ("ACGT" ++ LF) ("+" ++ LF) ("II" ++ LF) in
  let r' := FastqRead.__init__ "@HWUSI-EAS100R:6:73:941:1973#0/1"
              ("AC" ++ LF ++ "GT") "+" ("II" ++ LF ++ "II") in
  (FastqIterator.next (FastqIterator.mk None 7) w).1 = Return r
  ∧ Str.len (FastqRead.sequence r) = 4
  ∧ Str.len (FastqRead.quality r) = 2
  ∧ Str.len (FastqRead.quality r) ≠ Str.len (FastqRead.sequence r)
  ∧ Str.count newline (FastqRead.sequence r') = 1.
Proof. vm_compute. repeat split; done. Qed.

(** *** [nreads] *)

Lemma cut_count c n s :
  Str.count c (cut n s).1 + Str.count c (cut n s).2 = Str.count c s.
Proof.
  revert n. induction s as [|a s IH]; intros n; simpl; [done|].
  destruct (n =? 0)%N; [done|].
  specialize (IH (N.pred n)). destruct (cut (N.pred n) s). simpl in *. lia.
Qed.

Lemma cut_empty n s :
  n ≠ 0%N → (cut n s).1 = EmptyString → (cut n s).2 = EmptyString.
Proof.
  intros Hn. destruct s as [|a s]; simpl; [done|].
  destruct (N.eqb_spec n 0); [done|]. by destruct (cut (N.pred n) s).
Qed.

(** The loop of [nreads], entered with the first buffer read, returns the
    line feeds of that buffer and of the text still unread. *)
Lemma count_lines_open fp buf nlines w :
  ∀ f, objs w !! fp = Some f → File.closed f = false →
       (buf = EmptyString → File.content f = EmptyString) →
       ∃ w', count_lines fp buf nlines w
             = (Return (nlines + Str.count newline buf
                        + Str.count newline (File.content f)), w')
             ∧ is_Some (objs w' !! fp).
Proof.
  funelim (count_lines fp buf nlines w); intros f Hf Hc Hbuf.
  - exists w. rewrite Hbuf by done. simpl. split; [f_equal; f_equal; lia | eauto].
  - pose proof Hread as Hr. unfold read in Hr.
    rewrite (on_open_open fp (cut buf_size) w f Hf Hc) in Hr.
    injection Hr as Ebuf Ew.
    match goal with
    | IH : ∀ f, objs w' !! fp = Some f → _ |- _ =>
        destruct (IH (File.mk (cut buf_size (File.content f)).2 false))
          as (w'' & Hw'' & Hsome)
    end.
    + rewrite <- Ew. apply lookup_set_obj.
    + done.
    + intros E. simpl. apply cut_empty; [done | by rewrite Ebuf].
    + exists w''. split; [|done].
      cbn [File.content] in Hw''. rewrite Hw''. f_equal. f_equal.
      pose proof (cut_count newline buf_size (File.content f)) as Hcount.
      rewrite Ebuf in Hcount. lia.
  - pose proof Hread as Hr. unfold read in Hr.
    by rewrite (on_open_open fp (cut buf_size) w f Hf Hc) in Hr.
Qed.

(** [nreads] on the open file object [fp] holding the text [text]. *)
Lemma nreads_on_handle (fastq : option string) fp w f :
  objs w !! fp = Some f → File.closed f = false →
  let n := Str.count newline (File.content f) in
  ((fp ← mret fp;
    buf ← read fp buf_size;
    nlines ← count_lines fp buf 0;
    (if bool_decide (fastq ≠ None) then close fp else mret ());;
    if bool_decide (nlines `mod` 4 ≠ 0) then
      raise (Exception_ "Bad read count (not fastq file, or corrupted?)")
    else mret (nlines `div` 4)) w).1
  = if bool_decide (n `mod` 4 = 0) then Return (n `div` 4)
    else Raise (Exception_ "Bad read count (not fastq file, or corrupted?)").
Proof.
  intros Hf Hc n.
  erewrite IO_bind_return; [|reflexivity].
  erewrite IO_bind_return; [|by apply on_open_open].
  set (rest := (cut buf_size (File.content f)).2).
  destruct (count_lines_open fp (cut buf_size (File.content f)).1 0
              (set_obj fp (File.mk rest false) w) (File.mk rest false))
    as (w' & Hw' & Hsome).
  { apply lookup_set_obj. }
  { done. }
  { simpl. by apply cut_empty. }
  erewrite IO_bind_return; [|exact Hw'].
  cbn [File.content]. subst rest. rewrite Z.add_0_l, cut_count. fold n.
  assert (∃ w'', (if bool_decide (fastq ≠ None) then close fp else mret ()) w'
                 = (Return (), w'')) as [w'' Hclose].
  { case_bool_decide; [apply close_returns | by eexists]. }
  erewrite IO_bind_return; [|exact Hclose].
  repeat case_bool_decide; done.
Qed.

(** C7: [nreads] raises its exception exactly when the number of line feeds
    of the input is not a multiple of four, and otherwise returns that
    number divided by four (so 0 on an empty input). *)
Theorem nreads_counts_line_feeds (fastq : option string) (fp : option nat) w text :
  input_text fastq fp w = Some text →
  let n := Str.count newline text in
  (nreads fastq fp w).1
  = if bool_decide (n `mod` 4 = 0) then Return (n `div` 4)
    else Raise (Exception_ "Bad read count (not fastq file, or corrupted?)").
Proof.
  unfold input_text, nreads. destruct fp as [h|].
  - destruct (objs w !! h) as [f|] eqn:Hf; [|done]. simpl.
    destruct (File.closed f) eqn:Hc; [done|]. intros [= <-].
    by apply nreads_on_handle.
  - destruct fastq as [path|]; [|done]. simpl. intros Hpath.
    erewrite IO_bind_return; [|unfold open; by rewrite Hpath].
    set (h := fresh (dom (objs w))).
    pose proof (nreads_on_handle (Some path) h
                  (set_obj h (File.mk text false) w) (File.mk text false)
                  (lookup_set_obj _ _ _) eq_refl) as H.
    erewrite IO_bind_return in H; [|reflexivity]. exact H.
Qed.

Lemma nreads_counts_line_feeds_witness :
  (nreads None (Some 7%nat) (example_world ["@r1"; "ACGT"; "+"])).1
  = Raise (Exception_ "Bad read count (not fastq file, or corrupted?)")
  ∧ (nreads (Some "reads.fastq") None (example_world [])).1 = Return 0
  ∧ (nreads (Some "reads.fastq") None (example_world example_record)).1
    = Return 1.
Proof.
  split; [|split].
  - exact (nreads_counts_line_feeds None (Some 7%nat)
             (example_world ["@r1"; "ACGT"; "+"])
             (text_of ["@r1"; "ACGT"; "+"]) eq_refl).
  - exact (nreads_counts_line_feeds (Some "reads.fastq") None
             (example_world []) (text_of []) eq_refl).
  - exact (nreads_counts_line_feeds (Some "reads.fastq") None
             (example_world example_record) (text_of example_record) eq_refl).
Defined.

End files.

(** * The parser of [SequenceIdentifier], case by case *)

Section identifier_parsing.
Import SequenceIdentifier.

Implicit Types (s : string) (self : t) (l : list (string * option value)).

(** *** Splitting *)

Lemma split_nonempty sep s : Str.split sep s ≠ [].
Proof.
  destruct s as [|c s]; simpl; [done|].
  case_decide; [done|]. by destruct (Str.split sep s).
Qed.

Lemma split_head sep s : is_Some (Str.split sep s !! 0%nat).
Proof.
  pose proof (split_nonempty sep s). destruct (Str.split sep s); [done|].
  by eexists.
Qed.

(** A second piece exists exactly when the separator occurs. *)
Lemma split_second sep s :
  is_Some (Str.split sep s !! 1%nat) ↔ Str.mem sep s = true.
Proof.
  induction s as [|c s IH]; simpl.
  - split; [by intros [? ?] | done].
  - destruct (decide (c = sep)) as [->|Hne].
    + split; [done|]. intros _. apply split_head.
    + rewrite <- IH. pose proof (split_nonempty sep s).
      by destruct (Str.split sep s) as [|x xs].
Qed.

(** *** Runs of assignments *)

Lemma assigns_success l k self :
  Forall (λ x, is_Some x.2) l →
  assigns l k self = k (mk (__seqid self) (format self) (assigned l (attrs self))).
Proof.
  revert self. induction l as [|[name rhs] l IH]; intros self Hall.
  - by destruct self.
  - apply Forall_cons in Hall as [[v Hv] Hall]. simpl in Hv. subst rhs.
    simpl. unfold mbind, Body_bind, assign. by rewrite IH.
Qed.

Lemma assigns_failure l k self :
  ¬ Forall (λ x, is_Some x.2) l →
  ∃ l1, l1 `prefix_of` l ∧
        assigns l k self
        = (None, mk (__seqid self) (format self) (assigned l1 (attrs self))).
Proof.
  revert self. induction l as [|[name rhs] l IH]; intros self Hall.
  - by destruct Hall.
  - destruct rhs as [v|].
    + destruct (IH (setattr name v self)) as (l1 & Hpre & Hrun).
      { intros Hl. apply Hall. constructor; [by eexists | done]. }
      exists ((name, Some v) :: l1). split; [by apply prefix_cons|].
      simpl. unfold mbind, Body_bind, assign. by rewrite Hrun.
    + exists []. split; [apply prefix_nil|]. simpl.
      unfold mbind, Body_bind, assign. by destruct self.
Qed.

Lemma lookup_assigned_notin l (m : gmap string value) name :
  name ∉ l.*1 → assigned l m !! name = m !! name.
Proof.
  revert m. induction l as [|[n rhs] l IH]; intros m Hnotin; [done|].
  rewrite fmap_cons, not_elem_of_cons in Hnotin. destruct Hnotin as [Hne Hnotin].
  unfold assigned in *. simpl. rewrite IH by done.
  destruct rhs; [by rewrite lookup_insert_ne | done].
Qed.

Lemma illumina18_body_assigns seqid :
  illumina18_body seqid
  = assigns (illumina18_assignments (Str.split ":" (Str.tail seqid)))
      (assign_format (PyStr "illumina18")).
Proof. reflexivity. Qed.

Lemma illumina_body_assigns seqid :
  illumina_body seqid
  = assigns (illumina_assignments (Str.split ":" (Str.tail seqid)))
      (assign_format (PyStr "illumina")).
Proof. reflexivity. Qed.

Ltac no_field :=
  repeat match goal with
    | H : is_Some None |- _ => by destruct H
    | H : Forall _ (_ :: _) |- _ => apply Forall_cons in H as [? H]; simpl in *
    end.

Lemma illumina18_assignments_all fields :
  Forall (λ x, is_Some x.2) (illumina18_assignments fields)
  ↔ (10 ≤ length fields)%nat
    ∧ from_option (Str.mem " ") false (fields !! 6%nat) = true.
Proof.
  destruct fields as [|f0 [|f1 [|f2 [|f3 [|f4 [|f5 [|f6 [|f7 [|f8 [|f9 rest]]]]]]]]]];
    try (split; [intros H; unfold illumina18_assignments, field, subfield, item in H;
                 simpl in H; no_field
                | intros [Hlen _]; simpl in Hlen; lia]).
  unfold illumina18_assignments, field, subfield, item. simpl.
  rewrite <- split_second. rewrite !Forall_cons, Forall_nil. simpl.
  pose proof (split_head " " f6) as [y Hy].
  rewrite Hy. simpl. rewrite <- (fmap_is_Some PyStr).
  intuition (try lia; eauto).
Qed.

Lemma illumina_assignments_all fields :
  Forall (λ x, is_Some x.2) (illumina_assignments fields)
  ↔ (5 ≤ length fields)%nat
    ∧ from_option
        (λ f4, from_option (Str.mem "/") false (Str.split "#" f4 !! 1%nat))
        false (fields !! 4%nat) = true.
Proof.
  destruct fields as [|f0 [|f1 [|f2 [|f3 [|f4 rest]]]]];
    try (split; [intros H; unfold illumina_assignments, field, subfield,
                   subsubfield, item in H;
                 simpl in H; no_field
                | intros [Hlen _]; simpl in Hlen; lia]).
  unfold illumina_assignments, field, subfield, subsubfield, item. simpl.
  rewrite !Forall_cons, Forall_nil. simpl.
  pose proof (split_head "#" f4) as [y Hy]. rewrite Hy. simpl.
  destruct (Str.split "#" f4 !! 1%nat) as [g|] eqn:Hg; simpl.
  - rewrite <- split_second. pose proof (split_head "/" g) as [m Hm].
    rewrite Hm. simpl. rewrite <- (fmap_is_Some PyStr).
    intuition (try lia; eauto).
  - split; [intros H; no_field; intuition; no_field | by intros [_ ?]].
Qed.

Lemma assigned_overrides l (m m' : gmap string value) :
  Forall (λ x, is_Some x.2) l →
  (∀ name, name ∉ l.*1 → m !! name = m' !! name) →
  assigned l m = assigned l m'.
Proof.
  revert m m'. induction l as [|[n rhs] l IH]; intros m m' Hall Hsame.
  - apply map_eq. intros name. apply Hsame. apply not_elem_of_nil.
  - apply Forall_cons in Hall as [[v Hv] Hall]. simpl in Hv. subst rhs.
    unfold assigned in *. simpl. apply IH; [done|].
    intros name Hname. destruct (decide (n = name)) as [->|Hne].
    + by rewrite !lookup_insert_eq.
    + rewrite !lookup_insert_ne by done. apply Hsame.
      rewrite fmap_cons, not_elem_of_cons. by split.
Qed.

(** The state of [self] after [__init__], by the shape of the line. *)
Lemma init_cases s :
  let fields := fields_of s in
  if looks_illumina18 s then
    __init__ s = mk (Str.strip s) (PyStr "illumina18")
                   (assigned (illumina18_assignments fields) ∅)
  else if looks_illumina s then
    __init__ s = mk (Str.strip s) (PyStr "illumina")
                   (assigned (illumina_assignments fields) ∅)
  else format (__init__ s) = PyNone.
Proof.
  intros fields. unfold looks_illumina, looks_illumina18, __init__.
  destruct (Str.startswith s "@"); [|done]. cbn [__seqid andb].
  fold (fields_of s). fold fields.
  rewrite illumina18_body_assigns. fold (fields_of s). fold fields.
  destruct (decide (Forall (λ x, is_Some x.2) (illumina18_assignments fields)))
    as [H18|H18].
  { rewrite assigns_success by done.
    apply illumina18_assignments_all in H18 as [Hlen ->].
    by rewrite bool_decide_eq_true_2. }
  destruct (assigns_failure _ (assign_format (PyStr "illumina18"))
              (mk (Str.strip s) PyNone ∅) H18) as (l1 & Hpre & ->).
  cbn [__seqid format attrs].
  assert (bool_decide (10 ≤ length fields)%nat
          && from_option (Str.mem " ") false (fields !! 6%nat) = false) as ->.
  { apply not_true_is_false. intros [Hlen Hsp]%andb_true_iff.
    apply H18, illumina18_assignments_all.
    by apply bool_decide_eq_true in Hlen. }
  cbn [negb andb].
  rewrite illumina_body_assigns. fold (fields_of s). fold fields.
  destruct (decide (Forall (λ x, is_Some x.2) (illumina_assignments fields)))
    as [Hleg|Hleg].
  - rewrite assigns_success by done.
    unfold assign_format, set_format. cbn [__seqid format attrs].
    pose proof Hleg as [Hlen ->]%illumina_assignments_all.
    rewrite bool_decide_eq_true_2 by done. cbn [andb]. f_equal.
    apply assigned_overrides; [done|]. intros name Hname.
    apply lookup_assigned_notin. intros Hin. apply Hname.
    destruct Hpre as [l2 Hl2].
    change ((illumina_assignments fields).*1)
      with ((illumina18_assignments fields).*1).
    rewrite Hl2, fmap_app, elem_of_app. by left.
  - destruct (assigns_failure _ (assign_format (PyStr "illumina"))
                (mk (Str.strip s) PyNone (assigned l1 ∅)) Hleg)
      as (l2 & _ & ->).
    assert (bool_decide (5 ≤ length fields)%nat
            && from_option
                 (λ f4, from_option (Str.mem "/") false
                          (Str.split "#" f4 !! 1%nat))
                 false (fields !! 4%nat) = false) as ->; [|done].
    apply not_true_is_false. intros [Hlen Hsp]%andb_true_iff.
    apply Hleg, illumina_assignments_all.
    by apply bool_decide_eq_true in Hlen.
Qed.

Lemma looks_illumina18_pieces s :
  looks_illumina18 s = true →
  Str.startswith s "@" = true
  ∧ ∃ f0 f1 f2 f3 f4 f5 f6 f7 f8 f9 rest y p more,
      fields_of s = f0 :: f1 :: f2 :: f3 :: f4 :: f5 :: f6 :: f7 :: f8 :: f9 :: rest
      ∧ Str.split " " f6 = y :: p :: more.
Proof.
  unfold looks_illumina18.
  intros [[Hat Hlen%bool_decide_eq_true]%andb_true_iff Hsp]%andb_true_iff.
  split; [done|].
  destruct (fields_of s)
    as [|f0 [|f1 [|f2 [|f3 [|f4 [|f5 [|f6 [|f7 [|f8 [|f9 rest]]]]]]]]]];
    simpl in Hlen; try lia.
  simpl in Hsp. apply split_second in Hsp as [p Hp].
  destruct (Str.split " " f6) as [|y [|p' more]] eqn:Hs; try done.
  do 14 eexists. split; [reflexivity | exact Hs].
Qed.

Lemma looks_illumina_pieces s :
  looks_illumina s = true →
  Str.startswith s "@" = true ∧ looks_illumina18 s = false
  ∧ ∃ f0 f1 f2 f3 f4 rest y g more m p more',
      fields_of s = f0 :: f1 :: f2 :: f3 :: f4 :: rest
      ∧ Str.split "#" f4 = y :: g :: more
      ∧ Str.split "/" g = m :: p :: more'.
Proof.
  unfold looks_illumina.
  intros [[[Hat Hno%negb_true_iff]%andb_true_iff
            Hlen%bool_decide_eq_true]%andb_true_iff Hsp]%andb_true_iff.
  split; [done|]. split; [done|].
  destruct (fields_of s) as [|f0 [|f1 [|f2 [|f3 [|f4 rest]]]]];
    simpl in Hlen; try lia.
  simpl in Hsp.
  destruct (Str.split "#" f4) as [|y [|g more]] eqn:Hs; try done.
  simpl in Hsp. apply split_second in Hsp as [p Hp].
  destruct (Str.split "/" g) as [|m [|p' more']] eqn:Hg; try done.
  do 12 eexists. split; [reflexivity|]. split; [exact Hs | exact Hg].
Qed.

Lemma format_of_init s :
  format (__init__ s)
  = if looks_illumina18 s then PyStr "illumina18"
    else if looks_illumina s then PyStr "illumina"
    else PyNone.
Proof.
  pose proof (init_cases s) as H. simpl in H.
  destruct (looks_illumina18 s); [by rewrite H|].
  destruct (looks_illumina s); [by rewrite H | done].
Qed.

(** The parser produces one of three formats, decided by the shape of the
    line alone.  With the stripped line, less its first character, split at
    colons: the Illumina 1.8 format for a line that starts with [@], has at
    least ten fields and a space in the seventh; otherwise the earlier
    format for a line that starts with [@], has at least five fields and,
    in the fifth, a [#] with a [/] between that first [#] and the next (or
    the end of the field); and every other line is left unrecognized. *)
Theorem init_format_by_shape s :
  format (__init__ s)
  = if looks_illumina18 s then PyStr "illumina18"
    else if looks_illumina s then PyStr "illumina"
    else PyNone.
Proof. exact (format_of_init s). Qed.

Lemma attrs_of_illumina18_line s :
  looks_illumina18 s = true →
  ∃ f0 f1 f2 f3 f4 f5 f6 f7 f8 f9 rest y p more,
    fields_of s = f0 :: f1 :: f2 :: f3 :: f4 :: f5 :: f6 :: f7 :: f8 :: f9 :: rest
    ∧ Str.split " " f6 = y :: p :: more
    ∧ attrs (__init__ s)
      = list_to_map
          [("instrument_name", PyStr f0); ("run_id", PyStr f1);
           ("flowcell_id", PyStr f2); ("flowcell_lane", PyStr f3);
           ("tile_no", PyStr f4); ("x_coord", PyStr f5);
           ("y_coord", PyStr y); ("multiplex_index_no", PyNone);
           ("pair_id", PyStr p); ("bad_read", PyStr f7);
           ("control_bit_flag", PyStr f8); ("index_sequence", PyStr f9)].
Proof.
  intros Hlooks. pose proof (init_cases s) as H. simpl in H.
  rewrite Hlooks in H.
  apply looks_illumina18_pieces in Hlooks
    as (_ & f0 & f1 & f2 & f3 & f4 & f5 & f6 & f7 & f8 & f9 & rest
        & y & p & more & Hf & Hs).
  exists f0, f1, f2, f3, f4, f5, f6, f7, f8, f9, rest, y, p, more.
  split; [done|]. split; [done|].
  rewrite H, Hf. unfold illumina18_assignments, field, subfield, item.
  simpl. rewrite Hs. reflexivity.
Qed.

(** For a line with the Illumina 1.8 shape, the attributes are exactly the
    twelve of that layout, each holding its field of the line. *)
Theorem init_illumina18_attrs s :
  looks_illumina18 s = true →
  ∃ f0 f1 f2 f3 f4 f5 f6 f7 f8 f9 rest y p more,
    fields_of s = f0 :: f1 :: f2 :: f3 :: f4 :: f5 :: f6 :: f7 :: f8 :: f9 :: rest
    ∧ Str.split " " f6 = y :: p :: more
    ∧ attrs (__init__ s)
      = list_to_map
          [("instrument_name", PyStr f0); ("run_id", PyStr f1);
           ("flowcell_id", PyStr f2); ("flowcell_lane", PyStr f3);
           ("tile_no", PyStr f4); ("x_coord", PyStr f5);
           ("y_coord", PyStr y); ("multiplex_index_no", PyNone);
           ("pair_id", PyStr p); ("bad_read", PyStr f7);
           ("control_bit_flag", PyStr f8); ("index_sequence", PyStr f9)].
Proof. exact (attrs_of_illumina18_line s). Qed.

Lemma init_illumina18_attrs_witness :
  ∃ f0 f1 f2 f3 f4 f5 f6 f7 f8 f9 rest y p more,
    fields_of example_illumina18_line
    = f0 :: f1 :: f2 :: f3 :: f4 :: f5 :: f6 :: f7 :: f8 :: f9 :: rest
    ∧ Str.split " " f6 = y :: p :: more
    ∧ SequenceIdentifier.attrs
        (SequenceIdentifier.__init__ example_illumina18_line)
      = list_to_map
          [("instrument_name", PyStr f0); ("run_id", PyStr f1);
           ("flowcell_id", PyStr f2); ("flowcell_lane", PyStr f3);
           ("tile_no", PyStr f4); ("x_coord", PyStr f5);
           ("y_coord", PyStr y); ("multiplex_index_no", PyNone);
           ("pair_id", PyStr p); ("bad_read", PyStr f7);
           ("control_bit_flag", PyStr f8); ("index_sequence", PyStr f9)].
Proof. exact (init_illumina18_attrs example_illumina18_line eq_refl). Defined.

Lemma attrs_of_illumina_line s :
  looks_illumina s = true →
  ∃ f0 f1 f2 f3 f4 rest y g more m p more',
    fields_of s = f0 :: f1 :: f2 :: f3 :: f4 :: rest
    ∧ Str.split "#" f4 = y :: g :: more
    ∧ Str.split "/" g = m :: p :: more'
    ∧ attrs (__init__ s)
      = list_to_map
          [("instrument_name", PyStr f0); ("run_id", PyNone);
           ("flowcell_id", PyNone); ("flowcell_lane", PyStr f1);
           ("tile_no", PyStr f2); ("x_coord", PyStr f3);
           ("y_coord", PyStr y); ("multiplex_index_no", PyStr m);
           ("pair_id", PyStr p); ("bad_read", PyNone);
           ("control_bit_flag", PyNone); ("index_sequence", PyNone)].
Proof.
  intros Hlooks. pose proof (init_cases s) as H. simpl in H.
  rewrite Hlooks in H.
  apply looks_illumina_pieces in Hlooks
    as (_ & Hno & f0 & f1 & f2 & f3 & f4 & rest & y & g & more & m & p & more'
        & Hf & Hs & Hg).
  rewrite Hno in H.
  exists f0, f1, f2, f3, f4, rest, y, g, more, m, p, more'.
  split; [done|]. split; [done|]. split; [done|].
  rewrite H, Hf. unfold illumina_assignments, field, subfield, subsubfield, item.
  simpl. rewrite Hs. simpl. rewrite Hg. reflexivity.
Qed.

(** For a line with the shape of the earlier format, the attributes are the
    same twelve, with [None] for those the layout does not have. *)
Theorem init_illumina_attrs s :
  looks_illumina s = true →
  ∃ f0 f1 f2 f3 f4 rest y g more m p more',
    fields_of s = f0 :: f1 :: f2 :: f3 :: f4 :: rest
    ∧ Str.split "#" f4 = y :: g :: more
    ∧ Str.split "/" g = m :: p :: more'
    ∧ attrs (__init__ s)
      = list_to_map
          [("instrument_name", PyStr f0); ("run_id", PyNone);
           ("flowcell_id", PyNone); ("flowcell_lane", PyStr f1);
           ("tile_no", PyStr f2); ("x_coord", PyStr f3);
           ("y_coord", PyStr y); ("multiplex_index_no", PyStr m);
           ("pair_id", PyStr p); ("bad_read", PyNone);
           ("control_bit_flag", PyNone); ("index_sequence", PyNone)].
Proof. exact (attrs_of_illumina_line s). Qed.

Lemma init_illumina_attrs_witness :
  ∃ f0 f1 f2 f3 f4 rest y g more m p more',
    fields_of example_illumina_line = f0 :: f1 :: f2 :: f3 :: f4 :: rest
    ∧ Str.split "#" f4 = y :: g :: more
    ∧ Str.split "/" g = m :: p :: more'
    ∧ SequenceIdentifier.attrs
        (SequenceIdentifier.__init__ example_illumina_line)
      = list_to_map
          [("instrument_name", PyStr f0); ("run_id", PyNone);
           ("flowcell_id", PyNone); ("flowcell_lane", PyStr f1);
           ("tile_no", PyStr f2); ("x_coord", PyStr f3);
           ("y_coord", PyStr y); ("multiplex_index_no", PyStr m);
           ("pair_id", PyStr p); ("bad_read", PyNone);
           ("control_bit_flag", PyNone); ("index_sequence", PyNone)].
Proof. exact (init_illumina_attrs example_illumina_line eq_refl). Defined.

(** *** Splitting a joined string *)

Lemma mem_app c a b : Str.mem c (a ++ b) = Str.mem c a || Str.mem c b.
Proof.
  induction a as [|x a IH]; simpl; [done|]. by case_decide.
Qed.

Lemma split_no_sep sep a : Str.mem sep a = false → Str.split sep a = [a].
Proof.
  induction a as [|x a IH]; simpl; [done|].
  case_decide; [done|]. intros Hm. by rewrite IH.
Qed.

Lemma split_app_sep sep a b :
  Str.mem sep a = false →
  Str.split sep (a ++ String sep b) = a :: Str.split sep b.
Proof.
  induction a as [|x a IH]; simpl.
  - intros _. by rewrite decide_True.
  - case_decide; [done|]. intros Hm. by rewrite IH.
Qed.

Lemma split_pieces_no_sep sep s :
  Forall (λ p, Str.mem sep p = false) (Str.split sep s).
Proof.
  induction s as [|x s IH]; simpl.
  - by repeat constructor.
  - case_decide as Hx; [by constructor|].
    destruct (Str.split sep s) as [|p ps]; simpl.
    + repeat constructor. simpl. by rewrite decide_False.
    + apply Forall_cons in IH as [Hp Hps]. constructor; [|done].
      simpl. by rewrite decide_False.
Qed.

(** A piece holds only characters of the string. *)
Lemma split_pieces_mem c sep s :
  Str.mem c s = false → Forall (λ p, Str.mem c p = false) (Str.split sep s).
Proof.
  induction s as [|x s IH]; simpl.
  - by repeat constructor.
  - case_decide as Hc; [done|]. intros Hs. specialize (IH Hs).
    case_decide as Hx; [by constructor|].
    destruct (Str.split sep s) as [|p ps]; simpl.
    + repeat constructor. simpl. by rewrite decide_False.
    + apply Forall_cons in IH as [Hp Hps]. constructor; [|done].
      simpl. by rewrite decide_False.
Qed.

Lemma rstrip_id s : ends_with_space s = false → Str.rstrip s = s.
Proof.
  induction s as [|x s IH]; simpl; [done|].
  destruct s as [|y s].
  - simpl. by intros ->.
  - intros H. rewrite IH by done. done.
Qed.

Lemma ends_with_space_app a b :
  b ≠ EmptyString → ends_with_space (a ++ b) = ends_with_space b.
Proof.
  intros Hb. induction a as [|x a IH]; [done|].
  change (ends_with_space (String x (a ++ b)) = ends_with_space b).
  simpl. destruct (a ++ b)%string eqn:E; [|exact IH].
  destruct a; [change (b = EmptyString) in E; congruence | discriminate E].
Qed.

(** A rendered line, which begins with [@], is its own stripped form when
    it does not end with whitespace. *)
Lemma strip_rendered body :
  ends_with_space (String "@" body) = false →
  Str.strip (String "@" body) = String "@" body.
Proof. intros H. unfold Str.strip. simpl Str.lstrip. by apply rstrip_id. Qed.

Lemma ends_with_space_cons_app x a c b :
  ends_with_space (String x (a ++ String c b))
  = ends_with_space (String c b).
Proof. by apply (ends_with_space_app (String x a) (String c b)). Qed.

Lemma ends_with_space_sep c b :
  Str.is_space c = false → ends_with_space b = false →
  ends_with_space (String c b) = false.
Proof. by destruct b. Qed.

(** *** Rendering *)

Lemma repr_illumina18_text s f0 f1 f2 f3 f4 f5 y p f7 f8 f9 :
  looks_illumina18 s = true →
  attrs (__init__ s)
  = list_to_map
      [("instrument_name", PyStr f0); ("run_id", PyStr f1);
       ("flowcell_id", PyStr f2); ("flowcell_lane", PyStr f3);
       ("tile_no", PyStr f4); ("x_coord", PyStr f5);
       ("y_coord", PyStr y); ("multiplex_index_no", PyNone);
       ("pair_id", PyStr p); ("bad_read", PyStr f7);
       ("control_bit_flag", PyStr f8); ("index_sequence", PyStr f9)] →
  __repr__ (__init__ s)
  = Return ("@" ++ f0 ++ ":" ++ f1 ++ ":" ++ f2 ++ ":" ++ f3 ++ ":" ++ f4
            ++ ":" ++ f5 ++ ":" ++ y ++ " " ++ p ++ ":" ++ f7 ++ ":" ++ f8
            ++ ":" ++ f9)%string.
Proof.
  intros Hlooks Hattrs. unfold __repr__, getattr.
  rewrite format_of_init, Hlooks, Hattrs.
  rewrite bool_decide_eq_true_2 by done. reflexivity.
Qed.

Lemma repr_illumina_text s f0 f1 f2 f3 y m p :
  looks_illumina s = true →
  attrs (__init__ s)
  = list_to_map
      [("instrument_name", PyStr f0); ("run_id", PyNone);
       ("flowcell_id", PyNone); ("flowcell_lane", PyStr f1);
       ("tile_no", PyStr f2); ("x_coord", PyStr f3);
       ("y_coord", PyStr y); ("multiplex_index_no", PyStr m);
       ("pair_id", PyStr p); ("bad_read", PyNone);
       ("control_bit_flag", PyNone); ("index_sequence", PyNone)] →
  __repr__ (__init__ s)
  = Return ("@" ++ f0 ++ ":" ++ f1 ++ ":" ++ f2 ++ ":" ++ f3 ++ ":" ++ y
            ++ "#" ++ m ++ "/" ++ p)%string.
Proof.
  intros Hlooks Hattrs. unfold __repr__, getattr.
  pose proof (looks_illumina_pieces s Hlooks) as (_ & Hno & _).
  rewrite format_of_init, Hno, Hlooks, Hattrs.
  rewrite bool_decide_eq_false_2 by done.
  rewrite bool_decide_eq_true_2 by done. reflexivity.
Qed.

Lemma repr_of_init s : ∃ text, __repr__ (__init__ s) = Return text.
Proof.
  destruct (looks_illumina18 s) eqn:H18.
  { destruct (attrs_of_illumina18_line s H18)
      as (f0 & f1 & f2 & f3 & f4 & f5 & f6 & f7 & f8 & f9 & rest & y & p & more
          & _ & _ & Hattrs).
    eexists. by apply repr_illumina18_text. }
  destruct (looks_illumina s) eqn:Hleg.
  { destruct (attrs_of_illumina_line s Hleg)
      as (f0 & f1 & f2 & f3 & f4 & rest & y & g & more & m & p & more'
          & _ & _ & _ & Hattrs).
    eexists. by apply repr_illumina_text. }
  exists (Str.strip s). unfold __repr__.
  rewrite format_of_init, H18, Hleg, init_seqid. reflexivity.
Qed.

(** Rendering an identifier built by [__init__] never raises: every
    attribute that the rendering of its format reads has been assigned. *)
Theorem repr_init_returns s : ∃ text, __repr__ (__init__ s) = Return text.
Proof. exact (repr_of_init s). Qed.

(** *** Round trips *)

Lemma app_one c x : (String c EmptyString ++ x)%string = String c x.
Proof. reflexivity. Qed.

Lemma append_assoc (a b c : string) : (a ++ (b ++ c) = (a ++ b) ++ c)%string.
Proof.
  induction a as [|x a IH]; [done|].
  change (String x (a ++ (b ++ c)) = String x ((a ++ b) ++ c))%string.
  by rewrite IH.
Qed.

Lemma startswith_at body : Str.startswith (String "@" body) "@" = true.
Proof. simpl. by destruct body. Qed.

Lemma rendered_illumina18_shape f0 f1 f2 f3 f4 f5 y p f7 f8 f9 :
  Forall (λ f, Str.mem ":" f = false) [f0; f1; f2; f3; f4; f5; y; p; f7; f8; f9] →
  Str.mem " " y = false → Str.mem " " p = false →
  ends_with_space f9 = false →
  let text := ("@" ++ f0 ++ ":" ++ f1 ++ ":" ++ f2 ++ ":" ++ f3 ++ ":" ++ f4
               ++ ":" ++ f5 ++ ":" ++ y ++ " " ++ p ++ ":" ++ f7 ++ ":" ++ f8
               ++ ":" ++ f9)%string in
  Str.startswith text "@" = true
  ∧ fields_of text
    = [f0; f1; f2; f3; f4; f5; (y ++ " " ++ p)%string; f7; f8; f9]
  ∧ Str.split " " (y ++ " " ++ p) = [y; p].
Proof.
  intros Hcolon Hy Hp Hend text.
  repeat (apply Forall_cons in Hcolon as [? Hcolon]).
  split; [exact (startswith_at _)|]. split.
  - unfold fields_of. subst text.
    rewrite !app_one. rewrite strip_rendered.
    2: { rewrite !ends_with_space_cons_app. by apply ends_with_space_sep. }
    cbn [Str.tail]. rewrite !split_app_sep by done.
    rewrite <- (app_one " " (p ++ _)), (append_assoc " " p).
    rewrite (append_assoc y), split_app_sep.
    2: { rewrite mem_app, app_one. simpl. by rewrite H5, H6. }
    rewrite !split_app_sep by done. rewrite split_no_sep by done.
    reflexivity.
  - rewrite app_one, split_app_sep by done. by rewrite split_no_sep.
Qed.

(** Parsing the rendering of an Illumina 1.8 identifier gives back the same
    format and the same attribute values, and rendering again gives the
    same text, provided the tenth field does not end with whitespace (as
    when the line has exactly ten fields). *)
Theorem repr_illumina18_round_trip s :
  looks_illumina18 s = true →
  (∀ f9, fields_of s !! 9%nat = Some f9 → ends_with_space f9 = false) →
  ∃ text,
    __repr__ (__init__ s) = Return text
    ∧ format (__init__ text) = PyStr "illumina18"
    ∧ attrs (__init__ text) = attrs (__init__ s)
    ∧ __repr__ (__init__ text) = Return text.
Proof.
  intros Hlooks Hend.
  destruct (attrs_of_illumina18_line s Hlooks)
    as (f0 & f1 & f2 & f3 & f4 & f5 & f6 & f7 & f8 & f9 & rest & y & p & more
        & Hf & Hs & Hattrs).
  pose proof (split_pieces_no_sep ":" (Str.tail (Str.strip s))) as Hcolon.
  fold (fields_of s) in Hcolon. rewrite Hf in Hcolon.
  repeat (apply Forall_cons in Hcolon as [? Hcolon]).
  pose proof (split_pieces_mem ":" " " f6) as Hyp. rewrite Hs in Hyp.
  specialize (Hyp ltac:(done)).
  apply Forall_cons in Hyp as [Hy1 Hyp]. apply Forall_cons in Hyp as [Hp1 _].
  pose proof (split_pieces_no_sep " " f6) as Hsp. rewrite Hs in Hsp.
  apply Forall_cons in Hsp as [Hy2 Hsp]. apply Forall_cons in Hsp as [Hp2 _].
  specialize (Hend f9). rewrite Hf in Hend. specialize (Hend eq_refl).
  destruct (rendered_illumina18_shape f0 f1 f2 f3 f4 f5 y p f7 f8 f9)
    as (Hat & Hfields & Hsplit); try done.
  { by repeat constructor. }
  eexists. split; [by apply repr_illumina18_text|].
  match goal with |- format (__init__ ?t) = _ ∧ _ => set (text := t) in * end.
  assert (looks_illumina18 text = true) as Hlooks'.
  { unfold looks_illumina18. rewrite Hat, Hfields. simpl.
    rewrite mem_app, app_one. simpl. by rewrite orb_true_r. }
  destruct (attrs_of_illumina18_line text Hlooks')
    as (g0 & g1 & g2 & g3 & g4 & g5 & g6 & g7 & g8 & g9 & rest' & y' & p' & more'
        & Hf' & Hs' & Hattrs').
  rewrite Hfields in Hf'.
  injection Hf' as <- <- <- <- <- <- <- <- <- <- <-.
  rewrite Hsplit in Hs'. injection Hs' as <- <- <-.
  split; [by rewrite format_of_init, Hlooks'|].
  split; [by rewrite Hattrs', Hattrs|].
  by apply repr_illumina18_text.
Qed.

Lemma repr_illumina18_round_trip_witness :
  ∃ text,
    SequenceIdentifier.__repr__
      (SequenceIdentifier.__init__ example_illumina18_line) = Return text
    ∧ SequenceIdentifier.format (SequenceIdentifier.__init__ text)
      = PyStr "illumina18"
    ∧ SequenceIdentifier.attrs (SequenceIdentifier.__init__ text)
      = SequenceIdentifier.attrs
          (SequenceIdentifier.__init__ example_illumina18_line)
    ∧ SequenceIdentifier.__repr__ (SequenceIdentifier.__init__ text)
      = Return text.
Proof.
  apply (repr_illumina18_round_trip example_illumina18_line).
  - reflexivity.
  - intros f9 Hf. vm_compute in Hf. injection Hf as <-. reflexivity.
Defined.

Lemma rendered_illumina_shape f0 f1 f2 f3 y m p :
  Forall (λ f, Str.mem ":" f = false) [f0; f1; f2; f3; y; m; p] →
  Forall (λ f, Str.mem "#" f = false) [y; m; p] →
  Str.mem "/" m = false → Str.mem "/" p = false →
  ends_with_space p = false →
  let text := ("@" ++ f0 ++ ":" ++ f1 ++ ":" ++ f2 ++ ":" ++ f3 ++ ":" ++ y
               ++ "#" ++ m ++ "/" ++ p)%string in
  Str.startswith text "@" = true
  ∧ fields_of text = [f0; f1; f2; f3; (y ++ "#" ++ m ++ "/" ++ p)%string]
  ∧ Str.split "#" (y ++ "#" ++ m ++ "/" ++ p) = [y; (m ++ "/" ++ p)%string]
  ∧ Str.split "/" (m ++ "/" ++ p) = [m; p].
Proof.
  intros Hcolon Hhash Hm Hp Hend text.
  repeat (apply Forall_cons in Hcolon as [? Hcolon]).
  repeat (apply Forall_cons in Hhash as [? Hhash]).
  split; [exact (startswith_at _)|]. split; [|split].
  - unfold fields_of. subst text.
    rewrite !app_one. rewrite strip_rendered.
    2: { rewrite !ends_with_space_cons_app. by apply ends_with_space_sep. }
    cbn [Str.tail]. rewrite !split_app_sep by done.
    rewrite split_no_sep; [done|].
    rewrite mem_app. simpl. rewrite mem_app. simpl.
    by repeat match goal with H : Str.mem _ _ = false |- _ => rewrite H; clear H end.
  - rewrite !app_one, split_app_sep by done.
    rewrite split_no_sep; [done|].
    rewrite mem_app. simpl.
    by repeat match goal with H : Str.mem _ _ = false |- _ => rewrite H; clear H end.
  - rewrite app_one, split_app_sep by done. by rewrite split_no_sep.
Qed.

(** Parsing the rendering of an identifier of the earlier format gives back
    the same format and the same attribute values, and rendering again
    gives the same text, provided the pair id does not end with
    whitespace. *)
Theorem repr_illumina_round_trip s :
  looks_illumina s = true →
  (∀ p, attrs (__init__ s) !! "pair_id" = Some (PyStr p) →
        ends_with_space p = false) →
  ∃ text,
    __repr__ (__init__ s) = Return text
    ∧ format (__init__ text) = PyStr "illumina"
    ∧ attrs (__init__ text) = attrs (__init__ s)
    ∧ __repr__ (__init__ text) = Return text.
Proof.
  intros Hlooks Hend.
  destruct (attrs_of_illumina_line s Hlooks)
    as (f0 & f1 & f2 & f3 & f4 & rest & y & g & more & m & p & more'
        & Hf & Hs & Hg & Hattrs).
  pose proof (split_pieces_no_sep ":" (Str.tail (Str.strip s))) as Hcolon.
  fold (fields_of s) in Hcolon. rewrite Hf in Hcolon.
  repeat (apply Forall_cons in Hcolon as [? Hcolon]).
  pose proof (split_pieces_mem ":" "#" f4) as Hc4. rewrite Hs in Hc4.
  specialize (Hc4 ltac:(done)).
  apply Forall_cons in Hc4 as [Hy1 Hc4]. apply Forall_cons in Hc4 as [Hg1 _].
  pose proof (split_pieces_mem ":" "/" g Hg1) as Hcg. rewrite Hg in Hcg.
  apply Forall_cons in Hcg as [Hm1 Hcg]. apply Forall_cons in Hcg as [Hp1 _].
  pose proof (split_pieces_no_sep "#" f4) as Hh4. rewrite Hs in Hh4.
  apply Forall_cons in Hh4 as [Hy2 Hh4]. apply Forall_cons in Hh4 as [Hg2 _].
  pose proof (split_pieces_mem "#" "/" g Hg2) as Hhg. rewrite Hg in Hhg.
  apply Forall_cons in Hhg as [Hm2 Hhg]. apply Forall_cons in Hhg as [Hp2 _].
  pose proof (split_pieces_no_sep "/" g) as Hsl. rewrite Hg in Hsl.
  apply Forall_cons in Hsl as [Hm3 Hsl]. apply Forall_cons in Hsl as [Hp3 _].
  specialize (Hend p). rewrite Hattrs in Hend. specialize (Hend eq_refl).
  destruct (rendered_illumina_shape f0 f1 f2 f3 y m p)
    as (Hat & Hfields & Hsplit & Hsplit'); try done.
  { by repeat constructor. }
  { by repeat constructor. }
  eexists. split; [by apply repr_illumina_text|].
  match goal with |- format (__init__ ?t) = _ ∧ _ => set (text := t) in * end.
  assert (looks_illumina text = true) as Hlooks'.
  { unfold looks_illumina, looks_illumina18. rewrite Hat, Hfields. simpl.
    rewrite Hsplit. simpl. rewrite mem_app, app_one. simpl.
    by rewrite orb_true_r. }
  destruct (attrs_of_illumina_line text Hlooks')
    as (g0 & g1 & g2 & g3 & g4 & rest' & y' & g' & more'' & m' & p' & more'''
        & Hf' & Hs' & Hg' & Hattrs').
  rewrite Hfields in Hf'. injection Hf' as <- <- <- <- <- <-.
  rewrite Hsplit in Hs'. injection Hs' as <- <- <-.
  rewrite Hsplit' in Hg'. injection Hg' as <- <- <-.
  pose proof (looks_illumina_pieces text Hlooks') as (_ & Hno & _).
  split; [by rewrite format_of_init, Hno, Hlooks'|].
  split; [by rewrite Hattrs', Hattrs|].
  by apply repr_illumina_text.
Qed.

Lemma repr_illumina_round_trip_witness :
  ∃ text,
    SequenceIdentifier.__repr__
      (SequenceIdentifier.__init__ example_illumina_line) = Return text
    ∧ SequenceIdentifier.format (SequenceIdentifier.__init__ text)
      = PyStr "illumina"
    ∧ SequenceIdentifier.attrs (SequenceIdentifier.__init__ text)
      = SequenceIdentifier.attrs
          (SequenceIdentifier.__init__ example_illumina_line)
    ∧ SequenceIdentifier.__repr__ (SequenceIdentifier.__init__ text)
      = Return text.
Proof.
  apply (repr_illumina_round_trip example_illumina_line).
  - reflexivity.
  - intros p Hp. vm_compute in Hp. injection Hp as <-. reflexivity.
Defined.

End identifier_parsing.

(** * Quality codes of a read *)

Section quality.
Import FastqRead.

Implicit Types (r : t) (q : string) (c : ascii).

Lemma ord_range c : 0 ≤ ord c < 256.
Proof. unfold ord. pose proof (N_ascii_bounded c). lia. Qed.

Lemma chr_ord c : chr (ord c) = Return (String c EmptyString).
Proof.
  unfold chr. rewrite bool_decide_eq_true_2 by apply ord_range.
  unfold ord. by rewrite N2Z.id, ascii_N_embedding.
Qed.

Lemma maxquality_loop_spec acc q :
  ∃ m, maxquality_loop (Some acc) q = Some m ∧ acc ≤ m
       ∧ Forall (λ c, ord c ≤ m) (list_ascii_of_string q)
       ∧ (m = acc ∨ ∃ c, c ∈ list_ascii_of_string q ∧ m = ord c).
Proof.
  revert acc. induction q as [|c q IH]; intros acc; simpl.
  - exists acc. repeat split; [lia | constructor | by left].
  - destruct (IH (Z.max acc (ord c))) as (m & Hm & Hle & Hall & Hin).
    exists m. split; [done|]. split; [lia|]. split.
    + constructor; [lia | done].
    + destruct Hin as [->|(d & Hd & ->)].
      * destruct (Z.max_spec acc (ord c)) as [[_ ->]|[_ ->]]; [|by left].
        right. exists c. split; [constructor | done].
      * right. exists d. split; [by constructor | done].
Qed.

Lemma minquality_loop_spec acc q :
  ∃ m, minquality_loop (Some acc) q = Some m ∧ m ≤ acc
       ∧ Forall (λ c, m ≤ ord c) (list_ascii_of_string q)
       ∧ (m = acc ∨ ∃ c, c ∈ list_ascii_of_string q ∧ m = ord c).
Proof.
  revert acc. induction q as [|c q IH]; intros acc; simpl.
  - exists acc. repeat split; [lia | constructor | by left].
  - destruct (IH (Z.min acc (ord c))) as (m & Hm & Hle & Hall & Hin).
    exists m. split; [done|]. split; [lia|]. split.
    + constructor; [lia | done].
    + destruct Hin as [->|(d & Hd & ->)].
      * destruct (Z.min_spec acc (ord c)) as [[_ ->]|[_ ->]]; [by left|].
        right. exists c. split; [constructor | done].
      * right. exists d. split; [by constructor | done].
Qed.

(** [maxquality] returns a character of the quality string whose code is at
    least the code of every character of it; on an empty quality string it
    raises [TypeError]. *)
Theorem maxquality_is_greatest r :
  (quality r = EmptyString → maxquality r = Raise TypeError)
  ∧ (quality r ≠ EmptyString →
     ∃ c, maxquality r = Return (String c EmptyString)
          ∧ c ∈ list_ascii_of_string (quality r)
          ∧ Forall (λ x, ord x ≤ ord c) (list_ascii_of_string (quality r))).
Proof.
  unfold maxquality. split; [by intros ->|].
  destruct (quality r) as [|c q]; [done|]. intros _. simpl.
  destruct (maxquality_loop_spec (ord c) q) as (m & -> & Hle & Hall & Hin).
  destruct Hin as [->|(d & Hd & ->)].
  - exists c. rewrite chr_ord. split; [done|]. split; [constructor|].
    by constructor.
  - exists d. rewrite chr_ord. split; [done|]. split; [by constructor|].
    by constructor.
Qed.

Lemma maxquality_is_greatest_witness :
  ∃ c, FastqRead.maxquality (example_read example_illumina_line "ACGT" "I#5I")
       = Return (String c EmptyString)
       ∧ c ∈ list_ascii_of_string
               (FastqRead.quality (example_read example_illumina_line "ACGT" "I#5I"))
       ∧ Forall (λ x, ord x ≤ ord c)
           (list_ascii_of_string
              (FastqRead.quality (example_read example_illumina_line "ACGT" "I#5I"))).
Proof.
  apply (maxquality_is_greatest (example_read example_illumina_line "ACGT" "I#5I")).
  intros H. vm_compute in H. discriminate H.
Defined.

(** [minquality] returns a character of the quality string whose code is at
    most the code of every character of it; on an empty quality string it
    raises [TypeError]. *)
Theorem minquality_is_least r :
  (quality r = EmptyString → minquality r = Raise TypeError)
  ∧ (quality r ≠ EmptyString →
     ∃ c, minquality r = Return (String c EmptyString)
          ∧ c ∈ list_ascii_of_string (quality r)
          ∧ Forall (λ x, ord c ≤ ord x) (list_ascii_of_string (quality r))).
Proof.
  unfold minquality. split; [by intros ->|].
  destruct (quality r) as [|c q]; [done|]. intros _. simpl.
  destruct (minquality_loop_spec (ord c) q) as (m & -> & Hle & Hall & Hin).
  destruct Hin as [->|(d & Hd & ->)].
  - exists c. rewrite chr_ord. split; [done|]. split; [constructor|].
    by constructor.
  - exists d. rewrite chr_ord. split; [done|]. split; [by constructor|].
    by constructor.
Qed.

Lemma minquality_is_least_witness :
  ∃ c, FastqRead.minquality (example_read example_illumina_line "ACGT" "I#5I")
       = Return (String c EmptyString)
       ∧ c ∈ list_ascii_of_string
               (FastqRead.quality (example_read example_illumina_line "ACGT" "I#5I"))
       ∧ Forall (λ x, ord c ≤ ord x)
           (list_ascii_of_string
              (FastqRead.quality (example_read example_illumina_line "ACGT" "I#5I"))).
Proof.
  apply (minquality_is_least (example_read example_illumina_line "ACGT" "I#5I")).
  intros H. vm_compute in H. discriminate H.
Defined.

End quality.

(** * Iterating over a source *)

Section stream.

Implicit Types (w : world) (f : File.t) (it : FastqIterator.t).

(** A pull with four lines left returns their record and leaves the rest
    of the lines unread. *)
Lemma next_record it w f l1 l2 l3 l4 rest :
  objs w !! FastqIterator.__fp it = Some f → File.closed f = false →
  lines (File.content f) = l1 :: l2 :: l3 :: l4 :: rest →
  ∃ c', FastqIterator.next it w
        = (Return (FastqRead.__init__ l1 l2 l3 l4),
           set_obj (FastqIterator.__fp it) (File.mk c' false) w)
        ∧ lines c' = rest.
Proof.
  intros Hf Hc Hlines. rewrite (next_open it w f Hf Hc).
  set (c := File.content f) in *.
  assert (∀ s l ls, lines s = l :: ls →
                    l = (cut_line s).1 ∧ ls = lines (cut_line s).2) as Hcut.
  { intros s l ls Hs. destruct (decide (s = EmptyString)) as [->|Hne]; [done|].
    rewrite (lines_cut_line s Hne) in Hs. by injection Hs as <- <-. }
  apply Hcut in Hlines as [-> Hlines]. symmetry in Hlines.
  apply Hcut in Hlines as [-> Hlines]. symmetry in Hlines.
  apply Hcut in Hlines as [-> Hlines]. symmetry in Hlines.
  pose proof Hlines as Hl4. apply Hcut in Hlines as [-> Hlines].
  rewrite bool_decide_eq_true_2.
  - eexists. split; [reflexivity | done].
  - rewrite cut_line_empty. intros E. by rewrite E in Hl4.
Qed.

(** A pull with fewer than four lines left ends the iteration. *)
Lemma next_stop it w f :
  objs w !! FastqIterator.__fp it = Some f → File.closed f = false →
  (length (lines (File.content f)) < 4)%nat →
  (FastqIterator.next it w).1 = Raise StopIteration.
Proof.
  intros Hf Hc Hlen. rewrite (next_open it w f Hf Hc).
  pose proof (cut_four_lines (File.content f)) as H. simpl in H.
  destruct (lines (File.content f)) as [|l1 [|l2 [|l3 [|l4 ?]]]];
    [| | | | simpl in Hlen; lia];
    by rewrite H, bool_decide_eq_false_2 by auto.
Qed.

(** Iterating over an open source yields the records of its text, one for
    each complete group of four lines and in their order, and then ends:
    [n] pulls return the first [n] records when there are that many, and
    raise [StopIteration] otherwise. *)
Theorem pulls_yield_records n it w f :
  objs w !! FastqIterator.__fp it = Some f → File.closed f = false →
  (pulls n it w).1
  = if decide (n ≤ length (records (File.content f)))%nat
    then Return (take n (records (File.content f)))
    else Raise StopIteration.
Proof.
  revert w f. induction n as [|n IH]; intros w f Hf Hc.
  { rewrite decide_True by lia. done. }
  unfold records.
  destruct (lines (File.content f)) as [|l1 [|l2 [|l3 [|l4 rest]]]] eqn:Hl;
    try (simpl pulls; unfold mbind, IO_bind;
         pose proof (next_stop it w f Hf Hc) as Hstop;
         rewrite Hl in Hstop; specialize (Hstop ltac:(simpl; lia));
         destruct (FastqIterator.next it w) as [o w1]; simpl in Hstop;
         subst o; rewrite decide_False by (simpl; lia); done).
  destruct (next_record it w f l1 l2 l3 l4 rest Hf Hc Hl) as (c' & Hnext & Hrest).
  simpl pulls. erewrite IO_bind_return; [|exact Hnext].
  specialize (IH (set_obj (FastqIterator.__fp it) (File.mk c' false) w)
                (File.mk c' false) (lookup_set_obj _ _ _) eq_refl).
  unfold records in IH. simpl in IH. rewrite Hrest in IH.
  unfold mbind, IO_bind.
  destruct (pulls n it _) as [o w2]. simpl in IH. subst o.
  cbn [group4 length]. destruct (decide (n ≤ length (group4 rest))%nat).
  - rewrite decide_True by lia. done.
  - rewrite decide_False by lia. done.
Qed.

Lemma pulls_yield_records_witness :
  (pulls 1 (FastqIterator.mk None 7) (example_world example_record)).1
  = if decide (1 ≤ length (records (text_of example_record)))%nat
    then Return (take 1 (records (text_of example_record)))
    else Raise StopIteration.
Proof.
  exact (pulls_yield_records 1 (FastqIterator.mk None 7)
           (example_world example_record)
           (File.mk (text_of example_record) false) eq_refl eq_refl).
Defined.

End stream.

(** * Writing a record and reading it back *)

Section read_round_trip.

Implicit Types (s a x : string) (c : ascii).

Lemma mem_count c s : Str.mem c s = false ↔ Str.count c s = 0.
Proof.
  induction s as [|y s IH]; simpl; [done|].
  pose proof (count_nonneg c s). case_decide; [|by rewrite IH].
  split; [done | lia].
Qed.

Lemma lines_line a rest :
  Str.mem newline a = false →
  lines (a ++ LF ++ rest) = (a ++ LF)%string :: lines rest.
Proof.
  induction a as [|y a IH]; intros Ha.
  - reflexivity.
  - simpl in Ha. case_decide as Hy; [done|].
    change (lines (String y (a ++ LF ++ rest))
            = String y (a ++ LF) :: lines rest).
    simpl. rewrite decide_False by done. by rewrite IH.
Qed.

Lemma lstrip_id s : starts_with_space s = false → Str.lstrip s = s.
Proof. destruct s as [|y s]; simpl; [done|]. by intros ->. Qed.

Lemma starts_with_space_app s a :
  s ≠ EmptyString → starts_with_space (s ++ a) = starts_with_space s.
Proof. by destruct s. Qed.

(** A stripped line with its line feed put back strips to itself. *)
Lemma strip_line x :
  starts_with_space x = false → ends_with_space x = false →
  Str.strip (x ++ LF) = x.
Proof.
  intros Hs He. unfold Str.strip.
  destruct (decide (x = EmptyString)) as [->|Hx]; [done|].
  rewrite lstrip_id by by rewrite starts_with_space_app.
  unfold LF. rewrite rstrip_snoc_space by done. by apply rstrip_id.
Qed.

(** The rendering of an identifier holds no line feed when the stripped
    line holds none. *)
Lemma repr_no_newline s text :
  Str.mem newline (Str.strip s) = false →
  SequenceIdentifier.__repr__ (SequenceIdentifier.__init__ s) = Return text →
  Str.mem newline text = false.
Proof.
  intros Hs Hrepr.
  assert (Forall (λ f, Str.mem newline f = false) (fields_of s)) as Hfields.
  { apply split_pieces_mem. destruct (Str.strip s) as [|y t]; [done|].
    simpl in *. by case_decide. }
  destruct (looks_illumina18 s) eqn:H18.
  { destruct (attrs_of_illumina18_line s H18)
      as (f0 & f1 & f2 & f3 & f4 & f5 & f6 & f7 & f8 & f9 & rest & y & p & more
          & Hf & Hsp & Hattrs).
    rewrite (repr_illumina18_text s _ _ _ _ _ _ _ _ _ _ _ H18 Hattrs) in Hrepr.
    injection Hrepr as <-. rewrite Hf in Hfields.
    repeat (apply Forall_cons in Hfields as [? Hfields]).
    pose proof (split_pieces_mem newline " " f6 ltac:(done)) as Hyp.
    rewrite Hsp in Hyp.
    apply Forall_cons in Hyp as [? Hyp]. apply Forall_cons in Hyp as [? _].
    rewrite !app_one. simpl. repeat (rewrite mem_app; simpl).
    by repeat match goal with
         H : Str.mem _ _ = false |- _ => rewrite H; clear H end. }
  destruct (looks_illumina s) eqn:Hleg.
  { destruct (attrs_of_illumina_line s Hleg)
      as (f0 & f1 & f2 & f3 & f4 & rest & y & g & more & m & p & more'
          & Hf & Hsp & Hg & Hattrs).
    rewrite (repr_illumina_text s _ _ _ _ _ _ _ Hleg Hattrs) in Hrepr.
    injection Hrepr as <-. rewrite Hf in Hfields.
    repeat (apply Forall_cons in Hfields as [? Hfields]).
    pose proof (split_pieces_mem newline "#" f4 ltac:(done)) as Hyg.
    rewrite Hsp in Hyg.
    apply Forall_cons in Hyg as [? Hyg]. apply Forall_cons in Hyg as [Hg' _].
    pose proof (split_pieces_mem newline "/" g Hg') as Hmp. rewrite Hg in Hmp.
    apply Forall_cons in Hmp as [? Hmp]. apply Forall_cons in Hmp as [? _].
    rewrite !app_one. simpl. repeat (rewrite mem_app; simpl).
    by repeat match goal with
         H : Str.mem _ _ = false |- _ => rewrite H; clear H end. }
  unfold SequenceIdentifier.__repr__ in Hrepr.
  rewrite format_of_init, H18, Hleg, init_seqid in Hrepr.
  by injection Hrepr as <-.
Qed.

Lemma lines_last_line a :
  Str.mem newline a = false → lines (a ++ LF) = [(a ++ LF)%string].
Proof. intros Ha. exact (lines_line a EmptyString Ha). Qed.

(** A record returned by the stream, written out with [repr] and a final
    line feed, reads back as one record with the same sequence, optional
    identifier and quality, and with the rendered identifier as its
    identifier line. *)
Theorem read_repr_round_trip (it : FastqIterator.t) (w : world) (r : FastqRead.t) :
  (FastqIterator.next it w).1 = Return r →
  ∃ id text r',
    SequenceIdentifier.__repr__ (FastqRead.seqid r).1 = Return id
    ∧ (FastqRead.__repr__ r).1 = Return text
    ∧ records (text ++ LF) = [r']
    ∧ FastqRead.raw_seqid r' = (id ++ LF)%string
    ∧ FastqRead.sequence r' = FastqRead.sequence r
    ∧ FastqRead.optid r' = FastqRead.optid r
    ∧ FastqRead.quality r' = FastqRead.quality r.
Proof.
  intros (t1 & t2 & t3 & t4 & ->)%next_returns_cut_lines.
  set (raw := (cut_line t1).1).
  destruct (repr_of_init raw) as [id Hid].
  assert (Str.mem newline id = false) as Hid_nl.
  { apply (repr_no_newline raw); [|done].
    apply mem_count, strip_cut_line_no_newline. }
  pose proof (strip_cut_line_no_newline t2) as H2%mem_count.
  pose proof (strip_cut_line_no_newline t3) as H3%mem_count.
  pose proof (strip_cut_line_no_newline t4) as H4%mem_count.
  pose proof (strip_no_outer_space (cut_line t2).1) as [Hs2 He2].
  pose proof (strip_no_outer_space (cut_line t3).1) as [Hs3 He3].
  pose proof (strip_no_outer_space (cut_line t4).1) as [Hs4 He4].
  set (seq := Str.strip (cut_line t2).1) in *.
  set (opt := Str.strip (cut_line t3).1) in *.
  set (qual := Str.strip (cut_line t4).1) in *.
  exists id, (id ++ LF ++ seq ++ LF ++ opt ++ LF ++ qual)%string,
    (FastqRead.__init__ (id ++ LF) (seq ++ LF) (opt ++ LF) (qual ++ LF)).
  split; [exact Hid|]. split.
  { unfold FastqRead.__repr__, FastqRead.seqid, FastqRead.__init__. simpl.
    fold raw. by rewrite Hid. }
  split.
  { unfold records. rewrite <- !append_assoc.
    rewrite !lines_line by done. by rewrite lines_last_line. }
  split; [done|]. simpl. by rewrite !strip_line.
Qed.

Lemma read_repr_round_trip_witness :
  ∃ id text r',
    SequenceIdentifier.__repr__
      (FastqRead.seqid (example_read example_illumina_line "ACGT" "IIII")).1
    = Return id
    ∧ (FastqRead.__repr__ (example_read example_illumina_line "ACGT" "IIII")).1
      = Return text
    ∧ records (text ++ LF) = [r']
    ∧ FastqRead.raw_seqid r' = (id ++ LF)%string
    ∧ FastqRead.sequence r'
      = FastqRead.sequence (example_read example_illumina_line "ACGT" "IIII")
    ∧ FastqRead.optid r'
      = FastqRead.optid (example_read example_illumina_line "ACGT" "IIII")
    ∧ FastqRead.quality r'
      = FastqRead.quality (example_read example_illumina_line "ACGT" "IIII").
Proof.
  apply (read_repr_round_trip (FastqIterator.mk None 7)
           (example_world example_record)).
  vm_compute. reflexivity.
Defined.

End read_round_trip.

(** * Pairing two files *)

Section pairing_files.

Implicit Types (w : world) (z : izip_longest.t) (out : list string).
Implicit Types (a b : FastqIterator.t) (f : File.t).

Lemma pair_loop_step verbose z i out w :
  pair_loop verbose z i out w
  = match izip_longest.next z w with
    | (Return ((r1, r2), z'), w') =>
        match check_pair verbose (i + 1) r1 r2 out with
        | (Continue, out') => pair_loop verbose z' (i + 1) out' w'
        | (Stop result, out') => (result, out', w')
        end
    | (Raise e, w') =>
        (if bool_decide (e = StopIteration) then Return true else Raise e,
         out, w')
    end.
Proof.
  funelim (pair_loop verbose z i out w);
    match goal with H : izip_longest.next _ _ = _ |- _ => rewrite H end;
    try done;
    match goal with H : check_pair _ _ _ _ _ = _ |- _ => by rewrite H end.
Qed.

(** A pull on an open source, with the world it leaves. *)
Lemma next_world a w f :
  objs w !! FastqIterator.__fp a = Some f → File.closed f = false →
  ∃ f', match records (File.content f) with
        | r :: rs =>
            FastqIterator.next a w
            = (Return r, set_obj (FastqIterator.__fp a) f' w)
            ∧ File.closed f' = false ∧ records (File.content f') = rs
        | [] =>
            FastqIterator.next a w
            = (Raise StopIteration, set_obj (FastqIterator.__fp a) f' w)
        end.
Proof.
  intros Hf Hc. unfold records.
  destruct (lines (File.content f)) as [|l1 [|l2 [|l3 [|l4 rest]]]] eqn:Hl.
  5: { destruct (next_record a w f l1 l2 l3 l4 rest Hf Hc Hl) as (c' & Hn & Hr).
       exists (File.mk c' false). simpl. by rewrite Hr. }
  all: rewrite (next_open a w f Hf Hc);
    pose proof (cut_four_lines (File.content f)) as H; simpl in H;
    rewrite Hl in H; rewrite H, bool_decide_eq_false_2 by auto;
    by eexists.
Qed.

Lemma check_pair_none_l verbose i r2 out :
  (check_pair verbose i None r2 out).1 = Stop (Raise AttributeError).
Proof. done. Qed.

Lemma check_pair_none_r verbose i r1 out :
  (check_pair verbose i (Some r1) None out).1 = Stop (Raise AttributeError).
Proof. done. Qed.

(** The loop over two open sources held by different file objects computes
    the pairing of their records. *)
Lemma pair_loop_records verbose rs1 :
  ∀ a b w fa fb i out,
    FastqIterator.__fp a ≠ FastqIterator.__fp b →
    objs w !! FastqIterator.__fp a = Some fa → File.closed fa = false →
    objs w !! FastqIterator.__fp b = Some fb → File.closed fb = false →
    records (File.content fa) = rs1 →
    (pair_loop verbose (izip_longest.mk (Some a) (Some b)) i out w).1
    = pairing verbose i out rs1 (records (File.content fb)).
Proof.
  induction rs1 as [|r1 rs1 IH]; intros a b w fa fb i out Hne Hfa Hca Hfb Hcb Hrs.
  - rewrite pair_loop_step. unfold izip_longest.next. simpl.
    unfold mbind, IO_bind. simpl.
    destruct (next_world a w fa Hfa Hca) as [fa' Ha]. rewrite Hrs in Ha.
    rewrite Ha. simpl.
    destruct (next_world b (set_obj (FastqIterator.__fp a) fa' w) fb) as [fb' Hb];
      [by rewrite lookup_set_obj_ne | done |].
    destruct (records (File.content fb)) as [|r2 rs2].
    + by rewrite Hb.
    + destruct Hb as (-> & _ & _). simpl.
      pose proof (check_pair_none_l verbose (i + 1) (Some r2) out) as Hcp.
      by destruct (check_pair verbose (i + 1) None (Some r2) out) as [v o];
        simpl in Hcp; subst v.
  - rewrite pair_loop_step. unfold izip_longest.next. simpl.
    unfold mbind, IO_bind. simpl.
    destruct (next_world a w fa Hfa Hca) as [fa' Ha]. rewrite Hrs in Ha.
    destruct Ha as (-> & Hca' & Hrs').
    destruct (next_world b (set_obj (FastqIterator.__fp a) fa' w) fb) as [fb' Hb];
      [by rewrite lookup_set_obj_ne | done |].
    destruct (records (File.content fb)) as [|r2 rs2].
    + rewrite Hb. simpl.
      pose proof (check_pair_none_r verbose (i + 1) r1 out) as Hcp.
      by destruct (check_pair verbose (i + 1) (Some r1) None out) as [v o];
        simpl in Hcp; subst v.
    + destruct Hb as (-> & Hcb' & Hrs2). simpl.
      destruct (check_pair verbose (i + 1) (Some r1) (Some r2) out)
        as [[|result] out']; [|done].
      rewrite (IH a b _ fa' fb'); try done.
      * by rewrite Hrs2.
      * by rewrite lookup_set_obj_ne, lookup_set_obj.
      * by rewrite lookup_set_obj.
Qed.

(** *** The iterators of the two sources *)

Lemma init_iterator fastq fp w text :
  input_text fastq fp w = Some text →
  ∃ a w', FastqIterator.__init__ fastq fp w = (Return a, w')
          ∧ objs w' !! FastqIterator.__fp a = Some (File.mk text false)
          ∧ files w' = files w
          ∧ (∀ h, h ≠ FastqIterator.__fp a → objs w' !! h = objs w !! h)
          ∧ match fp with
            | Some h => FastqIterator.__fp a = h ∧ w' = w
            | None => objs w !! FastqIterator.__fp a = None
            end.
Proof.
  unfold input_text, FastqIterator.__init__. destruct fp as [h|]; simpl.
  - destruct (objs w !! h) as [[c cl]|] eqn:Hf; [|done]. simpl.
    destruct cl; [done|]. intros [= <-].
    exists (FastqIterator.mk fastq h), w. by repeat split.
  - destruct fastq as [path|]; [|done]. simpl. intros Hpath.
    unfold get_fastq_file_handle, open, mbind, IO_bind. rewrite Hpath.
    set (h := fresh (dom (objs w))).
    exists (FastqIterator.mk (Some path) h), (set_obj h (File.mk text false) w).
    simpl. repeat split.
    + apply lookup_insert_eq.
    + intros h' Hne. by apply lookup_insert_ne.
    + apply not_elem_of_dom. apply is_fresh.
Qed.

Lemma records_built text : Forall built (records text).
Proof.
  unfold records. generalize (lines text). fix IH 1.
  intros [|l1 [|l2 [|l3 [|l4 rest]]]]; try by constructor.
  simpl. constructor; [by exists l1, l2, l3, l4 | apply IH].
Qed.

(** *** The pairing of two lists of records *)

Lemma built_seqid r :
  built r →
  (FastqRead.seqid r).1 = SequenceIdentifier.__init__ (FastqRead.raw_seqid r).
Proof. by intros (l1 & l2 & l3 & l4 & ->). Qed.

(** The verdict of the loop body on two reads: go on when the headers pair,
    otherwise stop with the outcome of [is_pair_of]. *)
Lemma check_pair_built verbose i r1 r2 out :
  built r1 → built r2 →
  (check_pair verbose i (Some r1) (Some r2) out).1
  = match SequenceIdentifier.is_pair_of (FastqRead.seqid r1).1
            (FastqRead.seqid r2).1 with
    | Return true => Continue
    | o => Stop o
    end.
Proof.
  intros H1 H2. unfold check_pair, seqid_of.
  destruct (SequenceIdentifier.is_pair_of _ _) as [[|]|e]; try done.
  destruct verbose; [|done].
  rewrite !built_seqid by done.
  destruct (repr_of_init (FastqRead.raw_seqid r1)) as [id1 ->].
  by destruct (repr_of_init (FastqRead.raw_seqid r2)) as [id2 ->].
Qed.

Lemma check_pair_quiet i r1 r2 out : (check_pair false i r1 r2 out).2 = out.
Proof.
  unfold check_pair. simpl. destruct (seqid_of r1); [|done].
  destruct (seqid_of r2); [|done].
  by destruct (SequenceIdentifier.is_pair_of _ _) as [[|]|].
Qed.

Lemma pairing_true verbose rs1 :
  ∀ rs2 i out,
    Forall built rs1 → Forall built rs2 →
    (pairing verbose i out rs1 rs2).1 = Return true ↔ Forall2 reads_pair rs1 rs2.
Proof.
  induction rs1 as [|r1 rs1 IH]; intros [|r2 rs2] i out Hb1 Hb2; simpl.
  - split; [constructor | done].
  - split; [done | by intros ?%Forall2_nil_cons_inv].
  - split; [done | by intros ?%Forall2_cons_nil_inv].
  - apply Forall_cons in Hb1 as [Hr1 Hb1]. apply Forall_cons in Hb2 as [Hr2 Hb2].
    pose proof (check_pair_built verbose (i + 1) r1 r2 out Hr1 Hr2) as Hcp.
    destruct (check_pair verbose (i + 1) (Some r1) (Some r2) out) as [v out'].
    simpl in Hcp. subst v. rewrite Forall2_cons. unfold reads_pair at 1.
    destruct (SequenceIdentifier.is_pair_of _ _) as [[|]|e]; simpl.
    + rewrite IH by done. by intuition.
    + split; [done | by intros [? _]].
    + split; [done | by intros [? _]].
Qed.

Lemma pairing_first_failure verbose k :
  ∀ rs1 rs2 i out r1 r2,
    Forall built rs1 → Forall built rs2 →
    Forall2 reads_pair (take k rs1) (take k rs2) →
    rs1 !! k = Some r1 → rs2 !! k = Some r2 →
    ¬ reads_pair r1 r2 →
    (pairing verbose i out rs1 rs2).1
    = SequenceIdentifier.is_pair_of (FastqRead.seqid r1).1 (FastqRead.seqid r2).1.
Proof.
  induction k as [|k IH];
    intros [|x rs1] [|y rs2] i out r1 r2 Hb1 Hb2 Hpre Hk1 Hk2 Hno; try done.
  - simpl in Hk1, Hk2. injection Hk1 as ->. injection Hk2 as ->. simpl.
    apply Forall_cons in Hb1 as [Hr1 _]. apply Forall_cons in Hb2 as [Hr2 _].
    pose proof (check_pair_built verbose (i + 1) r1 r2 out Hr1 Hr2) as Hcp.
    destruct (check_pair verbose (i + 1) (Some r1) (Some r2) out) as [v out'].
    simpl in Hcp. subst v. unfold reads_pair in Hno.
    by destruct (SequenceIdentifier.is_pair_of _ _) as [[|]|e].
  - simpl in Hk1, Hk2, Hpre. apply Forall2_cons in Hpre as [Hxy Hpre].
    apply Forall_cons in Hb1 as [Hx Hb1]. apply Forall_cons in Hb2 as [Hy Hb2].
    simpl.
    pose proof (check_pair_built verbose (i + 1) x y out Hx Hy) as Hcp.
    destruct (check_pair verbose (i + 1) (Some x) (Some y) out) as [v out'].
    simpl in Hcp. subst v. unfold reads_pair in Hxy. rewrite Hxy.
    by apply IH.
Qed.

Lemma pairing_unequal verbose rs1 :
  ∀ rs2 i out,
    Forall built rs1 → Forall built rs2 →
    length rs1 ≠ length rs2 →
    Forall2 reads_pair (take (length rs2) rs1) (take (length rs1) rs2) →
    (pairing verbose i out rs1 rs2).1 = Raise AttributeError.
Proof.
  induction rs1 as [|r1 rs1 IH]; intros [|r2 rs2] i out Hb1 Hb2 Hlen Hpre;
    try done.
  simpl in Hpre. apply Forall2_cons in Hpre as [Hxy Hpre].
  apply Forall_cons in Hb1 as [Hx Hb1]. apply Forall_cons in Hb2 as [Hy Hb2].
  simpl.
  pose proof (check_pair_built verbose (i + 1) r1 r2 out Hx Hy) as Hcp.
  destruct (check_pair verbose (i + 1) (Some r1) (Some r2) out) as [v out'].
  simpl in Hcp. subst v. unfold reads_pair in Hxy. rewrite Hxy.
  apply IH; try done. simpl in Hlen. lia.
Qed.

Lemma pairing_report k :
  ∀ rs1 rs2 i out r1 r2,
    Forall built rs1 → Forall built rs2 →
    Forall2 reads_pair (take k rs1) (take k rs2) →
    rs1 !! k = Some r1 → rs2 !! k = Some r2 →
    SequenceIdentifier.is_pair_of (FastqRead.seqid r1).1 (FastqRead.seqid r2).1
    = Return false →
    ∃ progress id1 id2,
      SequenceIdentifier.__repr__ (FastqRead.seqid r1).1 = Return id1
      ∧ SequenceIdentifier.__repr__ (FastqRead.seqid r2).1 = Return id2
      ∧ (pairing true i out rs1 rs2).2
        = (out ++ progress
           ++ [("Unpaired headers for read position #"
                ++ decimal (i + Z.of_nat k + 1) ++ ":")%string;
               (id1 ++ LF ++ id2)%string])%list.
Proof.
  induction k as [|k IH];
    intros [|x rs1] [|y rs2] i out r1 r2 Hb1 Hb2 Hpre Hk1 Hk2 Hno; try done.
  - simpl in Hk1, Hk2. injection Hk1 as ->. injection Hk2 as ->.
    apply Forall_cons in Hb1 as [Hr1 _]. apply Forall_cons in Hb2 as [Hr2 _].
    pose proof Hno as Hno'. rewrite !built_seqid in Hno' |- * by done.
    destruct (repr_of_init (FastqRead.raw_seqid r1)) as [id1 Hid1].
    destruct (repr_of_init (FastqRead.raw_seqid r2)) as [id2 Hid2].
    exists (if bool_decide ((i + 1) `mod` 100000 = 0)
            then [("Examining pair #" ++ decimal (i + 1))%string] else []),
      id1, id2.
    split; [done|]. split; [done|].
    simpl. unfold check_pair, seqid_of. rewrite Hno.
    rewrite !built_seqid by done. rewrite Hid1, Hid2. simpl.
    replace (i + Z.of_nat 0 + 1) with (i + 1) by lia.
    case_bool_decide; simpl; by rewrite <- !app_assoc.
  - simpl in Hk1, Hk2, Hpre. apply Forall2_cons in Hpre as [Hxy Hpre].
    apply Forall_cons in Hb1 as [Hx Hb1]. apply Forall_cons in Hb2 as [Hy Hb2].
    destruct (IH rs1 rs2 (i + 1)
                (if bool_decide ((i + 1) `mod` 100000 = 0)
                 then (out ++ [("Examining pair #" ++ decimal (i + 1))%string])%list
                 else out) r1 r2) as (progress & id1 & id2 & Hid1 & Hid2 & Hout);
      try done.
    exists ((if bool_decide ((i + 1) `mod` 100000 = 0)
             then [("Examining pair #" ++ decimal (i + 1))%string] else [])
            ++ progress)%list, id1, id2.
    split; [done|]. split; [done|].
    simpl. unfold check_pair at 1, seqid_of. unfold reads_pair in Hxy.
    rewrite Hxy. simpl. rewrite Hout.
    replace (i + 1 + Z.of_nat k + 1) with (i + Z.of_nat (S k) + 1) by lia.
    case_bool_decide; by rewrite <- ?app_assoc.
Qed.

(** *** Nothing is printed without [verbose] *)

Lemma pair_loop_quiet z i out w : (pair_loop false z i out w).1.2 = out.
Proof.
  remember (izip_measure z w) as n eqn:Hn. revert z i out w Hn.
  induction n as [n IH] using lt_wf_ind. intros z i out w ->.
  rewrite pair_loop_step.
  destruct (izip_longest.next z w) as [[[[r1 r2] z']|e] w'] eqn:Hnext;
    [|done].
  pose proof (check_pair_quiet (i + 1) r1 r2 out) as Hout.
  destruct (check_pair false (i + 1) r1 r2 out) as [[|result] out'];
    simpl in Hout; subst out'; [|done].
  eapply IH; [|reflexivity]. by eapply izip_next_measure.
Qed.

(** With [verbose=False], [fastqs_are_pair] prints nothing, whatever its
    sources are and however it ends. *)
Theorem fastqs_are_pair_quiet fastq1 fastq2 fp1 fp2 w :
  (fastqs_are_pair fastq1 fastq2 false fp1 fp2 w).1.2 = [].
Proof.
  unfold fastqs_are_pair.
  destruct (FastqIterator.__init__ fastq1 fp1 w) as [[a|e] w1]; [|done].
  destruct (FastqIterator.__init__ fastq2 fp2 w1) as [[b|e] w2]; [|done].
  apply pair_loop_quiet.
Qed.

Section two_sources.

Context (fastq1 fastq2 : option string) (fp1 fp2 : option nat).
Context (w : world) (t1 t2 : string).
Hypothesis Hsource1 : input_text fastq1 fp1 w = Some t1.
Hypothesis Hsource2 : input_text fastq2 fp2 w = Some t2.
Hypothesis Hdistinct : fp1 = None ∨ fp1 ≠ fp2.

(** On two sources that are not one and the same file object, the call
    computes the pairing of their records. *)
Lemma fastqs_are_pair_pairing verbose :
  (fastqs_are_pair fastq1 fastq2 verbose fp1 fp2 w).1
  = pairing verbose 0 [] (records t1) (records t2).
Proof.
  unfold fastqs_are_pair.
  destruct (init_iterator fastq1 fp1 w t1 Hsource1)
    as (a & w1 & -> & Hfa & Hfiles1 & Hother1 & Hfp1).
  assert (input_text fastq2 fp2 w1 = Some t2) as Hsource2'.
  { unfold input_text in *. destruct fp2 as [h2|]; [|by rewrite Hfiles1].
    destruct fp1 as [h1|]; [by destruct Hfp1 as [_ ->]|].
    rewrite Hother1; [done|]. intros ->. by rewrite Hfp1 in Hsource2. }
  destruct (init_iterator fastq2 fp2 w1 t2 Hsource2')
    as (b & w2 & -> & Hfb & Hfiles2 & Hother2 & Hfp2).
  assert (FastqIterator.__fp a ≠ FastqIterator.__fp b) as Hne.
  { intros Heq. destruct fp2 as [h2|].
    - destruct Hfp2 as [Hb ->]. destruct fp1 as [h1|].
      + destruct Hfp1 as [Ha _]. destruct Hdistinct as [?|Hd]; [done|].
        apply Hd. congruence.
      + unfold input_text in Hsource2. rewrite <- Hb, <- Heq, Hfp1 in Hsource2.
        done.
    - rewrite <- Heq, Hfa in Hfp2. done. }
  rewrite (pair_loop_records verbose (records t1) a b w2
             (File.mk t1 false) (File.mk t2 false)); try done.
  by rewrite Hother2.
Qed.

(** [fastqs_are_pair] returns [True] exactly when the two sources hold the
    same number of records and the headers at every position pair. *)
Theorem fastqs_are_pair_true_iff verbose :
  (fastqs_are_pair fastq1 fastq2 verbose fp1 fp2 w).1.1 = Return true
  ↔ Forall2 reads_pair (records t1) (records t2).
Proof.
  rewrite fastqs_are_pair_pairing. apply pairing_true; apply records_built.
Qed.

(** At the first position whose headers do not pair, [fastqs_are_pair]
    stops with the outcome of [is_pair_of] there: [False], or the exception
    that [is_pair_of] raises. *)
Theorem fastqs_are_pair_first_failure verbose k r1 r2 :
  Forall2 reads_pair (take k (records t1)) (take k (records t2)) →
  records t1 !! k = Some r1 → records t2 !! k = Some r2 →
  ¬ reads_pair r1 r2 →
  (fastqs_are_pair fastq1 fastq2 verbose fp1 fp2 w).1.1
  = SequenceIdentifier.is_pair_of (FastqRead.seqid r1).1 (FastqRead.seqid r2).1.
Proof.
  intros. rewrite fastqs_are_pair_pairing.
  by apply (pairing_first_failure verbose k); try apply records_built.
Qed.

(** When the headers pair at every position of the shorter source and the
    other source holds more records, [fastqs_are_pair] raises
    [AttributeError]: the missing read is [None]. *)
Theorem fastqs_are_pair_unequal_lengths verbose :
  length (records t1) ≠ length (records t2) →
  Forall2 reads_pair (take (length (records t2)) (records t1))
    (take (length (records t1)) (records t2)) →
  (fastqs_are_pair fastq1 fastq2 verbose fp1 fp2 w).1.1 = Raise AttributeError.
Proof.
  intros. rewrite fastqs_are_pair_pairing.
  by apply pairing_unequal; try apply records_built.
Qed.

(** With [verbose], a first position whose headers give [False] is
    reported: the last two lines printed are the position, counted from 1,
    and the two rendered headers. *)
Theorem fastqs_are_pair_report k r1 r2 :
  Forall2 reads_pair (take k (records t1)) (take k (records t2)) →
  records t1 !! k = Some r1 → records t2 !! k = Some r2 →
  SequenceIdentifier.is_pair_of (FastqRead.seqid r1).1 (FastqRead.seqid r2).1
  = Return false →
  ∃ progress id1 id2,
    SequenceIdentifier.__repr__ (FastqRead.seqid r1).1 = Return id1
    ∧ SequenceIdentifier.__repr__ (FastqRead.seqid r2).1 = Return id2
    ∧ (fastqs_are_pair fastq1 fastq2 true fp1 fp2 w).1.2
      = (progress
         ++ [("Unpaired headers for read position #"
              ++ decimal (Z.of_nat k + 1) ++ ":")%string;
             (id1 ++ LF ++ id2)%string])%list.
Proof.
  intros Hpre Hk1 Hk2 Hno. rewrite fastqs_are_pair_pairing.
  destruct (pairing_report k (records t1) (records t2) 0 [] r1 r2)
    as (progress & id1 & id2 & Hid1 & Hid2 & Hout);
    try done; try apply records_built.
  exists progress, id1, id2. by rewrite Hout.
Qed.

End two_sources.

Lemma fastqs_are_pair_true_iff_witness :
  (fastqs_are_pair (Some "r1.fastq") (Some "r2.fastq") false None None
     (two_sources_world example_record example_mate)).1.1 = Return true.
Proof.
  apply (fastqs_are_pair_true_iff (Some "r1.fastq") (Some "r2.fastq") None None
           (two_sources_world example_record example_mate)
           (text_of example_record) (text_of example_mate)
           eq_refl eq_refl (or_introl eq_refl) false).
  assert (records (text_of example_record)
          = [example_read "@HWUSI-EAS100R:6:73:941:1973#0/1" "ACGT" "IIII"])
    as -> by (vm_compute; reflexivity).
  assert (records (text_of example_mate)
          = [example_read "@HWUSI-EAS100R:6:73:941:1973#0/2" "TTGA" "IIII"])
    as -> by (vm_compute; reflexivity).
  constructor; [vm_compute; reflexivity | constructor].
Defined.

Lemma fastqs_are_pair_first_failure_witness :
  (fastqs_are_pair (Some "r1.fastq") (Some "r2.fastq") false None None
     (two_sources_world example_record example_other)).1.1
  = SequenceIdentifier.is_pair_of
      (FastqRead.seqid
         (example_read "@HWUSI-EAS100R:6:73:941:1973#0/1" "ACGT" "IIII")).1
      (FastqRead.seqid
         (example_read "@HWUSI-EAS100R:6:73:941:1974#0/2" "TTGA" "IIII")).1.
Proof.
  apply (fastqs_are_pair_first_failure (Some "r1.fastq") (Some "r2.fastq")
           None None (two_sources_world example_record example_other)
           (text_of example_record) (text_of example_other)
           eq_refl eq_refl (or_introl eq_refl) false 0%nat).
  - constructor.
  - vm_compute. reflexivity.
  - vm_compute. reflexivity.
  - intros H. vm_compute in H. discriminate H.
Defined.

Lemma fastqs_are_pair_unequal_lengths_witness :
  (fastqs_are_pair (Some "r1.fastq") (Some "r2.fastq") false None None
     (two_sources_world (example_record ++ example_record) example_mate)).1.1
  = Raise AttributeError.
Proof.
  apply (fastqs_are_pair_unequal_lengths (Some "r1.fastq") (Some "r2.fastq")
           None None
           (two_sources_world (example_record ++ example_record) example_mate)
           (text_of (example_record ++ example_record)) (text_of example_mate)
           eq_refl eq_refl (or_introl eq_refl) false).
  - intros H. vm_compute in H. discriminate H.
  - assert (records (text_of (example_record ++ example_record))
            = [example_read "@HWUSI-EAS100R:6:73:941:1973#0/1" "ACGT" "IIII";
               example_read "@HWUSI-EAS100R:6:73:941:1973#0/1" "ACGT" "IIII"])
      as -> by (vm_compute; reflexivity).
    assert (records (text_of example_mate)
            = [example_read "@HWUSI-EAS100R:6:73:941:1973#0/2" "TTGA" "IIII"])
      as -> by (vm_compute; reflexivity).
    simpl. constructor; [vm_compute; reflexivity | constructor].
Defined.

Lemma fastqs_are_pair_report_witness :
  ∃ progress id1 id2,
    SequenceIdentifier.__repr__
      (FastqRead.seqid
         (example_read "@HWUSI-EAS100R:6:73:941:1973#0/1" "ACGT" "IIII")).1
    = Return id1
    ∧ SequenceIdentifier.__repr__
        (FastqRead.seqid
           (example_read "@HWUSI-EAS100R:6:73:941:1974#0/2" "TTGA" "IIII")).1
      = Return id2
    ∧ (fastqs_are_pair (Some "r1.fastq") (Some "r2.fastq") true None None
         (two_sources_world example_record example_other)).1.2
      = (progress
         ++ [("Unpaired headers for read position #"
              ++ decimal (Z.of_nat 0 + 1) ++ ":")%string;
             (id1 ++ LF ++ id2)%string])%list.
Proof.
  apply (fastqs_are_pair_report (Some "r1.fastq") (Some "r2.fastq")
           None None (two_sources_world example_record example_other)
           (text_of example_record) (text_of example_other)
           eq_refl eq_refl (or_introl eq_refl) 0%nat).
  - constructor.
  - vm_compute. reflexivity.
  - vm_compute. reflexivity.
  - vm_compute. reflexivity.
Defined.

End pairing_files.

(** * Counting reads *)

Section counting.

Implicit Types (w : world) (f : File.t) (text : string).

(** The loop of [nreads] leaves the file object read to its end. *)
Lemma count_lines_final fp buf nlines w :
  ∀ f, objs w !! fp = Some f → File.closed f = false →
       (buf = EmptyString → File.content f = EmptyString) →
       ∃ w', count_lines fp buf nlines w
             = (Return (nlines + Str.count newline buf
                        + Str.count newline (File.content f)), w')
             ∧ objs w' !! fp = Some (File.mk EmptyString false)
             ∧ files w' = files w
             ∧ ∀ h, h ≠ fp → objs w' !! h = objs w !! h.
Proof.
  funelim (count_lines fp buf nlines w); intros f Hf Hc Hbuf.
  - exists w. rewrite Hbuf by done. simpl. split; [f_equal; f_equal; lia|].
    destruct f as [c cl]. simpl in *. rewrite Hbuf in Hf by done.
    by subst cl.
  - pose proof Hread as Hr. unfold read in Hr.
    rewrite (on_open_open fp (cut buf_size) w f Hf Hc) in Hr.
    injection Hr as Ebuf Ew.
    match goal with
    | IH : ∀ f, objs w' !! fp = Some f → _ |- _ =>
        destruct (IH (File.mk (cut buf_size (File.content f)).2 false))
          as (w'' & Hw'' & Hfinal & Hfiles & Hother)
    end.
    + rewrite <- Ew. apply lookup_set_obj.
    + done.
    + intros E. simpl. apply cut_empty; [done | by rewrite Ebuf].
    + exists w''. split; [|split; [done|split]].
      * cbn [File.content] in Hw''. rewrite Hw''. f_equal. f_equal.
        pose proof (cut_count newline buf_size (File.content f)) as Hcount.
        rewrite Ebuf in Hcount. lia.
      * by rewrite Hfiles, <- Ew.
      * intros h Hh. rewrite Hother by done. rewrite <- Ew.
        by apply lookup_set_obj_ne.
  - pose proof Hread as Hr. unfold read in Hr.
    by rewrite (on_open_open fp (cut buf_size) w f Hf Hc) in Hr.
Qed.

(** [nreads] on a supplied open file object: the result, and the file
    object afterwards, read to its end and closed when a file name was
    given as well. *)
Lemma nreads_handle_world (fastq : option string) fp w f :
  objs w !! fp = Some f → File.closed f = false →
  ∃ w', nreads fastq (Some fp) w
        = (read_count (Str.count newline (File.content f)), w')
        ∧ objs w' !! fp
          = Some (File.mk EmptyString (bool_decide (fastq ≠ None)))
        ∧ files w' = files w.
Proof.
  intros Hf Hc. unfold nreads.
  erewrite IO_bind_return; [|reflexivity].
  erewrite IO_bind_return; [|by apply on_open_open].
  set (rest := (cut buf_size (File.content f)).2).
  destruct (count_lines_final fp (cut buf_size (File.content f)).1 0
              (set_obj fp (File.mk rest false) w) (File.mk rest false))
    as (w1 & Hw1 & Hfinal & Hfiles & _).
  { apply lookup_set_obj. }
  { done. }
  { simpl. by apply cut_empty. }
  erewrite IO_bind_return; [|exact Hw1].
  cbn [File.content]. subst rest. rewrite Z.add_0_l, cut_count.
  unfold read_count. destruct (bool_decide (fastq ≠ None)).
  - erewrite IO_bind_return; [|exact (close_spec fp w1 _ Hfinal)].
    exists (set_obj fp (File.mk EmptyString true) w1).
    split; [|split; [apply lookup_set_obj | done]].
    unfold raise. by repeat case_bool_decide.
  - erewrite IO_bind_return; [|reflexivity].
    exists w1. split; [|done]. unfold raise. by repeat case_bool_decide.
Qed.

(** *** [FastqAttributes] *)

Lemma init_attributes fastq fp w text :
  input_text fastq fp w = Some text →
  ∃ self w1,
    FastqAttributes.__init__ fastq fp w = (Return self, w1)
    ∧ objs w1 !! FastqAttributes.__fp self = Some (File.mk text false)
    ∧ FastqAttributes.__fastq_file self = fastq
    ∧ FastqAttributes.__nreads self = None.
Proof.
  unfold input_text, FastqAttributes.__init__. destruct fp as [h|]; simpl.
  - destruct (objs w !! h) as [[c cl]|] eqn:Hf; [|done]. simpl.
    destruct cl; [done|]. intros [= <-].
    by exists (FastqAttributes.mk fastq h None), w.
  - destruct fastq as [path|]; [|done]. simpl. intros Hpath.
    unfold get_fastq_file_handle, open, mbind, IO_bind. rewrite Hpath.
    eexists _, _. split; [reflexivity|]. simpl.
    split; [apply lookup_insert_eq | done].
Qed.

(** The first reading of the [nreads] property of a new [FastqAttributes]
    counts the reads of the file; every later reading returns the same
    number without touching any file. *)
Theorem attributes_nreads_cached fastq fp w text :
  input_text fastq fp w = Some text →
  Str.count newline text `mod` 4 = 0 →
  ∃ self w1 self' w2,
    FastqAttributes.__init__ fastq fp w = (Return self, w1)
    ∧ FastqAttributes.nreads self w1
      = (Return (Str.count newline text `div` 4, self'), w2)
    ∧ ∀ w3, FastqAttributes.nreads self' w3
            = (Return (Str.count newline text `div` 4, self'), w3).
Proof.
  intros Hin Hmod.
  destruct (init_attributes fastq fp w text Hin)
    as (self & w1 & Hinit & Hf & Hname & Hcache).
  destruct (nreads_handle_world (FastqAttributes.__fastq_file self)
              (FastqAttributes.__fp self) w1 _ Hf eq_refl)
    as (w2 & Hcount & _).
  unfold read_count in Hcount. simpl in Hcount.
  rewrite bool_decide_eq_true_2 in Hcount by done.
  eexists self, w1, _, w2. split; [done|]. split.
  - unfold FastqAttributes.nreads. rewrite Hcache.
    erewrite IO_bind_return; [|exact Hcount]. reflexivity.
  - intros w3. reflexivity.
Qed.

Lemma attributes_nreads_cached_witness :
  ∃ self w1 self' w2,
    FastqAttributes.__init__ (Some "reads.fastq") None
      (example_world example_record) = (Return self, w1)
    ∧ FastqAttributes.nreads self w1
      = (Return (Str.count newline (text_of example_record) `div` 4, self'),
         w2)
    ∧ ∀ w3, FastqAttributes.nreads self' w3
            = (Return (Str.count newline (text_of example_record) `div` 4,
                       self'), w3).
Proof.
  exact (attributes_nreads_cached (Some "reads.fastq") None
           (example_world example_record) (text_of example_record)
           eq_refl eq_refl).
Defined.

(** A count that fails is not kept: after the exception a second reading
    of the property reads the file object again, which is now at its end,
    and returns 0; when the object was given a file name its file object
    has been closed and the second reading raises [ValueError]. *)
Theorem attributes_nreads_retry fastq fp w text :
  input_text fastq fp w = Some text →
  Str.count newline text `mod` 4 ≠ 0 →
  ∃ self w1 w2,
    FastqAttributes.__init__ fastq fp w = (Return self, w1)
    ∧ FastqAttributes.nreads self w1
      = (Raise (Exception_ "Bad read count (not fastq file, or corrupted?)"), w2)
    ∧ (FastqAttributes.nreads self w2).1
      = if bool_decide (fastq = None)
        then Return (0, FastqAttributes.mk fastq (FastqAttributes.__fp self)
                          (Some 0))
        else Raise ValueError.
Proof.
  intros Hin Hmod.
  destruct (init_attributes fastq fp w text Hin)
    as (self & w1 & Hinit & Hf & Hname & Hcache).
  destruct (nreads_handle_world (FastqAttributes.__fastq_file self)
              (FastqAttributes.__fp self) w1 _ Hf eq_refl)
    as (w2 & Hcount & Hf2 & _).
  unfold read_count in Hcount. simpl in Hcount.
  rewrite bool_decide_eq_false_2 in Hcount by done.
  exists self, w1, w2. split; [done|]. split.
  - unfold FastqAttributes.nreads. rewrite Hcache.
    erewrite IO_bind_raise; [|exact Hcount]. reflexivity.
  - unfold FastqAttributes.nreads. rewrite Hcache, Hname in *.
    destruct (decide (fastq = None)) as [Hnone|Hsome].
    + rewrite bool_decide_eq_false_2 in Hf2 by (by intros ?).
      rewrite bool_decide_eq_true_2 by done.
      destruct (nreads_handle_world fastq (FastqAttributes.__fp self) w2 _
                  Hf2 eq_refl) as (w3 & Hagain & _).
      erewrite IO_bind_return; [|exact Hagain]. by subst fastq.
    + rewrite bool_decide_eq_true_2 in Hf2 by done.
      rewrite bool_decide_eq_false_2 by done.
      erewrite IO_bind_raise; [done|].
      unfold nreads. erewrite IO_bind_return; [|reflexivity].
      erewrite IO_bind_raise; [done|].
      unfold read, on_open. by rewrite Hf2.
Qed.

Lemma attributes_nreads_retry_witness :
  ∃ self w1 w2,
    FastqAttributes.__init__ None (Some 7%nat)
      (example_world ["@r1"; "ACGT"; "+"]) = (Return self, w1)
    ∧ FastqAttributes.nreads self w1
      = (Raise (Exception_ "Bad read count (not fastq file, or corrupted?)"),
         w2)
    ∧ (FastqAttributes.nreads self w2).1
      = if bool_decide (@None string = None)
        then Return (0, FastqAttributes.mk None (FastqAttributes.__fp self)
                          (Some 0))
        else Raise ValueError.
Proof.
  apply (attributes_nreads_retry None (Some 7%nat)
           (example_world ["@r1"; "ACGT"; "+"]) (text_of ["@r1"; "ACGT"; "+"])).
  - reflexivity.
  - intros H. vm_compute in H. discriminate H.
Defined.

(** *** Counting and iterating *)

Lemma length_lines (s : string) :
  Z.of_nat (length (lines s))
  = Str.count newline s + (if open_ended s then 1 else 0).
Proof.
  induction s as [|c s IH]; [done|].
  cbn [lines Str.count]. destruct s as [|d s].
  - simpl. case_decide; by case_bool_decide.
  - change (open_ended (String c (String d s))) with (open_ended (String d s)).
    case_decide.
    + rewrite length_cons, Nat2Z.inj_succ, IH. lia.
    + rewrite (lines_cut_line (String d s)) in IH |- * by done.
      rewrite !length_cons in *. lia.
Qed.

Lemma length_group4 (ls : list string) :
  length (group4 ls) = (length ls / 4)%nat.
Proof.
  revert ls. fix IH 1. intros [|l1 [|l2 [|l3 [|l4 rest]]]]; try reflexivity.
  cbn [group4 length]. rewrite IH.
  change (S (S (S (S (length rest))))) with (1 * 4 + length rest)%nat.
  by rewrite Nat.div_add_l.
Qed.

Lemma nreads_result fastq fp w text :
  input_text fastq fp w = Some text →
  (nreads fastq fp w).1 = read_count (Str.count newline text).
Proof.
  unfold input_text. destruct fp as [h|].
  - destruct (objs w !! h) as [f|] eqn:Hf; [|done]. simpl.
    destruct (File.closed f) eqn:Hc; [done|]. intros [= <-].
    destruct (nreads_handle_world fastq h w f Hf Hc) as (w' & -> & _). done.
  - destruct fastq as [path|]; [|done]. simpl. intros Hpath.
    set (h := fresh (dom (objs w))).
    destruct (nreads_handle_world (Some path) h
                (set_obj h (File.mk text false) w) (File.mk text false)
                (lookup_set_obj _ _ _) eq_refl) as (w' & Hcount & _).
    unfold nreads in *. erewrite IO_bind_return in Hcount; [|reflexivity].
    erewrite IO_bind_return; [|unfold open; by rewrite Hpath].
    fold h. by rewrite Hcount.
Qed.

(** On a text that is empty or ends with a line feed, a number returned by
    [nreads] is the number of records that iterating over the text
    yields. *)
Theorem nreads_is_number_of_records fastq fp w text k :
  input_text fastq fp w = Some text →
  open_ended text = false →
  (nreads fastq fp w).1 = Return k →
  k = Z.of_nat (length (records text)).
Proof.
  intros Hin Hend. rewrite (nreads_result fastq fp w text Hin).
  unfold read_count. case_bool_decide as Hmod; [|done]. intros [= <-].
  unfold records. rewrite length_group4.
  pose proof (length_lines text) as Hlen. rewrite Hend, Z.add_0_r in Hlen.
  rewrite Nat2Z.inj_div. by rewrite Hlen.
Qed.

Lemma nreads_is_number_of_records_witness :
  1 = Z.of_nat (length (records (text_of example_record))).
Proof.
  apply (nreads_is_number_of_records (Some "reads.fastq") None
           (example_world example_record) (text_of example_record) 1).
  - reflexivity.
  - reflexivity.
  - vm_compute. reflexivity.
Defined.

End counting.

(** * analyse_solid_run.py: names of analysis files *)

Section substrings.
Import Substr.

Implicit Types (s sub a b : string) (i j k : nat).

Lemma app_nil_r_str s : (s ++ "")%string = s.
Proof.
  induction s as [|c s IH]; [done|].
  change (String c (s ++ "") = String c s). by rewrite IH.
Qed.

Lemma length_app_str a b :
  String.length (a ++ b) = (String.length a + String.length b)%nat.
Proof.
  induction a as [|c a IH]; [done|].
  change (S (String.length (a ++ b)) = S (String.length a + String.length b)).
  by rewrite IH.
Qed.

Lemma upto_from k s : (upto k s ++ from k s)%string = s.
Proof.
  revert s. induction k as [|k IH]; intros [|c s]; try done.
  change (String c (upto k s ++ from k s) = String c s). by rewrite IH.
Qed.

Lemma length_from k s : String.length (from k s) = (String.length s - k)%nat.
Proof.
  revert s. induction k as [|k IH]; intros [|c s]; simpl; try done; lia.
Qed.

Lemma length_upto k s :
  (k ≤ String.length s)%nat → String.length (upto k s) = k.
Proof.
  revert s. induction k as [|k IH]; intros [|c s] Hk; simpl in *; try done.
  - lia.
  - rewrite IH; lia.
Qed.

Lemma from_app a b : from (String.length a) (a ++ b) = b.
Proof. induction a as [|c a IH]; [by destruct b | exact IH]. Qed.

Lemma from_from k j s : from k (from j s) = from (j + k) s.
Proof.
  revert s. induction j as [|j IH]; intros s; [done|].
  destruct s as [|c s]; simpl; [by destruct k | apply IH].
Qed.

Lemma startswith_prefix s sub :
  Str.startswith s sub = true ↔ ∃ b, s = (sub ++ b)%string.
Proof.
  revert s. induction sub as [|c sub IH]; intros s.
  - split; [intros _; by exists s | intros _; by destruct s].
  - destruct s as [|d s]; simpl.
    + split; [done | by intros [b ?]].
    + case_decide as Hcd.
      * subst d. rewrite IH. split; intros [b Hb]; exists b.
        -- by rewrite Hb.
        -- by injection Hb.
      * split; [done|]. intros [b Hb]. injection Hb as -> _. done.
Qed.

Lemma rfind_from_some i s sub j :
  rfind_from i s sub = Some j →
  ∃ k, j = (i + k)%nat ∧ (k ≤ String.length s)%nat
       ∧ Str.startswith (from k s) sub = true.
Proof.
  revert i. induction s as [|c s IH]; intros i; cbn [rfind_from].
  - case_bool_decide as Hsub; [|done]. intros [= <-]. exists 0%nat.
    subst sub. repeat split; [lia | done].
  - destruct (rfind_from (S i) s sub) as [j'|] eqn:Hrec.
    + intros [= <-]. destruct (IH _ Hrec) as (k & -> & Hk & Hpre).
      exists (S k). repeat split; [lia | simpl; lia | exact Hpre].
    + destruct (Str.startswith (String c s) sub) eqn:Hpre; [|done].
      intros [= <-]. exists 0%nat. repeat split; [lia | simpl; lia | exact Hpre].
Qed.

Lemma rfind_from_none i s sub :
  rfind_from i s sub = None →
  ∀ k, (k ≤ String.length s)%nat → Str.startswith (from k s) sub = false.
Proof.
  revert i. induction s as [|c s IH]; intros i; cbn [rfind_from].
  - case_bool_decide as Hsub; [done|]. intros _ k Hk. simpl in Hk.
    assert (k = 0%nat) as -> by lia. simpl. by destruct sub.
  - destruct (rfind_from (S i) s sub) as [j'|] eqn:Hrec; [done|].
    destruct (Str.startswith (String c s) sub) eqn:Hpre; [done|].
    intros _ [|k] Hk; [done|]. simpl in *. apply (IH _ Hrec). lia.
Qed.

(** [rindex] fails exactly on a string in which [sub] does not occur. *)
Lemma rindex_none s sub : rindex s sub = None ↔ ¬ occurs sub s.
Proof.
  unfold rindex, occurs. split.
  - intros Hnone (a & b & ->).
    pose proof (rfind_from_none 0 _ _ Hnone (String.length a)) as H.
    rewrite from_app in H. rewrite length_app_str in H.
    specialize (H ltac:(lia)).
    assert (Str.startswith (sub ++ b) sub = true) as Ht
      by (apply startswith_prefix; by exists b).
    congruence.
  - intros Hno. destruct (rfind_from 0 s sub) as [j|] eqn:Hj; [|done].
    destruct (rfind_from_some _ _ _ _ Hj) as (k & _ & Hk & [b Hb]%startswith_prefix).
    destruct Hno. exists (upto k s), b. by rewrite <- Hb, upto_from.
Qed.

(** The string after one round of the loop with an empty replacement. *)
Lemma rindex_cut s sub i :
  rindex s sub = Some i →
  String.length (upto i s ++ "" ++ from (i + String.length sub) s)
  = (String.length s - String.length sub)%nat
  ∧ (String.length sub ≤ String.length s)%nat.
Proof.
  unfold rindex. intros (k & -> & Hk & [b Hb]%startswith_prefix)%rfind_from_some.
  simpl. change ("" ++ ?x)%string with x.
  assert (String.length (from k s) = String.length sub + String.length b)%nat
    as Hlen by by rewrite Hb, length_app_str.
  rewrite length_from in Hlen.
  rewrite length_app_str, length_upto, length_from by done. lia.
Qed.

(** *** [replace_string] *)

Lemma replace_loop_ends sub :
  sub ≠ EmptyString →
  ∀ fuel s,
    (String.length s < fuel)%nat →
    ∃ r, replace_loop fuel s sub "" = Some r
         ∧ ¬ occurs sub r
         ∧ (String.length r ≤ String.length s)%nat
         ∧ (¬ occurs sub s → r = s).
Proof.
  intros Hsub. induction fuel as [|fuel IH]; intros s Hfuel; [lia|].
  simpl. destruct (rindex s sub) as [i|] eqn:Hi.
  - destruct (rindex_cut s sub i Hi) as [Hlen Hle].
    assert (0 < String.length sub)%nat as Hpos by (destruct sub; simpl; [done|lia]).
    destruct (IH (upto i s ++ "" ++ from (i + String.length sub) s)%string)
      as (r & Hr & Hno & Hlr & _); [lia|].
    exists r. split; [done|]. split; [done|]. split; [lia|].
    intros Hnone%rindex_none. congruence.
  - exists s. split; [done|]. split; [by apply rindex_none|]. by split.
Qed.

Lemma replace_loop_more fuel :
  ∀ fuel' s sub with_str r,
    replace_loop fuel s sub with_str = Some r → (fuel ≤ fuel')%nat →
    replace_loop fuel' s sub with_str = Some r.
Proof.
  induction fuel as [|fuel IH]; intros fuel' s sub with_str r; [done|].
  destruct fuel' as [|fuel']; [lia|]. simpl.
  destruct (rindex s sub); [|done]. intros Hr Hle. apply IH; [done | lia].
Qed.

(** With a non-empty substring and the default empty replacement,
    [replace_string] returns, after at most [len(s)] replacements, a string
    in which the substring does not occur; a string without the substring
    is returned as it is. *)
Theorem replace_string_removes_all s sub :
  sub ≠ EmptyString →
  ∃ r, (∀ fuel, (String.length s < fuel)%nat →
                replace_string fuel s sub "" = Some r)
       ∧ ¬ occurs sub r
       ∧ (String.length r ≤ String.length s)%nat
       ∧ (¬ occurs sub s → r = s).
Proof.
  intros Hsub.
  destruct (replace_loop_ends sub Hsub (S (String.length s)) s)
    as (r & Hr & Hno & Hlen & Hsame); [lia|].
  exists r. split; [|done]. intros fuel Hfuel.
  apply (replace_loop_more (S (String.length s))); [done | lia].
Qed.

Lemma replace_string_removes_all_witness :
  ∃ r, (∀ fuel, (String.length "BC_AB_CD_F3_AB_CD_x.csfasta" < fuel)%nat →
                replace_string fuel "BC_AB_CD_F3_AB_CD_x.csfasta" "AB_CD_" ""
                = Some r)
       ∧ ¬ occurs "AB_CD_" r
       ∧ (String.length r ≤ String.length "BC_AB_CD_F3_AB_CD_x.csfasta")%nat
       ∧ (¬ occurs "AB_CD_" "BC_AB_CD_F3_AB_CD_x.csfasta"
          → r = "BC_AB_CD_F3_AB_CD_x.csfasta").
Proof.
  apply (replace_string_removes_all "BC_AB_CD_F3_AB_CD_x.csfasta" "AB_CD_").
  intros H. discriminate H.
Defined.

Lemma occurs_middle sub a w b : occurs sub w → occurs sub (a ++ w ++ b).
Proof.
  intros (x & y & ->). exists (a ++ x)%string, (y ++ b)%string.
  by rewrite <- !append_assoc.
Qed.

(** When the substring occurs in the string and in the replacement (as the
    empty substring always does), the loop of [replace_string] never ends:
    no number of rounds gives a result. *)
Theorem replace_string_never_returns s sub with_str fuel :
  occurs sub s → occurs sub with_str →
  replace_string fuel s sub with_str = None.
Proof.
  intros Hs Hw. unfold replace_string. revert s Hs.
  induction fuel as [|fuel IH]; intros s Hs; [done|]. simpl.
  destruct (rindex s sub) as [i|] eqn:Hi.
  - apply IH. by apply occurs_middle.
  - by apply rindex_none in Hi.
Qed.

Lemma replace_string_never_returns_witness :
  replace_string 100 "solid.csfasta" "" "" = None.
Proof.
  apply (replace_string_never_returns "solid.csfasta" "" "" 100).
  - exists EmptyString, "solid.csfasta". reflexivity.
  - exists EmptyString, EmptyString. reflexivity.
Defined.

(** *** The highest index of a substring *)

Lemma rfind_from_max i s sub j :
  rfind_from i s sub = Some j →
  ∀ k, (k ≤ String.length s)%nat → Str.startswith (from k s) sub = true →
       (i + k ≤ j)%nat.
Proof.
  revert i. induction s as [|c s IH]; intros i; cbn [rfind_from].
  - case_bool_decide; [|done]. intros [= <-] k Hk _. simpl in Hk. lia.
  - destruct (rfind_from (S i) s sub) as [j'|] eqn:Hrec.
    + intros [= <-] [|k] Hk Hpre.
      * apply rfind_from_some in Hrec as (k' & -> & _). lia.
      * simpl in Hk, Hpre. specialize (IH _ Hrec k ltac:(lia) Hpre). lia.
    + destruct (Str.startswith (String c s) sub) eqn:Hhere; [|done].
      intros [= <-] [|k] Hk Hpre; [lia|].
      simpl in Hk, Hpre.
      rewrite (rfind_from_none _ _ _ Hrec k) in Hpre; [done | lia].
Qed.

Lemma mem_index c e :
  Str.mem c e = true →
  ∃ m, (m < String.length e)%nat
       ∧ Str.startswith (from m e) (String c "") = true.
Proof.
  induction e as [|a e IH]; [done|]. simpl. case_decide as Hac.
  - intros _. exists 0%nat. split; [lia|]. subst a.
    apply startswith_prefix. by exists e.
  - intros (m & Hm & Hpre)%IH. exists (S m). split; [lia | done].
Qed.

(** *** Deleting the last occurrence *)

Lemma app_inj_length a :
  ∀ a' x x', (a ++ x)%string = (a' ++ x')%string →
             String.length a = String.length a' → a = a' ∧ x = x'.
Proof.
  induction a as [|c a IH]; intros [|c' a'] x x' Heq Hlen; try done.
  change (String c (a ++ x) = String c' (a' ++ x')) in Heq.
  injection Heq as -> Heq. simpl in Hlen.
  destruct (IH a' x x' Heq) as [-> ->]; [lia | done].
Qed.

Lemma app_inv_head_str a x x' : (a ++ x)%string = (a ++ x')%string → x = x'.
Proof. intros H. by destruct (app_inj_length a a x x' H). Qed.

Lemma rindex_last s sub i :
  rindex s sub = Some i →
  ∃ a b, s = (a ++ sub ++ b)%string
         ∧ a = upto i s ∧ b = from (i + String.length sub) s
         ∧ ∀ a' b', s = (a' ++ sub ++ b')%string →
                    (String.length a' ≤ String.length a)%nat.
Proof.
  unfold rindex. intros Hi.
  pose proof (rfind_from_some _ _ _ _ Hi)
    as (k & Hk & Hle & [b Hb]%startswith_prefix).
  simpl in Hk. subst k.
  exists (upto i s), b. split; [by rewrite <- Hb, upto_from|].
  split; [done|]. split.
  - by rewrite <- from_from, Hb, from_app.
  - intros a' b' Hs. rewrite length_upto by done.
    assert (Str.startswith (from (String.length a') s) sub = true) as Hpre.
    { rewrite Hs. rewrite from_app. apply startswith_prefix. by exists b'. }
    assert (String.length a' ≤ String.length s)%nat as Hlen.
    { rewrite Hs. rewrite length_app_str. lia. }
    pose proof (rfind_from_max _ _ _ _ Hi _ Hlen Hpre). lia.
Qed.

Lemma replace_loop_deleted sub :
  ∀ fuel s r, replace_loop fuel s sub "" = Some r → deleted sub s r.
Proof.
  induction fuel as [|fuel IH]; intros s r; [done|]. simpl.
  destruct (rindex s sub) as [i|] eqn:Hi.
  - destruct (rindex_last s sub i Hi) as (a & b & Hs & <- & <- & Hmax).
    change ("" ++ b)%string with b. intros Hr%IH.
    rewrite Hs. apply deleted_last; [|done].
    intros a' b' Heq. apply (Hmax a' b'). by rewrite Hs.
  - intros [= <-]. apply deleted_none. by apply rindex_none.
Qed.

Lemma deleted_unique sub s r1 r2 :
  deleted sub s r1 → deleted sub s r2 → r1 = r2.
Proof.
  intros H1. revert r2.
  induction H1 as [s Hno|a b r1 Hmax H1 IH]; intros r2 H2.
  - inversion H2 as [|a2 b2 r2' Hmax2 H2' Heq]; [done|].
    destruct Hno. by exists a2, b2.
  - inversion H2 as [s' Hno|a2 b2 r2' Hmax2 H2' Heq]; subst.
    + destruct Hno. by exists a, b.
    + pose proof (Hmax a2 b2 (eq_sym Heq)).
      pose proof (Hmax2 a b Heq).
      destruct (app_inj_length a2 a _ _ Heq) as [-> Hb]; [lia|].
      apply app_inv_head_str in Hb as ->. by apply IH.
Qed.

(** *** [os.path.splitext] *)

Lemma get_from j : ∀ p,
  String.get j p
  = match from j p with String c _ => Some c | EmptyString => None end.
Proof. induction j as [|j IH]; intros [|c p]; simpl; auto. Qed.

Lemma from_app_le m :
  ∀ a x, (m ≤ String.length a)%nat → from m (a ++ x) = (from m a ++ x)%string.
Proof.
  induction m as [|m IH]; intros [|c a] x Hm; simpl in Hm; try done; try lia.
  change (from m (a ++ x) = (from m a ++ x)%string). apply IH. lia.
Qed.

Lemma upto_split j :
  ∀ k p, (j ≤ k)%nat →
         upto k p = (upto j p ++ upto (k - j) (from j p))%string.
Proof.
  induction j as [|j IH]; intros k p Hjk.
  - by rewrite Nat.sub_0_r.
  - destruct k as [|k]; [lia|]. destruct p as [|c p]; simpl.
    + by destruct (k - j)%nat.
    + change (String c (upto k p)
              = String c (upto j p ++ upto (k - j) (from j p))).
      f_equal. apply IH. lia.
Qed.

Lemma length_upto_le k : ∀ s, (String.length (upto k s) ≤ k)%nat.
Proof.
  induction k as [|k IH]; intros [|c s]; simpl; try lia.
  specialize (IH s). lia.
Qed.

Lemma startswith_mem c e m :
  Str.startswith (from m e) (String c "") = true → Str.mem c e = true.
Proof.
  intros [b Hb]%startswith_prefix. rewrite app_one in Hb.
  rewrite <- (upto_from m e), Hb, mem_app. simpl.
  rewrite decide_True by done. apply orb_true_r.
Qed.

(** The last occurrence of a character is where no later one follows. *)
Lemma rfind_from_char p c root e :
  p = (root ++ String c e)%string → Str.mem c e = false →
  rfind_from 0 p (String c "") = Some (String.length root).
Proof.
  intros Hp He.
  assert (Str.startswith (from (String.length root) p) (String c "") = true)
    as Hpre.
  { rewrite Hp, from_app. apply startswith_prefix. by exists e. }
  assert (String.length root ≤ String.length p)%nat as Hlen
    by (rewrite Hp, length_app_str; lia).
  destruct (rfind_from 0 p (String c "")) as [k|] eqn:Hk.
  - pose proof (rfind_from_max _ _ _ _ Hk _ Hlen Hpre) as Hmax.
    pose proof (rfind_from_some _ _ _ _ Hk) as (k' & -> & _ & Hat).
    simpl in *.
    destruct (decide (k' = String.length root)) as [->|Hne]; [done|].
    replace k' with (String.length root + S (k' - String.length root - 1))%nat
      in Hat by lia.
    rewrite <- from_from, Hp, from_app in Hat. simpl in Hat.
    apply startswith_mem in Hat. congruence.
  - by rewrite (rfind_from_none _ _ _ Hk _ Hlen) in Hpre.
Qed.

(** A character that does not occur from some point on has its last
    occurrence before that point. *)
Lemma rfind_from_before p c a x k :
  p = (a ++ x)%string → Str.mem c x = false →
  rfind_from 0 p (String c "") = Some k → (k < String.length a)%nat.
Proof.
  intros Hp Hx Hk.
  pose proof (rfind_from_some _ _ _ _ Hk) as (k' & -> & _ & Hat).
  simpl. destruct (decide (k' < String.length a)%nat) as [?|Hge]; [done|].
  replace k' with (String.length a + (k' - String.length a))%nat in Hat by lia.
  rewrite <- from_from, Hp, from_app in Hat.
  apply startswith_mem in Hat. congruence.
Qed.

Lemma splitext_scan_true p n :
  ∀ i d, splitext_scan p n i d = true →
         ∃ j, (i ≤ j < d)%nat ∧ at_ p j ≠ Some "."%char.
Proof.
  induction n as [|n IH]; intros i d; simpl; [done|].
  case_bool_decide as Hlt; [|done].
  case_bool_decide as Hdot.
  - intros _. exists i. split; [lia | done].
  - intros (j & Hj & Hne)%IH. exists j. split; [lia | done].
Qed.

Lemma splitext_scan_found p n :
  ∀ i d j, (i ≤ j < d)%nat → (d - i ≤ n)%nat → at_ p j ≠ Some "."%char →
           splitext_scan p n i d = true.
Proof.
  induction n as [|n IH]; intros i d j Hj Hn Hne; simpl; [lia|].
  rewrite bool_decide_eq_true_2 by lia.
  case_bool_decide as Hdot; [done|].
  apply (IH (S i) d j); [|lia|done].
  destruct (decide (i = j)) as [->|?]; [|lia].
  destruct Hdot. done.
Qed.

Lemma mem_dot_slash e : Str.mem "/" (String "." e) = Str.mem "/" e.
Proof. reflexivity. Qed.

(** [splitext] splits a path at its extension. *)
Lemma splitext_extension p : extension_of p (splitext p).1 (splitext p).2.
Proof.
  unfold splitext, rfind.
  destruct (rfind_from 0 p ".") as [k|] eqn:Hdot; cycle 1.
  { rewrite (bool_decide_eq_false_2 (-1 > _))
      by (destruct (rfind_from 0 p "/"); lia).
    simpl. split; [by rewrite app_nil_r_str|]. right. split; [done|].
    intros root' e Hp He _ _.
    by rewrite (rfind_from_char p "." root' e Hp He) in Hdot. }
  rewrite Nat2Z.id.
  destruct (bool_decide _ && _) eqn:Hcond; simpl.
  - apply andb_true_iff in Hcond as [Hgt%bool_decide_eq_true Hscan].
    split; [by rewrite upto_from|]. left.
    pose proof (rfind_from_some _ _ _ _ Hdot)
      as (k' & Hk' & Hk & [e He]%startswith_prefix).
    simpl in Hk'. subst k'. rewrite app_one in He. exists e. split; [done|].
    assert (String.length p - k = S (String.length e))%nat as Hlen
      by (by rewrite <- length_from, He).
    assert (∀ m, from m e = from (k + S m) p) as Hfrom
      by (intros m; by rewrite <- from_from, He).
    split; [|split].
    + destruct (Str.mem "." e) eqn:Hmem; [|done].
      apply mem_index in Hmem as (m & Hm & Hpre). rewrite Hfrom in Hpre.
      pose proof (rfind_from_max _ _ _ _ Hdot (k + S m)%nat ltac:(lia) Hpre).
      lia.
    + destruct (Str.mem "/" e) eqn:Hmem; [|done].
      apply mem_index in Hmem as (m & Hm & Hpre). rewrite Hfrom in Hpre.
      destruct (rfind_from 0 p "/") as [j|] eqn:Hsep.
      * pose proof (rfind_from_max _ _ _ _ Hsep (k + S m)%nat ltac:(lia) Hpre).
        lia.
      * rewrite (rfind_from_none _ _ _ Hsep (k + S m)%nat) in Hpre;
          [done | lia].
    + apply splitext_scan_true in Hscan as (j & [Hij Hjk] & Hne).
      unfold at_ in Hne. rewrite get_from in Hne.
      destruct (from j p) as [|c b0] eqn:Hfj.
      { pose proof (length_from j p) as Hl. rewrite Hfj in Hl.
        simpl in Hl. lia. }
      assert (c ≠ "."%char) as Hc by congruence.
      exists (upto j p), c, (upto (k - j - 1) b0).
      split; [|split; [done|]].
      { rewrite (upto_split j k p) by lia. rewrite Hfj.
        destruct (k - j)%nat as [|n] eqn:Hkj; [lia|].
        simpl. by rewrite Nat.sub_0_r. }
      destruct (Str.mem "/" (String c (upto (k - j - 1) b0))) eqn:Hmem;
        [|done].
      apply mem_index in Hmem as (m & Hm & [y Hy]%startswith_prefix).
      pose proof (length_upto_le (k - j - 1) b0) as Hup. simpl in Hm.
      assert (Str.startswith (from (j + m) p) "/" = true) as Hpre.
      { rewrite <- from_from, Hfj.
        rewrite <- (upto_from (k - j - 1) b0).
        change (String c (?u ++ ?v))%string with (String c u ++ v)%string.
        rewrite from_app_le by (simpl; lia). rewrite Hy.
        apply startswith_prefix. exists (y ++ from (k - j - 1) b0)%string.
        by rewrite append_assoc. }
      destruct (rfind_from 0 p "/") as [s|] eqn:Hsep.
      * pose proof (rfind_from_max _ _ _ _ Hsep (j + m)%nat ltac:(lia) Hpre).
        lia.
      * rewrite (rfind_from_none _ _ _ Hsep (j + m)%nat) in Hpre;
          [done | lia].
  - split; [by rewrite app_nil_r_str|]. right. split; [done|].
    intros root' e Hp He Hsl (a & c & b & Hroot & Hc & Hmem).
    rewrite (rfind_from_char p "." root' e Hp He) in Hdot.
    injection Hdot as <-.
    assert (String.length root' = String.length a + S (String.length b))%nat
      as Hlen by (by rewrite Hroot, length_app_str).
    assert (p = a ++ (String c b ++ String "." e))%string as Hp'
      by (by rewrite Hp, Hroot, <- append_assoc).
    assert (Str.mem "/" (String c b ++ String "." e) = false) as Hno
      by (by rewrite mem_app, Hmem, mem_dot_slash, Hsl).
    assert (at_ p (String.length a) ≠ Some "."%char) as Hat.
    { unfold at_. rewrite get_from, Hp', from_app.
      change (String c b ++ ?x)%string with (String c (b ++ x)). congruence. }
    rewrite andb_false_iff in Hcond.
    destruct (rfind_from 0 p "/") as [s|] eqn:Hsep.
    + pose proof (rfind_from_before p "/" a _ s Hp' Hno Hsep) as Hs.
      destruct Hcond as [Hgt%bool_decide_eq_false|Hscan]; [lia|].
      rewrite (splitext_scan_found p _ _ _ (String.length a)) in Hscan;
        [done|lia|lia|done].
    + destruct Hcond as [Hgt%bool_decide_eq_false|Hscan]; [lia|].
      rewrite (splitext_scan_found p _ _ _ (String.length a)) in Hscan;
        [done|simpl; lia|lia|done].
Qed.

Lemma last_dot_unique a :
  ∀ a' e e', (a ++ String "." e)%string = (a' ++ String "." e')%string →
             Str.mem "." e = false → Str.mem "." e' = false →
             a = a' ∧ e = e'.
Proof.
  intros a' e e' Heq He He'.
  pose proof (rfind_from_char _ "." a e eq_refl He) as H1.
  pose proof (rfind_from_char _ "." a' e' Heq He') as H2.
  rewrite H1 in H2. injection H2 as Hlen.
  destruct (app_inj_length a a' _ _ Heq Hlen) as [-> [= ->]]. done.
Qed.

(** A path has one split at its extension. *)
Lemma extension_of_unique p root1 ext1 root2 ext2 :
  extension_of p root1 ext1 → extension_of p root2 ext2 →
  root1 = root2 ∧ ext1 = ext2.
Proof.
  intros [Hp1 H1] [Hp2 H2].
  destruct H1 as [(e1 & -> & Hd1 & Hs1 & Hn1)|[-> Hnone1]],
           H2 as [(e2 & -> & Hd2 & Hs2 & Hn2)|[-> Hnone2]].
  - rewrite Hp1 in Hp2.
    destruct (last_dot_unique _ _ _ _ Hp2 Hd1 Hd2) as [-> ->]. done.
  - by destruct (Hnone2 root1 e1 Hp1 Hd1 Hs1).
  - by destruct (Hnone1 root2 e2 Hp2 Hd2 Hs2).
  - rewrite app_nil_r_str in Hp1, Hp2. by subst.
Qed.

(** *** [SolidExperiment.getAnalysisFileName] *)

Lemma startswith_occurs s sub : Str.startswith s sub = true → occurs sub s.
Proof. intros [b ->]%startswith_prefix. by exists EmptyString, b. Qed.

Lemma find_from_some i s sub j : find_from i s sub = Some j → occurs sub s.
Proof.
  revert i. induction s as [|c s IH]; intros i; cbn [find_from];
    destruct (Str.startswith _ sub) eqn:Hpre;
    try (intros _; by apply startswith_occurs); [done|].
  intros (a & b & ->)%IH. by exists (String c a), b.
Qed.

Lemma find_from_none i s sub : find_from i s sub = None → ¬ occurs sub s.
Proof.
  intros Hnone (a & b & ->). revert i Hnone.
  induction a as [|c a IH]; intros i.
  - change ("" ++ ?x)%string with x.
    destruct (sub ++ b)%string eqn:Hsb; cbn [find_from]; rewrite <- ?Hsb;
      assert (Str.startswith (sub ++ b) sub = true) as ->
        by (apply startswith_prefix; by exists b); done.
  - change (String c a ++ ?x)%string with (String c (a ++ x)).
    cbn [find_from]. destruct (Str.startswith _ sub); [done | apply IH].
Qed.

Lemma find_occurs s sub : find s sub > -1 ↔ occurs sub s.
Proof.
  unfold find. destruct (find_from 0 s sub) as [j|] eqn:Hj.
  - split; [intros _; by eapply find_from_some | lia].
  - split; [lia | intros Hocc; by apply find_from_none in Hj].
Qed.

Lemma sample_prefix_nonempty sample : (sample ++ "_")%string ≠ EmptyString.
Proof. by destruct sample. Qed.

(** For a sample name without ["_rpt"], [getAnalysisFileName] returns the
    file name from which the occurrences of [<sample>_] have been deleted,
    the last one first, until none is left: that result is the only one,
    holds no occurrence of [<sample>_], and is the file name itself when
    there is none to delete. *)
Theorem getAnalysisFileName_removes_sample filen sample_name :
  ¬ occurs "_rpt" sample_name →
  ∃ r, (∀ fuel, (String.length filen < fuel)%nat →
                SolidExperiment.getAnalysisFileName fuel filen sample_name
                = Some r)
       ∧ deleted (sample_name ++ "_") filen r
       ∧ (∀ r', deleted (sample_name ++ "_") filen r' → r' = r)
       ∧ ¬ occurs (sample_name ++ "_") r
       ∧ (¬ occurs (sample_name ++ "_") filen → r = filen).
Proof.
  intros Hrpt.
  destruct (replace_loop_ends _ (sample_prefix_nonempty sample_name)
              (S (String.length filen)) filen)
    as (r & Hr & Hno & _ & Hsame); [lia|].
  pose proof (replace_loop_deleted _ _ _ _ Hr) as Hdel.
  exists r. split; [|split; [done|split; [|done]]].
  - intros fuel Hfuel.
    unfold SolidExperiment.getAnalysisFileName, replace_string.
    rewrite (replace_loop_more _ fuel _ _ _ _ Hr) by lia. simpl.
    rewrite bool_decide_eq_false_2; [done|]. by rewrite find_occurs.
  - intros r' Hr'. by eapply deleted_unique.
Qed.

Lemma getAnalysisFileName_removes_sample_witness :
  ∃ r, (∀ fuel,
          (String.length "solid0127_FRAG_BC_AB_CD_F3_CD_PQ5.csfasta" < fuel)%nat →
          SolidExperiment.getAnalysisFileName fuel
            "solid0127_FRAG_BC_AB_CD_F3_CD_PQ5.csfasta" "AB_CD" = Some r)
       ∧ deleted ("AB_CD" ++ "_") "solid0127_FRAG_BC_AB_CD_F3_CD_PQ5.csfasta" r
       ∧ (∀ r', deleted ("AB_CD" ++ "_")
                  "solid0127_FRAG_BC_AB_CD_F3_CD_PQ5.csfasta" r' → r' = r)
       ∧ ¬ occurs ("AB_CD" ++ "_") r
       ∧ (¬ occurs ("AB_CD" ++ "_") "solid0127_FRAG_BC_AB_CD_F3_CD_PQ5.csfasta"
          → r = "solid0127_FRAG_BC_AB_CD_F3_CD_PQ5.csfasta").
Proof.
  apply (getAnalysisFileName_removes_sample
           "solid0127_FRAG_BC_AB_CD_F3_CD_PQ5.csfasta" "AB_CD").
  intros H. apply find_occurs in H. vm_compute in H. discriminate H.
Defined.

(** For a sample name that contains ["_rpt"], [getAnalysisFileName] deletes
    the occurrences of [<sample>_] from the file name as above and puts
    ["_rpt"] between the two parts of what is left at its extension: the
    extension starts at the last dot of the last path component, when a
    character other than a dot comes before it in that component, and is
    empty otherwise.  Both the cleaned name and its two parts are the only
    ones. *)
Theorem getAnalysisFileName_rpt filen sample_name :
  occurs "_rpt" sample_name →
  ∃ r root ext,
    (∀ fuel, (String.length filen < fuel)%nat →
             SolidExperiment.getAnalysisFileName fuel filen sample_name
             = Some (root ++ "_rpt" ++ ext)%string)
    ∧ deleted (sample_name ++ "_") filen r
    ∧ (∀ r', deleted (sample_name ++ "_") filen r' → r' = r)
    ∧ ¬ occurs (sample_name ++ "_") r
    ∧ (¬ occurs (sample_name ++ "_") filen → r = filen)
    ∧ extension_of r root ext
    ∧ (∀ root' ext', extension_of r root' ext' → root' = root ∧ ext' = ext).
Proof.
  intros Hrpt.
  destruct (replace_loop_ends _ (sample_prefix_nonempty sample_name)
              (S (String.length filen)) filen)
    as (r & Hr & Hno & _ & Hsame); [lia|].
  pose proof (replace_loop_deleted _ _ _ _ Hr) as Hdel.
  pose proof (splitext_extension r) as Hext.
  exists r, (splitext r).1, (splitext r).2.
  split; [|split; [done|split; [|split; [done|split; [done|split; [done|]]]]]].
  - intros fuel Hfuel.
    unfold SolidExperiment.getAnalysisFileName, replace_string.
    rewrite (replace_loop_more _ fuel _ _ _ _ Hr) by lia. simpl.
    rewrite bool_decide_eq_true_2; [done|]. by rewrite find_occurs.
  - intros r' Hr'. by eapply deleted_unique.
  - intros root' ext' Hext'. by eapply extension_of_unique.
Qed.

Lemma getAnalysisFileName_rpt_witness :
  ∃ r root ext,
    (∀ fuel,
       (String.length "solid0127_FRAG_BC_AB_rpt_F3_CD_PQ5.csfasta" < fuel)%nat →
       SolidExperiment.getAnalysisFileName fuel
         "solid0127_FRAG_BC_AB_rpt_F3_CD_PQ5.csfasta" "AB_rpt"
       = Some (root ++ "_rpt" ++ ext)%string)
    ∧ deleted ("AB_rpt" ++ "_") "solid0127_FRAG_BC_AB_rpt_F3_CD_PQ5.csfasta" r
    ∧ (∀ r', deleted ("AB_rpt" ++ "_")
               "solid0127_FRAG_BC_AB_rpt_F3_CD_PQ5.csfasta" r' → r' = r)
    ∧ ¬ occurs ("AB_rpt" ++ "_") r
    ∧ (¬ occurs ("AB_rpt" ++ "_") "solid0127_FRAG_BC_AB_rpt_F3_CD_PQ5.csfasta"
       → r = "solid0127_FRAG_BC_AB_rpt_F3_CD_PQ5.csfasta")
    ∧ extension_of r root ext
    ∧ (∀ root' ext', extension_of r root' ext' → root' = root ∧ ext' = ext).
Proof.
  apply (getAnalysisFileName_rpt
           "solid0127_FRAG_BC_AB_rpt_F3_CD_PQ5.csfasta" "AB_rpt").
  exists "AB", EmptyString. reflexivity.
Defined.

End substrings.

(** * analyse_solid_run.py: experiments *)

Section experiments.

Import SolidExperiment.
#[local] Set Warnings "-clear-no-such-hyp".

(** ** The order of strings and [sort] *)

Lemma ascii_compare_cases a b :
  CompareSpec (a = b) (N_of_ascii a < N_of_ascii b)%N
    (N_of_ascii b < N_of_ascii a)%N (Ascii.compare a b).
Proof.
  unfold Ascii.compare.
  destruct (N.compare_spec (N_of_ascii a) (N_of_ascii b)) as [H|H|H];
    constructor; try done.
  by rewrite <- (ascii_N_embedding a), H, ascii_N_embedding.
Qed.

Lemma compare_not_gt_trans a :
  ∀ b c, String.compare a b ≠ Gt → String.compare b c ≠ Gt →
         String.compare a c ≠ Gt.
Proof.
  induction a as [|x a IH]; intros [|y b] [|z c]; simpl; try done.
  destruct (ascii_compare_cases x y), (ascii_compare_cases y z),
    (ascii_compare_cases x z); subst; try done; try lia; eauto.
Qed.

Lemma str_le_not_gt a b : str_le a b ↔ String.compare a b ≠ Gt.
Proof. unfold str_le, String.leb. by destruct (String.compare a b). Qed.

Lemma str_le_trans a b c : str_le a b → str_le b c → str_le a c.
Proof. rewrite !str_le_not_gt. apply compare_not_gt_trans. Qed.

Lemma str_le_total a b : str_le a b ∨ str_le b a.
Proof. apply String.leb_total. Qed.

Lemma insert_sorted_str_perm x l : insert_sorted_str x l ≡ₚ x :: l.
Proof.
  induction l as [|y l IH]; simpl; [done|].
  destruct (String.leb x y); [done|]. by rewrite IH, Permutation_swap.
Qed.

Lemma sort_str_perm l : sort_str l ≡ₚ l.
Proof.
  induction l as [|x l IH]; simpl; [done|].
  by rewrite insert_sorted_str_perm, IH.
Qed.

Lemma insert_sorted_str_sorted x l :
  StronglySorted str_le l → StronglySorted str_le (insert_sorted_str x l).
Proof.
  induction 1 as [|y l Hl IH Hy]; simpl; [by repeat constructor|].
  destruct (String.leb x y) eqn:Hxy.
  - constructor; [by constructor|]. constructor; [done|].
    eapply Forall_impl; [exact Hy|]. intros z Hz. by eapply str_le_trans.
  - constructor; [done|]. rewrite insert_sorted_str_perm.
    constructor; [|done].
    destruct (str_le_total x y) as [Hle|Hle]; [|done].
    unfold str_le in Hle. congruence.
Qed.

Lemma sort_str_sorted l : StronglySorted str_le (sort_str l).
Proof.
  induction l as [|x l IH]; simpl; [constructor|].
  by apply insert_sorted_str_sorted.
Qed.

Lemma sorted_same_members l1 :
  ∀ l2, StronglySorted str_le l1 → StronglySorted str_le l2 →
        NoDup l1 → NoDup l2 → (∀ x, x ∈ l1 ↔ x ∈ l2) → l1 = l2.
Proof.
  induction l1 as [|a l1 IH]; intros [|b l2] Hs1 Hs2 Hn1 Hn2 Hmem.
  - done.
  - specialize (Hmem b). rewrite elem_of_nil in Hmem.
    exfalso. apply Hmem. by left.
  - specialize (Hmem a). rewrite elem_of_nil in Hmem.
    exfalso. apply Hmem. by left.
  - apply StronglySorted_inv in Hs1 as [Hs1 Ha].
    apply StronglySorted_inv in Hs2 as [Hs2 Hb].
    apply NoDup_cons in Hn1 as [Ha1 Hn1].
    apply NoDup_cons in Hn2 as [Hb2 Hn2].
    rewrite Forall_forall in Ha, Hb.
    assert (a = b) as <-.
    { assert (a ∈ b :: l2) as Hab by (apply Hmem; by left).
      assert (b ∈ a :: l1) as Hba by (apply Hmem; by left).
      apply elem_of_cons in Hab as [?|Hab]; [done|].
      apply elem_of_cons in Hba as [?|Hba]; [done|].
      apply String.leb_antisym; [by apply Ha | by apply Hb]. }
    f_equal. apply IH; try done. intros x. specialize (Hmem x).
    rewrite !elem_of_cons in Hmem. split; intros Hx.
    + destruct (proj1 Hmem (or_intror Hx)) as [->|?]; done.
    + destruct (proj2 Hmem (or_intror Hx)) as [->|?]; done.
Qed.

(** ** [prefixes] *)

Lemma add_prefix_spec acc lib :
  NoDup acc →
  NoDup (add_prefix acc lib)
  ∧ ∀ x, x ∈ add_prefix acc lib ↔ x ∈ acc ∨ SolidLibrary.prefix lib = x.
Proof.
  intros Hacc. unfold add_prefix. case_bool_decide as Hin.
  - split; [done|]. intros x. split; [by left | intros [?| <-]; done].
  - split.
    + apply NoDup_app. split; [done|]. split; [|apply NoDup_singleton].
      intros x Hx ->%list_elem_of_singleton. done.
    + intros x. rewrite elem_of_app, list_elem_of_singleton. naive_solver.
Qed.

Lemma libraries_loop_spec libs :
  ∀ acc, NoDup acc →
    NoDup (foldl add_prefix acc libs)
    ∧ ∀ x, x ∈ foldl add_prefix acc libs
           ↔ x ∈ acc ∨ ∃ lib, lib ∈ libs ∧ SolidLibrary.prefix lib = x.
Proof.
  induction libs as [|lib libs IH]; intros acc Hacc; simpl.
  - split; [done|]. intros x. split; [by left|].
    intros [?|(lib & []%elem_of_nil & _)]; done.
  - destruct (add_prefix_spec acc lib Hacc) as [Hn Hm].
    destruct (IH _ Hn) as [Hn' Hm']. split; [done|]. intros x.
    rewrite Hm', Hm. setoid_rewrite elem_of_cons. naive_solver.
Qed.

Lemma projects_loop_spec ps :
  ∀ acc, NoDup acc →
    NoDup (foldl (λ prefixes project,
                    foldl add_prefix prefixes (SolidProject.libraries project))
             acc ps)
    ∧ ∀ x, x ∈ foldl (λ prefixes project,
                        foldl add_prefix prefixes
                          (SolidProject.libraries project)) acc ps
           ↔ x ∈ acc
             ∨ ∃ p lib, p ∈ ps ∧ lib ∈ SolidProject.libraries p
                        ∧ SolidLibrary.prefix lib = x.
Proof.
  induction ps as [|p ps IH]; intros acc Hacc; simpl.
  - split; [done|]. intros x. split; [by left|].
    intros [?|(p & lib & []%elem_of_nil & _)]; done.
  - destruct (libraries_loop_spec (SolidProject.libraries p) acc Hacc)
      as [Hn Hm].
    destruct (IH _ Hn) as [Hn' Hm']. split; [done|]. intros x.
    rewrite Hm', Hm. setoid_rewrite elem_of_cons. naive_solver.
Qed.

Lemma prefixes_members e x : x ∈ prefixes e ↔ has_prefix e x.
Proof.
  unfold prefixes, has_prefix. rewrite sort_str_perm.
  destruct (projects_loop_spec (projects e) [] (NoDup_nil_2)) as [_ ->].
  rewrite elem_of_nil. naive_solver.
Qed.

Lemma prefixes_nodup e : NoDup (prefixes e).
Proof.
  unfold prefixes. rewrite sort_str_perm.
  by destruct (projects_loop_spec (projects e) [] (NoDup_nil_2)) as [? _].
Qed.

(** [prefixes] returns the prefixes of the experiment's libraries, each
    once, in increasing order. *)
Theorem prefixes_sorted_distinct e :
  StronglySorted str_le (prefixes e)
  ∧ NoDup (prefixes e)
  ∧ ∀ x, x ∈ prefixes e ↔ has_prefix e x.
Proof.
  split; [apply sort_str_sorted|].
  split; [apply prefixes_nodup | apply prefixes_members].
Qed.

Lemma prefixes_same_members e1 e2 :
  prefixes e1 = prefixes e2 ↔ ∀ x, has_prefix e1 x ↔ has_prefix e2 x.
Proof.
  split.
  - intros Heq x. by rewrite <- !prefixes_members, Heq.
  - intros Hsame. apply sorted_same_members;
      try apply sort_str_sorted; try apply prefixes_nodup.
    intros x. by rewrite !prefixes_members.
Qed.

(** Two experiments have equal [prefixes()], the test by which
    [get_experiments] combines them, exactly when their libraries have the
    same prefixes, in whatever order and number. *)
Theorem prefixes_equal_iff e1 e2 :
  prefixes e1 = prefixes e2 ↔ ∀ x, has_prefix e1 x ↔ has_prefix e2 x.
Proof. exact (prefixes_same_members e1 e2). Qed.

Lemma has_prefix_addProject e p x :
  has_prefix (addProject e p) x
  ↔ has_prefix e x
    ∨ ∃ lib, lib ∈ SolidProject.libraries p ∧ SolidLibrary.prefix lib = x.
Proof.
  unfold has_prefix, addProject. simpl.
  setoid_rewrite elem_of_app. setoid_rewrite list_elem_of_singleton.
  naive_solver.
Qed.

(** Adding to an experiment a project whose own prefixes are those of the
    experiment, as [get_experiments] does, leaves [prefixes()] as it was. *)
Theorem addProject_keeps_prefixes prev single project :
  projects single = [project] →
  prefixes single = prefixes prev →
  prefixes (addProject prev project) = prefixes prev.
Proof.
  intros Hsingle Heq. apply prefixes_same_members. intros x.
  rewrite has_prefix_addProject.
  pose proof (proj1 (prefixes_same_members single prev) Heq x) as Hx.
  split; [|by left]. intros [?|(lib & Hlib & Hp)]; [done|].
  apply Hx. exists project, lib. rewrite Hsingle.
  split; [by apply list_elem_of_singleton | done].
Qed.

Lemma addProject_keeps_prefixes_witness :
  SolidExperiment.prefixes
    (SolidExperiment.addProject
       (SolidExperiment.mk [example_project "PB" ["CD"; "AB"; "CD"]] "")
       (example_project "PB_2" ["AB"; "CD"]))
  = SolidExperiment.prefixes
      (SolidExperiment.mk [example_project "PB" ["CD"; "AB"; "CD"]] "").
Proof.
  apply (addProject_keeps_prefixes
           (SolidExperiment.mk [example_project "PB" ["CD"; "AB"; "CD"]] "")
           (SolidExperiment.mk [example_project "PB_2" ["AB"; "CD"]] "")
           (example_project "PB_2" ["AB"; "CD"])).
  - reflexivity.
  - vm_compute. reflexivity.
Defined.

(** ** [getExperimentName] *)

Lemma prefixes_no_projects e : projects e = [] → prefixes e = [].
Proof. unfold prefixes. by intros ->. Qed.

(** [getExperimentName] never raises: it returns a name that ends with
    ["_expt"], and ["UNKNOWN_expt"] for an experiment without libraries. *)
Theorem getExperimentName_returns e :
  (∃ stem, getExperimentName e = Return (stem ++ "_expt")%string)
  ∧ ((∀ x, ¬ has_prefix e x) →
     getExperimentName e = Return "UNKNOWN_expt"%string).
Proof.
  unfold getExperimentName. split.
  - case_bool_decide as Hmany.
    + destruct (projects e) as [|p ps] eqn:Hps; [|by eexists].
      rewrite (prefixes_no_projects e Hps) in Hmany. simpl in Hmany. lia.
    + case_bool_decide as Hone; [|by exists "UNKNOWN"%string].
      destruct (prefixes e); [done | by eexists].
  - intros Hnone.
    assert (prefixes e = []) as ->; [|done].
    destruct (prefixes e) as [|x l] eqn:Hp; [done|].
    destruct (Hnone x). apply prefixes_members. rewrite Hp. by left.
Qed.

Lemma getExperimentName_returns_witness :
  SolidExperiment.getExperimentName
    (SolidExperiment.mk [example_project "PB" []] "")
  = Return "UNKNOWN_expt".
Proof.
  apply (getExperimentName_returns
           (SolidExperiment.mk [example_project "PB" []] "")).
  intros x (p & lib & Hp & Hlib & _).
  apply list_elem_of_singleton in Hp as ->.
  simpl in Hlib. by apply elem_of_nil in Hlib.
Defined.

(** When all libraries of the experiment share one prefix, the experiment
    is named after it: the prefix without its leading and trailing
    underscores, followed by ["_expt"]. *)
Theorem getExperimentName_common_prefix e prefix :
  has_prefix e prefix →
  (∀ x, has_prefix e x → x = prefix) →
  getExperimentName e
  = Return (Substr.strip_chars "_" prefix ++ "_expt")%string.
Proof.
  intros Hhas Hall.
  assert (prefixes e = [prefix]) as Hp.
  { pose proof (prefixes_nodup e) as Hn.
    apply prefixes_members in Hhas.
    assert (∀ x, x ∈ prefixes e → x = prefix) as Hall'
      by (intros x Hx; by apply Hall, prefixes_members).
    destruct (prefixes e) as [|a [|b l]]; [by apply elem_of_nil in Hhas| |].
    - f_equal. apply Hall'. by left.
    - apply NoDup_cons in Hn as [Hab _]. destruct Hab.
      rewrite (Hall' a), (Hall' b); [by left | | by left].
      right. by left. }
  unfold getExperimentName. by rewrite Hp.
Qed.

Lemma getExperimentName_common_prefix_witness :
  SolidExperiment.getExperimentName
    (SolidExperiment.mk
       [example_project "PB" ["_AB_"]; example_project "PB_2" ["_AB_"]] "")
  = Return (Substr.strip_chars "_" "_AB_" ++ "_expt")%string.
Proof.
  apply (getExperimentName_common_prefix
           (SolidExperiment.mk
              [example_project "PB" ["_AB_"]; example_project "PB_2" ["_AB_"]]
              "")
           "_AB_").
  - exists (example_project "PB" ["_AB_"]), (SolidLibrary.mk "_AB_").
    split; [by left|]. split; [by left | reflexivity].
  - intros x (p & lib & Hp & Hlib & <-). simpl in Hp.
    apply elem_of_cons in Hp as [->|Hp].
    + simpl in Hlib. by apply list_elem_of_singleton in Hlib as ->.
    + apply list_elem_of_singleton in Hp as ->.
      simpl in Hlib. by apply list_elem_of_singleton in Hlib as ->.
Defined.

(** When the libraries of the experiment have different prefixes, the
    experiment is named after its first project. *)
Theorem getExperimentName_several_prefixes e x y :
  has_prefix e x → has_prefix e y → x ≠ y →
  ∃ project rest,
    projects e = project :: rest
    ∧ getExperimentName e
      = Return (SolidProject.name project ++ "_expt")%string.
Proof.
  intros Hx Hy Hxy.
  assert (1 < length (prefixes e))%nat as Hmany.
  { apply prefixes_members in Hx, Hy.
    destruct (prefixes e) as [|a [|b l]]; simpl; [| |lia].
    - by apply elem_of_nil in Hx.
    - apply list_elem_of_singleton in Hx, Hy. congruence. }
  unfold getExperimentName. rewrite bool_decide_eq_true_2 by done.
  destruct (projects e) as [|p ps] eqn:Hps; [|by exists p, ps].
  rewrite (prefixes_no_projects e Hps) in Hmany. simpl in Hmany. lia.
Qed.

Lemma getExperimentName_several_prefixes_witness :
  ∃ project rest,
    SolidExperiment.projects
      (SolidExperiment.mk [example_project "PB" ["AB"; "CD"]] "")
    = project :: rest
    ∧ SolidExperiment.getExperimentName
        (SolidExperiment.mk [example_project "PB" ["AB"; "CD"]] "")
      = Return (SolidProject.name project ++ "_expt")%string.
Proof.
  apply (getExperimentName_several_prefixes
           (SolidExperiment.mk [example_project "PB" ["AB"; "CD"]] "")
           "AB" "CD").
  - exists (example_project "PB" ["AB"; "CD"]), (SolidLibrary.mk "AB").
    split; [by left|]. split; [by left | reflexivity].
  - exists (example_project "PB" ["AB"; "CD"]), (SolidLibrary.mk "CD").
    split; [by left|]. split; [right; by left | reflexivity].
  - intros H. discriminate H.
Defined.

End experiments.
